(** * Kitsu-for-Docker: 2FA request gate and 2FA audit/enforcement CLI

    A shallow embedding of [scripts/zou_2fa_middleware.py] and
    [scripts/enforce_2fa.py], with the two start-up scripts that install
    the gate, and the properties of the written specification checked
    against it.

    Python strings are modelled as [string] (byte sequences).  The string
    methods are modelled on the ASCII range: [lower] maps [A-Z] to [a-z]
    and leaves every other byte alone, [strip] removes ASCII white space. *)

From Stdlib Require Import List String Ascii Bool Arith ZArith Lia DecimalString.
Import ListNotations.

Local Open Scope list_scope.
Local Open Scope string_scope.

(** ** Python primitives used by both scripts *)
Module Py.

(** [s.lstrip(c)] for a one-character argument. *)
Fixpoint lstrip (c : ascii) (s : string) : string :=
  match s with
  | EmptyString => EmptyString
  | String a s' => if Ascii.eqb a c then lstrip c s' else s
  end.

(** [s.startswith(p)]. *)
Definition startswith (s p : string) : bool := String.prefix p s.

(** [sub in s] on strings. *)
Fixpoint contains (sub s : string) : bool :=
  String.prefix sub s ||
  match s with
  | EmptyString => false
  | String _ s' => contains sub s'
  end.

(** [x in l] on a list of strings. *)
Definition str_in (x : string) (l : list string) : bool :=
  existsb (String.eqb x) l.

Definition lower_ascii (a : ascii) : ascii :=
  let n := nat_of_ascii a in
  if ((65 <=? n) && (n <=? 90))%nat then ascii_of_nat (n + 32) else a.

(** [s.lower()]. *)
Fixpoint lower (s : string) : string :=
  match s with
  | EmptyString => EmptyString
  | String a s' => String (lower_ascii a) (lower s')
  end.

Definition is_space (a : ascii) : bool :=
  let n := nat_of_ascii a in
  (((9 <=? n) && (n <=? 13)) || ((28 <=? n) && (n <=? 32)))%nat.

Fixpoint lstrip_ws (s : string) : string :=
  match s with
  | EmptyString => EmptyString
  | String a s' => if is_space a then lstrip_ws s' else s
  end.

Fixpoint rstrip_ws (s : string) : string :=
  match s with
  | EmptyString => EmptyString
  | String a s' =>
      match rstrip_ws s' with
      | EmptyString => if is_space a then EmptyString else String a EmptyString
      | r => String a r
      end
  end.

(** [s.strip()]. *)
Definition strip (s : string) : string := rstrip_ws (lstrip_ws s).

(** [s.split(sep)] for a one-character separator. *)
Fixpoint split (sep : ascii) (s : string) : list string :=
  match s with
  | EmptyString => [EmptyString]
  | String a s' =>
      if Ascii.eqb a sep then EmptyString :: split sep s'
      else match split sep s' with
           | h :: t => String a h :: t
           | [] => [String a EmptyString]
           end
  end.

(** [sep.join(l)]. *)
Definition join (sep : string) (l : list string) : string := String.concat sep l.

(** The process environment and [os.getenv(name, default)]. *)
Definition environ := list (string * string).

Fixpoint lookup {V : Type} (k : string) (d : list (string * V)) : option V :=
  match d with
  | [] => None
  | (k', v) :: d' => if String.eqb k k' then Some v else lookup k d'
  end.

Definition getenv (env : environ) (name default : string) : string :=
  match lookup name env with
  | Some v => v
  | None => default
  end.

(** Python values that reach the two scripts. *)
Inductive pyval :=
| PyNone
| PyBool (b : bool)
| PyInt (z : Z)
| PyStr (s : string).

(** [bool(v)]. *)
Definition truthy (v : pyval) : bool :=
  match v with
  | PyNone => false
  | PyBool b => b
  | PyInt z => negb (Z.eqb z 0)
  | PyStr s => negb (String.eqb s EmptyString)
  end.

(** [a or b] on already evaluated operands. *)
Definition py_or (a b : pyval) : pyval := if truthy a then a else b.

(** [str(v)], as an f-string renders it. *)
Definition str (v : pyval) : string :=
  match v with
  | PyNone => "None"
  | PyBool true => "True"
  | PyBool false => "False"
  | PyInt z => NilZero.string_of_int (Z.to_int z)
  | PyStr s => s
  end.

(** A [dict] with string keys, [d.get(k, default)] and [bool(d)]. *)
Definition pydict := list (string * pyval).

Definition dict_get (d : pydict) (k : string) (default : pyval) : pyval :=
  match lookup k d with
  | Some v => v
  | None => default
  end.

(** Exception classes the scripts name, and a catch-all for every other
    subclass of [Exception]. *)
Inductive exn_class :=
| ImportError
| AttributeError
| NoAuthorizationError
| InvalidHeaderError
| Psycopg2Error
| EOFError
| OtherException (name : string).

Record exn := Exn { exn_cls : exn_class; exn_msg : string }.

Definition is_ImportError (e : exn) : bool :=
  match exn_cls e with ImportError => true | _ => false end.

Definition is_AttributeError (e : exn) : bool :=
  match exn_cls e with AttributeError => true | _ => false end.

Definition is_Psycopg2Error (e : exn) : bool :=
  match exn_cls e with Psycopg2Error => true | _ => false end.

(** The result of evaluating a Python expression or statement. *)
Inductive res (A : Type) :=
| Ok (a : A)
| Raise (e : exn).
Arguments Ok {A} a.
Arguments Raise {A} e.

End Py.

(** ** The request gate: [Enforce2FAMiddleware] of [zou_2fa_middleware.py] *)
Module Middleware.
Import Py.

(** The part of Flask's [request] the gate reads. *)
Record request := {
  path : string;
  method : string;
  is_json : bool;
  headers : list (string * string)
}.

(** [request.headers.get(name, default)]; header names compare without case. *)
Fixpoint headers_get (h : list (string * string)) (name default : string) : string :=
  match h with
  | [] => default
  | (k, v) :: h' =>
      if String.eqb (lower k) (lower name) then v else headers_get h' name default
  end.

(** What [jsonify] and [make_response] are given. *)
Inductive body :=
| Jsonify (d : pydict)
| MakeResponse (html : string).

Record response := {
  status_code : Z;
  resp_body : body
}.

(** What the host process offers the gate on one request: the outcome of
    each import statement, flask_login's [current_user] proxy, and the
    functions of flask_jwt_extended and of zou's [persons_service]. *)
Record pyobj := {
  obj_bool : res bool;
  obj_attr : string -> res pyval
}.

Record world := {
  import_flask_login : res unit;
  current_user : pyobj;
  import_flask_jwt_extended : res unit;
  import_flask_jwt_extended_exceptions : res unit;
  import_persons_service : res unit;
  verify_jwt_in_request : res unit;
  get_jwt_identity : res pyval;
  get_person : pyval -> res (option pydict)
}.

(** Effects of one run of the gate, in order. *)
Inductive event :=
| EvImport (name : string)
| EvSession (what : string)
| EvJwt (what : string)
| EvPrint (line : string).

(** Computations that may raise and that log their effects; the gate
    never reads the log back. *)
Definition M (A : Type) : Type := (res A * list event)%type.

Definition ret {A} (a : A) : M A := (Ok a, []).

Definition raise {A} (e : exn) : M A := (Raise e, []).

Definition bind {A B} (m : M A) (f : A -> M B) : M B :=
  match m with
  | (Ok a, l) => let (r, l') := f a in (r, (l ++ l')%list)
  | (Raise e, l) => (Raise e, l)
  end.

Notation "x <- m ;; k" := (bind m (fun x => k))
  (at level 61, m at next level, right associativity).
Notation "m ;; k" := (bind m (fun _ => k))
  (at level 61, right associativity).

(** An interaction with the host: log it and take its outcome. *)
Definition ext {A} (ev : event) (r : res A) : M A := (r, [ev]).

Definition print_ (line : string) : M unit := ext (EvPrint line) (Ok tt).

(** [try: m except C1: h1 except C2: h2 ...]: the first clause whose
    class matches handles the exception; the handler runs outside the
    [try], so what it raises is not offered to the later clauses. *)
Definition clause (A : Type) : Type := ((exn -> bool) * (exn -> M A))%type.

Fixpoint dispatch {A} (cs : list (clause A)) (e : exn) : option (M A) :=
  match cs with
  | [] => None
  | (p, h) :: cs' => if p e then Some (h e) else dispatch cs' e
  end.

Definition try_ {A} (m : M A) (cs : list (clause A)) : M A :=
  match m with
  | (Ok a, l) => (Ok a, l)
  | (Raise e, l) =>
      match dispatch cs e with
      | Some h => let (r, l') := h in (r, (l ++ l')%list)
      | None => (Raise e, l)
      end
  end.

(** [except Exception]: every modelled class is a subclass of [Exception]. *)
Definition is_Exception (e : exn) : bool := true.

(** [except (NoAuthorizationError, InvalidHeaderError)]. *)
Definition is_NoAuthorization_or_InvalidHeader (e : exn) : bool :=
  match exn_cls e with
  | NoAuthorizationError | InvalidHeaderError => true
  | _ => false
  end.

(** How a block of statements ends: by falling off its end, or by a
    [return]. *)
Inductive flow :=
| Next
| Return (v : option response).

Definition return_ (v : option response) : M flow := ret (Return v).

(** [bool(o)], [o.name] and [getattr(o, name, default)] on the proxy. *)
Definition bool_ (o : pyobj) : M bool := ext (EvSession "bool") (obj_bool o).

Definition attr (o : pyobj) (name : string) : M pyval :=
  ext (EvSession name) (obj_attr o name).

Definition getattr (o : pyobj) (name : string) (default : pyval) : M pyval :=
  try_ (attr o name) [(is_AttributeError, fun _ => ret default)].

Record middleware := {
  require_2fa : bool;
  exempt_users : list string
}.

Definition _get_exempt_users (env : environ) : list string :=
  let exempt_users_str := getenv env "2FA_EXEMPT_USERS" "" in
  if negb (String.eqb exempt_users_str "") then
    map (fun email => lower (strip email)) (split ","%char exempt_users_str)
  else [].

(** [__init__], without the banner it prints. *)
Definition init (env : environ) : middleware :=
  {| require_2fa := str_in (lower (getenv env "REQUIRE_2FA" "False")) ["true"; "1"; "yes"];
     exempt_users := _get_exempt_users env |}.

Definition _is_exempt_user (self : middleware) (email : pyval) : M bool :=
  if negb (truthy email) then ret false
  else match email with
       | PyStr s => ret (str_in (lower s) (exempt_users self))
       | _ => raise (Exn AttributeError "object has no attribute 'lower'")
       end.

Definition _has_2fa_enabled (user : pyobj) : M pyval :=
  b <- bool_ user ;;
  if negb b then ret (PyBool false)
  else
    totp <- getattr user "totp_enabled" (PyBool false) ;;
    if truthy totp then ret totp
    else
      email_otp <- getattr user "email_otp_enabled" (PyBool false) ;;
      if truthy email_otp then ret email_otp
      else getattr user "fido_enabled" (PyBool false).

Definition allowed_patterns : list string :=
  [ "api/auth/login";
    "auth/login";
    "api/auth/logout";
    "auth/logout";
    "api/auth/authenticated";
    "auth/authenticated";
    "api/auth/register";
    "auth/register";
    "api/auth/totp";
    "auth/totp";
    "api/auth/fido";
    "auth/fido";
    "api/auth/email-otp";
    "auth/email-otp";
    "api/auth/recovery-codes";
    "auth/recovery-codes";
    "static/";
    "config";
    "_health";
    "health";
    "api/actions/persons/enable-totp";
    "actions/persons/enable-totp";
    "api/actions/persons/disable-totp";
    "actions/persons/disable-totp";
    "api/actions/persons/enable-email-otp";
    "actions/persons/enable-email-otp";
    "api/actions/persons/disable-email-otp";
    "actions/persons/disable-email-otp";
    "api/actions/persons/register-fido-device";
    "actions/persons/register-fido-device";
    "api/actions/persons/unregister-fido-device";
    "actions/persons/unregister-fido-device";
    "api/actions/persons/generate-recovery-codes";
    "actions/persons/generate-recovery-codes" ].

Definition _is_allowed_route (req : request) (path : string) : bool :=
  let normalized := lstrip "/"%char path in
  if String.eqb (method req) "GET"
     && (startswith normalized "data/" || startswith normalized "api/data/")
  then true
  else if existsb (fun pattern => startswith normalized pattern) allowed_patterns
  then true
  else if String.eqb (method req) "OPTIONS" then true
  else false.

Definition nl : string := String (ascii_of_nat 10) EmptyString.
Definition dq : string := String (ascii_of_nat 34) EmptyString.

Definition message : string :=
  "Two-Factor Authentication is required for your account. " ++
  "Please configure 2FA in your profile settings before continuing.".

(** The lines of the page between the opening and the closing triple
    quote of the template. *)
Definition html_lines : list string :=
  [ "        <!DOCTYPE html>";
    "        <html>";
    "        <head>";
    "            <title>2FA Required</title>";
    ("            <meta http-equiv=" ++ dq ++ "refresh" ++ dq ++ " content=" ++ dq ++ "0;url=/profile" ++ dq ++ " />");
    "            <script>";
    "                // Try to redirect via JavaScript as well for SPAs";
    "                setTimeout(function() {";
    "                    window.location.href = '/profile';";
    "                }, 100);";
    "            </script>";
    "            <style>";
    "                body {";
    ("                    font-family: -apple-system, BlinkMacSystemFont, " ++ dq ++ "Segoe UI" ++ dq ++ ", Roboto, " ++ dq ++ "Helvetica Neue" ++ dq ++ ", Arial, sans-serif;");
    "                    display: flex;";
    "                    justify-content: center;";
    "                    align-items: center;";
    "                    min-height: 100vh;";
    "                    margin: 0;";
    "                    background: linear-gradient(135deg, #667eea 0%, #764ba2 100%);";
    "                }";
    "                .container {";
    "                    background: white;";
    "                    padding: 3rem;";
    "                    border-radius: 1rem;";
    "                    box-shadow: 0 20px 60px rgba(0,0,0,0.3);";
    "                    max-width: 500px;";
    "                    text-align: center;";
    "                }";
    "                h1 {";
    "                    color: #333;";
    "                    margin-bottom: 1rem;";
    "                    font-size: 2rem;";
    "                }";
    "                .icon {";
    "                    font-size: 4rem;";
    "                    margin-bottom: 1rem;";
    "                }";
    "                p {";
    "                    color: #666;";
    "                    line-height: 1.6;";
    "                    margin-bottom: 1.5rem;";
    "                }";
    "                .steps {";
    "                    text-align: left;";
    "                    background: #f7f7f7;";
    "                    padding: 1.5rem;";
    "                    border-radius: 0.5rem;";
    "                    margin: 1.5rem 0;";
    "                }";
    "                .steps ol {";
    "                    margin: 0;";
    "                    padding-left: 1.5rem;";
    "                }";
    "                .steps li {";
    "                    margin: 0.5rem 0;";
    "                    color: #444;";
    "                }";
    "                .button {";
    "                    display: inline-block;";
    "                    background: #667eea;";
    "                    color: white;";
    "                    padding: 0.75rem 2rem;";
    "                    border-radius: 0.5rem;";
    "                    text-decoration: none;";
    "                    font-weight: 600;";
    "                    transition: background 0.3s;";
    "                }";
    "                .button:hover {";
    "                    background: #5568d3;";
    "                }";
    "                .warning {";
    "                    background: #fff3cd;";
    "                    border: 1px solid #ffc107;";
    "                    color: #856404;";
    "                    padding: 1rem;";
    "                    border-radius: 0.5rem;";
    "                    margin: 1rem 0;";
    "                }";
    "            </style>";
    "        </head>";
    "        <body>";
    ("            <div class=" ++ dq ++ "container" ++ dq ++ ">");
    ("                <div class=" ++ dq ++ "icon" ++ dq ++ ">🔐</div>");
    "                <h1>Two-Factor Authentication Required</h1>";
    "";
    ("                <div class=" ++ dq ++ "warning" ++ dq ++ ">");
    "                    <strong>Action Required:</strong> Your organization requires all users to enable 2FA.";
    "                </div>";
    "";
    "                <p>For security reasons, you must configure two-factor authentication before you can access Kitsu.</p>";
    "";
    ("                <div class=" ++ dq ++ "steps" ++ dq ++ ">");
    "                    <strong>How to enable 2FA:</strong>";
    "                    <ol>";
    "                        <li>Click on your avatar in the top-right corner</li>";
    "                        <li>Select <strong>Profile</strong></li>";
    "                        <li>Scroll to <strong>Two-Factor Authentication</strong></li>";
    "                        <li>Choose your preferred method:";
    "                            <ul>";
    "                                <li><strong>TOTP</strong> - Use an authenticator app</li>";
    "                                <li><strong>Email OTP</strong> - Receive codes via email</li>";
    "                                <li><strong>FIDO</strong> - Use a hardware security key</li>";
    "                            </ul>";
    "                        </li>";
    "                        <li>Complete the setup process</li>";
    "                    </ol>";
    "                </div>";
    "";
    ("                <a href=" ++ dq ++ "/" ++ dq ++ " class=" ++ dq ++ "button" ++ dq ++ ">Go to Kitsu</a>");
    "";
    ("                <p style=" ++ dq ++ "margin-top: 2rem; font-size: 0.9rem; color: #999;" ++ dq ++ ">");
    "                    You will be redirected automatically in 3 seconds...";
    "                </p>";
    "            </div>";
    "        </body>";
    "        </html>" ].

Definition html_response : string :=
  nl ++ join nl html_lines ++ nl ++ "        ".

Definition is_api_request (req : request) : bool :=
  startswith (path req) "/api/"
  || startswith (path req) "/data/"
  || startswith (path req) "/actions/"
  || is_json req
  || startswith (headers_get (headers req) "Accept" "") "application/json"
  || contains "XMLHttpRequest" (headers_get (headers req) "X-Requested-With" "").

Definition _handle_2fa_required (req : request) (user_email : pyval) : response :=
  if is_api_request req then
    {| status_code := 403;
       resp_body := Jsonify [ ("error", PyBool true);
                              ("message", PyStr message);
                              ("2fa_required", PyBool true);
                              ("redirect_to", PyStr "/profile");
                              ("user_email", user_email) ] |}
  else
    {| status_code := 403;
       resp_body := MakeResponse html_response |}.

(** The body of the outer [try]: the flask_login path. *)
Definition session_path (self : middleware) (w : world) (req : request) : M flow :=
  ext (EvImport "flask_login") (import_flask_login w) ;;
  b <- bool_ (current_user w) ;;
  if negb b then return_ None
  else
    authenticated <- attr (current_user w) "is_authenticated" ;;
    if negb (truthy authenticated) then return_ None
    else
      user_email <- getattr (current_user w) "email" PyNone ;;
      exempt <- _is_exempt_user self user_email ;;
      if exempt then return_ None
      else
        has_2fa <- _has_2fa_enabled (current_user w) ;;
        if negb (truthy has_2fa) then
          if String.eqb (method req) "GET" then return_ None
          else
            print_ ("[2FA] BLOCKING " ++ method req ++ " from user "
                    ++ str user_email ++ " - 2FA required") ;;
            return_ (Some (_handle_2fa_required req user_email))
        else ret Next.

(** The innermost [try] of the bearer-token path, after its imports. *)
Definition jwt_lookup (self : middleware) (w : world) (req : request) : M flow :=
  verified <- try_ (ext (EvJwt "verify_jwt_in_request") (verify_jwt_in_request w) ;; ret Next)
                   [(is_NoAuthorization_or_InvalidHeader, fun _ => return_ None)] ;;
  match verified with
  | Return v => ret (Return v)
  | Next =>
      user_id <- ext (EvJwt "get_jwt_identity") (get_jwt_identity w) ;;
      print_ ("[2FA DEBUG] JWT user_id: " ++ str user_id) ;;
      if truthy user_id then
        user <- ext (EvJwt "get_person") (get_person w user_id) ;;
        match user with
        | Some ((_ :: _) as user) =>
            let user_email := dict_get user "email" PyNone in
            exempt <- _is_exempt_user self user_email ;;
            if exempt then return_ None
            else
              let has_2fa :=
                py_or (dict_get user "totp_enabled" (PyBool false))
                      (py_or (dict_get user "email_otp_enabled" (PyBool false))
                             (dict_get user "fido_enabled" (PyBool false))) in
              if negb (truthy has_2fa) then
                if String.eqb (method req) "GET" then return_ None
                else
                  print_ ("[2FA] BLOCKING " ++ method req ++ " from user "
                          ++ str user_email ++ " - 2FA required") ;;
                  return_ (Some (_handle_2fa_required req user_email))
              else ret Next
        | _ => ret Next
        end
      else ret Next
  end.

(** The handler of [except ImportError]: the bearer-token path. *)
Definition jwt_path (self : middleware) (w : world) (req : request) : M flow :=
  try_ (ext (EvImport "flask_jwt_extended") (import_flask_jwt_extended w) ;;
        ext (EvImport "flask_jwt_extended.exceptions")
            (import_flask_jwt_extended_exceptions w) ;;
        ext (EvImport "zou.app.services") (import_persons_service w) ;;
        try_ (jwt_lookup self w req) [(is_Exception, fun _ => ret Next)])
       [(is_ImportError, fun _ => ret Next)].

(** The before-request handler; [None] lets the request through. *)
Definition check_2fa_requirement (self : middleware) (w : world) (req : request)
  : M (option response) :=
  if negb (require_2fa self) then ret None
  else
    let clean_path := lstrip "/"%char (path req) in
    if _is_allowed_route req clean_path then ret None
    else
      print_ ("[2FA DEBUG] Checking 2FA for path: " ++ clean_path
              ++ ", method: " ++ method req) ;;
      r <- try_ (session_path self w req)
                [ (is_ImportError, fun _ => jwt_path self w req);
                  (is_Exception, fun e =>
                     print_ ("[2FA ERROR] Exception in 2FA middleware: " ++ exn_msg e) ;;
                     ret Next) ] ;;
      match r with
      | Return v => ret v
      | Next => ret None
      end.

End Middleware.

(** ** The audit and enforcement script: [enforce_2fa.py] *)
Module Enforce.
Import Py.

(** A row of the [person] table; [None] is SQL [NULL]. *)
Record person := {
  id : string;
  email : option string;
  first_name : option string;
  last_name : option string;
  totp_enabled : option bool;
  email_otp_enabled : option bool;
  fido_enabled : option bool;
  active : option bool;
  role : option string
}.

(** A column value used as a Python condition. *)
Definition col_truthy (c : option bool) : bool :=
  match c with
  | Some true => true
  | _ => false
  end.

(** [col = TRUE] and [col = FALSE] in a [WHERE] clause. *)
Definition sql_is_true (c : option bool) : bool :=
  match c with
  | Some true => true
  | _ => false
  end.

Definition sql_is_false (c : option bool) : bool :=
  match c with
  | Some false => true
  | _ => false
  end.

Definition is_some {A} (o : option A) : bool :=
  match o with
  | Some _ => true
  | None => false
  end.

(** Calls made on the connection and its cursor, in order. *)
Inductive call :=
| Connect
| SelectAll
| SelectActiveWithout2FA
| UpdateActiveFalse (user_id : string)
| UpdateActiveTrue (user_id : string)
| Commit
| Rollback
| CursorClose
| ConnClose.

(** The database and the terminal around one run of the script.  [table]
    holds the committed rows, [txn] the rows as the open transaction
    sees them. *)
Record state := {
  table : list person;
  txn : list person;
  stdin : list string;
  stdout : list string;
  stderr : list string;
  calls : list call
}.

(** Which storage calls raise, and what. *)
Record faults := {
  connect_fault : option exn;
  select_fault : option exn;
  update_fault : string -> option exn;
  commit_fault : option exn;
  rollback_fault : option exn
}.

(** How a computation ends: a value, an exception, or [sys.exit]. *)
Inductive outcome (A : Type) :=
| Val (a : A)
| Exc (e : exn)
| Exit (code : Z).
Arguments Val {A} a.
Arguments Exc {A} e.
Arguments Exit {A} code.

Definition M (A : Type) : Type := state -> outcome A * state.

Definition ret {A} (a : A) : M A := fun s => (Val a, s).

Definition raise {A} (e : exn) : M A := fun s => (Exc e, s).

Definition sys_exit {A} (code : Z) : M A := fun s => (Exit code, s).

Definition bind {A B} (m : M A) (f : A -> M B) : M B :=
  fun s =>
    match m s with
    | (Val a, s') => f a s'
    | (Exc e, s') => (Exc e, s')
    | (Exit c, s') => (Exit c, s')
    end.

Notation "x <- m ;; k" := (bind m (fun x => k))
  (at level 61, m at next level, right associativity).
Notation "m ;; k" := (bind m (fun _ => k))
  (at level 61, right associativity).

(** [try: m except psycopg2.Error as e: h e]. *)
Definition try_except_psycopg2 {A} (m : M A) (h : exn -> M A) : M A :=
  fun s =>
    match m s with
    | (Exc e, s') => if is_Psycopg2Error e then h e s' else (Exc e, s')
    | r => r
    end.

(** [try: m finally: c]: [c] runs however [m] ends; if [c] itself does
    not end normally, its ending replaces the one of [m]. *)
Definition try_finally {A} (m : M A) (c : M unit) : M A :=
  fun s =>
    match m s with
    | (r, s') =>
        match c s' with
        | (Val _, s'') => (r, s'')
        | (Exc e, s'') => (Exc e, s'')
        | (Exit k, s'') => (Exit k, s'')
        end
    end.

Definition set_txn (s : state) (t : list person) : state :=
  {| table := table s; txn := t; stdin := stdin s;
     stdout := stdout s; stderr := stderr s; calls := calls s |}.

Definition set_table (s : state) (t : list person) : state :=
  {| table := t; txn := txn s; stdin := stdin s;
     stdout := stdout s; stderr := stderr s; calls := calls s |}.

Definition log_call (c : call) : M unit :=
  fun s =>
    (Val tt, {| table := table s; txn := txn s; stdin := stdin s;
                stdout := stdout s; stderr := stderr s;
                calls := (calls s ++ [c])%list |}).

Definition print_ (line : string) : M unit :=
  fun s =>
    (Val tt, {| table := table s; txn := txn s; stdin := stdin s;
                stdout := (stdout s ++ [line])%list; stderr := stderr s;
                calls := calls s |}).

Definition eprint (line : string) : M unit :=
  fun s =>
    (Val tt, {| table := table s; txn := txn s; stdin := stdin s;
                stdout := stdout s; stderr := (stderr s ++ [line])%list;
                calls := calls s |}).

(** [input(prompt)]: the prompt goes to the terminal, one line is read;
    at end of input [EOFError] is raised. *)
Definition input (prompt : string) : M string :=
  fun s =>
    let out := (stdout s ++ [prompt])%list in
    match stdin s with
    | [] =>
        (Exc (Exn EOFError "EOF when reading a line"),
         {| table := table s; txn := txn s; stdin := [];
            stdout := out; stderr := stderr s; calls := calls s |})
    | line :: rest =>
        (Val line,
         {| table := table s; txn := txn s; stdin := rest;
            stdout := out; stderr := stderr s; calls := calls s |})
    end.

Definition fail_with {A} (o : option exn) (ok : M A) : M A :=
  match o with
  | Some e => raise e
  | None => ok
  end.

Definition get_db_connection (f : faults) : M unit :=
  try_except_psycopg2
    (log_call Connect ;; fail_with (connect_fault f) (ret tt))
    (fun e =>
       eprint ("Error connecting to database: " ++ exn_msg e) ;;
       sys_exit 1).

Definition get_exempt_users (env : environ) : list string :=
  let exempt_users_str := getenv env "2FA_EXEMPT_USERS" "" in
  if negb (String.eqb exempt_users_str "") then
    map (fun email => strip email) (split ","%char exempt_users_str)
  else [].

(** The transaction as PostgreSQL keeps it behind psycopg2: a statement
    that raises a storage error aborts the open transaction, and every
    later statement is refused until the transaction ends.  Whether the
    open transaction is aborted is read off the calls made so far. *)
Definition storage_fault (o : option exn) : bool :=
  match o with
  | Some e => is_Psycopg2Error e
  | None => false
  end.

Definition statement_aborts (f : faults) (c : call) : bool :=
  match c with
  | SelectAll | SelectActiveWithout2FA => storage_fault (select_fault f)
  | UpdateActiveFalse user_id | UpdateActiveTrue user_id =>
      storage_fault (update_fault f user_id)
  | _ => false
  end.

Definition ends_transaction (c : call) : bool :=
  match c with
  | Connect | Commit | Rollback | ConnClose => true
  | _ => false
  end.

Fixpoint aborted_after (f : faults) (cs : list call) (aborted : bool) : bool :=
  match cs with
  | [] => aborted
  | c :: cs' =>
      aborted_after f cs'
        (if ends_transaction c then false
         else aborted || statement_aborts f c)
  end.

Definition txn_aborted (f : faults) (s : state) : bool :=
  aborted_after f (calls s) false.

(** What a statement raises inside an aborted transaction. *)
Definition in_failed_transaction : exn :=
  Exn Psycopg2Error
    "current transaction is aborted, commands ignored until end of transaction block".

(** [cur.execute(...)] for the statement [c]: refused inside an aborted
    transaction, else it raises what the storage raises for it, else it
    takes effect. *)
Definition execute {A} (f : faults) (c : call) (own : option exn)
           (ok : M A) : M A :=
  fun s =>
    let refused := txn_aborted f s in
    (log_call c ;;
     if refused then raise in_failed_transaction else fail_with own ok) s.

(** [conn.commit()], [conn.rollback()], [cur.close()], [conn.close()].
    A [COMMIT] sent inside an aborted transaction is carried out as a
    rollback and raises nothing. *)
Definition commit (f : faults) : M unit :=
  fun s =>
    let aborted := txn_aborted f s in
    (log_call Commit ;;
     fail_with (commit_fault f)
       (fun s' =>
          (Val tt,
           if aborted then set_txn s' (table s')
           else set_table s' (txn s')))) s.

Definition rollback (f : faults) : M unit :=
  log_call Rollback ;;
  fail_with (rollback_fault f) (fun s => (Val tt, set_txn s (table s))).

Definition cursor_close : M unit := log_call CursorClose.

Definition conn_close : M unit :=
  log_call ConnClose ;; (fun s => (Val tt, set_txn s (table s))).

(** A fetched row of the audit query, in column order; [email] is not
    [NULL] there. *)
Record row := {
  row_id : string;
  row_email : string;
  row_first_name : option string;
  row_last_name : option string;
  row_totp : option bool;
  row_email_otp : option bool;
  row_fido : option bool;
  row_active : option bool;
  row_role : option string
}.

Definition to_row (p : person) : option row :=
  match email p with
  | None => None
  | Some e =>
      Some {| row_id := id p; row_email := e;
              row_first_name := first_name p; row_last_name := last_name p;
              row_totp := totp_enabled p; row_email_otp := email_otp_enabled p;
              row_fido := fido_enabled p; row_active := active p;
              row_role := role p |}
  end.

Fixpoint filter_map {A B} (g : A -> option B) (l : list A) : list B :=
  match l with
  | [] => []
  | a :: l' =>
      match g a with
      | Some b => b :: filter_map g l'
      | None => filter_map g l'
      end
  end.

(** [ORDER BY email], on the byte order of the strings. *)
Fixpoint insert_by_email (r : row) (l : list row) : list row :=
  match l with
  | [] => [r]
  | r' :: l' =>
      if String.leb (row_email r) (row_email r') then r :: l
      else r' :: insert_by_email r l'
  end.

Definition order_by_email (l : list row) : list row :=
  fold_right insert_by_email [] l.

(** The audit query: every row with an email, ordered by email. *)
Definition select_all (f : faults) : M (list row) :=
  execute f SelectAll (select_fault f)
    (fun s => (Val (order_by_email (filter_map to_row (txn s))), s)).

(** A fetched row of the enforcement query:
    [(id, email, first_name, last_name, role)]. *)
Definition row5 : Type :=
  (string * string * option string * option string * option string)%type.

Definition to_row5 (p : person) : option row5 :=
  match email p with
  | Some e =>
      if sql_is_true (active p)
         && sql_is_false (totp_enabled p)
         && sql_is_false (email_otp_enabled p)
         && sql_is_false (fido_enabled p)
      then Some (id p, e, first_name p, last_name p, role p)
      else None
  | None => None
  end.

(** The enforcement query: active rows with an email and all three
    methods [FALSE]. *)
Definition select_active_without_2fa (f : faults) : M (list row5) :=
  execute f SelectActiveWithout2FA (select_fault f)
    (fun s => (Val (filter_map to_row5 (txn s)), s)).

Definition deactivate (user_id : string) (p : person) : person :=
  if String.eqb (id p) user_id then
    {| id := id p; email := email p; first_name := first_name p;
       last_name := last_name p; totp_enabled := totp_enabled p;
       email_otp_enabled := email_otp_enabled p; fido_enabled := fido_enabled p;
       active := Some false; role := role p |}
  else p.

(** [UPDATE person SET active = FALSE WHERE id = %s]. *)
Definition update_active_false (f : faults) (user_id : string) : M unit :=
  execute f (UpdateActiveFalse user_id) (update_fault f user_id)
    (fun s => (Val tt, set_txn s (map (deactivate user_id) (txn s)))).

(** [x or ''] and the displayed name. *)
Definition or_empty (o : option string) : string :=
  match o with
  | Some x => x
  | None => ""
  end.

Definition full_name (first last : option string) : string :=
  strip (or_empty first ++ " " ++ or_empty last).

Definition str_opt (o : option string) : string :=
  match o with
  | Some x => x
  | None => "None"
  end.

Definition str_nat (n : nat) : string := NilZero.string_of_uint (Nat.to_uint n).

Definition str_Z (z : Z) : string := NilZero.string_of_int (Z.to_int z).

Fixpoint repeat_str (x : string) (n : nat) : string :=
  match n with
  | O => ""
  | S n' => x ++ repeat_str x n'
  end.

(** The format [{x:<40}]. *)
Definition ljust (x : string) (width : nat) : string :=
  x ++ repeat_str " " (width - String.length x).

Record user_info := {
  ui_id : string;
  ui_email : string;
  ui_name : string;
  ui_totp : option bool;
  ui_email_otp : option bool;
  ui_fido : option bool;
  ui_active : option bool;
  ui_role : option string;
  ui_exempt : bool
}.

Record buckets := {
  users_without_2fa : list user_info;
  users_with_2fa : list user_info;
  inactive_users : list user_info
}.

(** One turn of the loop over the fetched rows. *)
Definition bucket_user (exempt_users : list string) (b : buckets) (user : row) : buckets :=
  let has_2fa :=
    col_truthy (row_totp user) || col_truthy (row_email_otp user)
    || col_truthy (row_fido user) in
  let is_exempt := str_in (row_email user) exempt_users in
  let info :=
    {| ui_id := row_id user; ui_email := row_email user;
       ui_name := full_name (row_first_name user) (row_last_name user);
       ui_totp := row_totp user; ui_email_otp := row_email_otp user;
       ui_fido := row_fido user; ui_active := row_active user;
       ui_role := row_role user; ui_exempt := is_exempt |} in
  if negb (col_truthy (row_active user)) then
    {| users_without_2fa := users_without_2fa b;
       users_with_2fa := users_with_2fa b;
       inactive_users := (inactive_users b ++ [info])%list |}
  else if has_2fa then
    {| users_without_2fa := users_without_2fa b;
       users_with_2fa := (users_with_2fa b ++ [info])%list;
       inactive_users := inactive_users b |}
  else
    {| users_without_2fa := (users_without_2fa b ++ [info])%list;
       users_with_2fa := users_with_2fa b;
       inactive_users := inactive_users b |}.

Definition bucket_users (exempt_users : list string) (users : list row) : buckets :=
  fold_left (bucket_user exempt_users) users
    {| users_without_2fa := []; users_with_2fa := []; inactive_users := [] |}.

Definition exempt_marker (u : user_info) : string :=
  if ui_exempt u then " [EXEMPT]" else "".

Definition methods (u : user_info) : list string :=
  List.concat [ if col_truthy (ui_totp u) then ["TOTP"] else [];
           if col_truthy (ui_email_otp u) then ["Email OTP"] else [];
           if col_truthy (ui_fido u) then ["FIDO"] else [] ].

Definition name_role_line (u : user_info) : string :=
  "    Name: " ++ ui_name u ++ ", Role: " ++ str_opt (ui_role u).

Definition section (title : string) (l : list user_info)
           (entry : user_info -> string) : list string :=
  match l with
  | [] => []
  | _ =>
      List.concat [ [title; repeat_str "-" 80];
               flat_map (fun u => [entry u; name_role_line u]) l;
               [""] ]
  end.

(** Everything the audit prints, line by line. *)
Definition report_lines (now : string) (exempt_users : list string)
           (users : list row) (b : buckets) : list string :=
  List.concat [
   [ repeat_str "=" 80;
     "2FA AUDIT REPORT";
     repeat_str "=" 80;
     "Generated: " ++ now;
     "";
     "SUMMARY:";
     "  Total users: " ++ str_nat (List.length users);
     "  Users with 2FA: " ++ str_nat (List.length (users_with_2fa b));
     "  Users without 2FA: " ++ str_nat (List.length (users_without_2fa b));
     "  Inactive users: " ++ str_nat (List.length (inactive_users b));
     "  Exempt users: "
       ++ str_nat (List.length (filter (fun u => str_in (row_email u) exempt_users) users));
     "" ];
   section "USERS WITH 2FA ENABLED:" (users_with_2fa b)
        (fun u => "  ✓ " ++ ljust (ui_email u) 40 ++ " "
                  ++ join ", " (methods u) ++ exempt_marker u);
   section "USERS WITHOUT 2FA:" (users_without_2fa b)
        (fun u => "  ✗ " ++ ljust (ui_email u) 40 ++ " "
                  ++ (if col_truthy (ui_active u) then "Active" else "Inactive")
                  ++ exempt_marker u);
   section "INACTIVE USERS:" (inactive_users b)
        (fun u => "  - " ++ ljust (ui_email u) 40 ++ " "
                  ++ (if col_truthy (ui_totp u) || col_truthy (ui_email_otp u)
                         || col_truthy (ui_fido u)
                      then "with 2FA" else "without 2FA")
                  ++ exempt_marker u);
   match exempt_users with
   | [] => []
   | _ => List.concat [ ["CONFIGURED EXEMPT USERS:"; repeat_str "-" 80];
                   map (fun email => "  • " ++ email) exempt_users;
                   [""] ]
   end;
   [ repeat_str "=" 80 ] ].

Fixpoint print_all (lines : list string) : M unit :=
  match lines with
  | [] => ret tt
  | l :: ls => print_ l ;; print_all ls
  end.

(** [audit_users()]; [now] is the formatted clock reading. *)
Definition audit_users (f : faults) (env : environ) (now : string) : M Z :=
  get_db_connection f ;;
  let exempt_users := get_exempt_users env in
  try_finally
    (try_except_psycopg2
       (users <- select_all f ;;
        let b := bucket_users exempt_users users in
        print_all (report_lines now exempt_users users b) ;;
        ret (Z.of_nat (List.length (users_without_2fa b))))
       (fun e =>
          eprint ("Database error: " ++ exn_msg e) ;;
          ret (-1)%Z))
    (cursor_close ;; conn_close).

(** The loop that disables the listed users, one [UPDATE] each. *)
Fixpoint disable_users (f : faults) (users_to_disable : list row5)
         (disabled_count : Z) : M Z :=
  match users_to_disable with
  | [] => ret disabled_count
  | (user_id, email, _, _, _) :: rest =>
      count <- try_except_psycopg2
                 (update_active_false f user_id ;;
                  print_ ("  ✓ Disabled: " ++ email) ;;
                  ret (disabled_count + 1)%Z)
                 (fun e =>
                    eprint ("  ✗ Failed to disable " ++ email ++ ": " ++ exn_msg e) ;;
                    ret disabled_count) ;;
      disable_users f rest count
  end.

Definition listing_line (u : row5) : string :=
  match u with
  | (_, email, first, last, role) =>
      "  • " ++ email ++ " (Name: " ++ full_name first last
      ++ ", Role: " ++ str_opt role ++ ")"
  end.

(** [enforce_2fa()]. *)
Definition enforce_2fa (f : faults) (env : environ) : M Z :=
  get_db_connection f ;;
  let exempt_users := get_exempt_users env in
  try_finally
    (try_except_psycopg2
       (users <- select_active_without_2fa f ;;
        match users with
        | [] =>
            print_ "All active users have 2FA enabled. No action needed." ;;
            ret 0%Z
        | _ =>
            let users_to_disable :=
              filter (fun u => match u with
                               | (_, email, _, _, _) => negb (str_in email exempt_users)
                               end) users in
            match users_to_disable with
            | [] =>
                print_ "All users without 2FA are in the exempt list. No action needed." ;;
                ret 0%Z
            | _ =>
                print_all
                  (List.concat [
                   [ repeat_str "=" 80;
                     "2FA ENFORCEMENT";
                     repeat_str "=" 80;
                     "Found " ++ str_nat (List.length users_to_disable)
                       ++ " active user(s) without 2FA that will be disabled:";
                     "" ];
                   map listing_line users_to_disable;
                   [ "";
                        "These users will be disabled until they configure 2FA.";
                        "An administrator will need to re-enable them after they set up 2FA.";
                        "" ] ]) ;;
                confirm <- input "Do you want to proceed? (yes/no): " ;;
                if negb (String.eqb (lower confirm) "yes") then
                  print_ "Operation cancelled." ;;
                  ret 0%Z
                else
                  disabled_count <- disable_users f users_to_disable 0%Z ;;
                  commit f ;;
                  print_all
                    [ "";
                      "Successfully disabled " ++ str_Z disabled_count ++ " user(s).";
                      "";
                      repeat_str "=" 80 ] ;;
                  ret disabled_count
            end
        end)
       (fun e =>
          eprint ("Database error: " ++ exn_msg e) ;;
          rollback f ;;
          ret (-1)%Z))
    (cursor_close ;; conn_close).

(** The exit status [main] derives from the result of [--audit] and
    [--enforce]. *)
Definition exit_status (result : Z) : Z :=
  if (0 <=? result)%Z then 0%Z else 1%Z.

(** A run from a fresh process: nothing printed, no call made yet, the
    transaction seeing the committed rows. *)
Definition start (rows : list person) (typed : list string) : state :=
  {| table := rows; txn := rows; stdin := typed;
     stdout := []; stderr := []; calls := [] |}.

End Enforce.


(** ** The rest of [enforce_2fa.py]: [enable_user] and [main] *)
Module Cli.
Import Py.
Import Enforce.

(** A fetched row of the lookup by email:
    [(id, email, first_name, last_name, totp_enabled, email_otp_enabled,
      fido_enabled, active)]. *)
Definition row8 : Type :=
  (string * string * option string * option string
   * option bool * option bool * option bool * option bool)%type.

Definition to_row8 (wanted : string) (p : person) : option row8 :=
  match email p with
  | Some e =>
      if String.eqb e wanted then
        Some (id p, e, first_name p, last_name p,
              totp_enabled p, email_otp_enabled p, fido_enabled p, active p)
      else None
  | None => None
  end.

(** [cur.execute(SELECT ... WHERE email = %s)] and [cur.fetchone()]: the
    first matching row, or [None].  It is the first statement of its
    transaction; the call log of [Enforce] has no entry for it. *)
Definition select_by_email (f : faults) (wanted : string) : M (option row8) :=
  fail_with (select_fault f)
    (fun s => (Val (hd_error (filter_map (to_row8 wanted) (txn s))), s)).

Definition activate (user_id : string) (p : person) : person :=
  if String.eqb (id p) user_id then
    {| id := id p; email := email p; first_name := first_name p;
       last_name := last_name p; totp_enabled := totp_enabled p;
       email_otp_enabled := email_otp_enabled p; fido_enabled := fido_enabled p;
       active := Some true; role := role p |}
  else p.

(** [UPDATE person SET active = TRUE WHERE id = %s]. *)
Definition update_active_true (f : faults) (user_id : string) : M unit :=
  execute f (UpdateActiveTrue user_id) (update_fault f user_id)
    (fun s => (Val tt, set_txn s (map (activate user_id) (txn s)))).

(** [enable_user(email)]. *)
Definition enable_user (f : faults) (email : string) : M bool :=
  get_db_connection f ;;
  try_finally
    (try_except_psycopg2
       (user <- select_by_email f email ;;
        match user with
        | None =>
            eprint ("User not found: " ++ email) ;;
            ret false
        | Some (user_id, email, first_name, last_name, totp, email_otp, fido, active) =>
            let name := full_name first_name last_name in
            let has_2fa := col_truthy totp || col_truthy email_otp || col_truthy fido in
            let enable :=
              update_active_true f user_id ;;
              commit f ;;
              print_ ("✓ User " ++ email ++ " has been enabled.") ;;
              ret true in
            print_all
              [ "User: " ++ email;
                "Name: " ++ name;
                "2FA Status: " ++ (if has_2fa then "Enabled" else "Not configured");
                "Active: " ++ (if col_truthy active then "Yes" else "No");
                "" ] ;;
            if col_truthy active then
              print_ "User is already active." ;;
              ret true
            else if negb has_2fa then
              print_ "WARNING: This user does not have 2FA configured!" ;;
              print_ "If REQUIRE_2FA enforcement is active, they may be disabled again." ;;
              confirm <- input "Do you still want to enable this user? (yes/no): " ;;
              if negb (String.eqb (lower confirm) "yes") then
                print_ "Operation cancelled." ;;
                ret false
              else enable
            else enable
        end)
       (fun e =>
          eprint ("Database error: " ++ exn_msg e) ;;
          rollback f ;;
          ret false))
    (cursor_close ;; conn_close).

(** What [argparse] hands to [main]: one of the three options is given. *)
Record args := {
  audit : bool;
  enforce : bool;
  enable_user_arg : option string
}.

(** [main()]: each operation ends in [sys.exit]; when no branch is taken
    the function returns. *)
Definition main (f : faults) (env : environ) (now : string) (a : args) : M unit :=
  if audit a then
    result <- audit_users f env now ;;
    sys_exit (exit_status result)
  else if enforce a then
    result <- enforce_2fa f env ;;
    sys_exit (exit_status result)
  else
    match enable_user_arg a with
    | Some email =>
        if negb (String.eqb email "") then
          result <- enable_user f email ;;
          sys_exit (if result then 0%Z else 1%Z)
        else ret tt
    | None => ret tt
    end.

End Cli.

(** ** Start-up: the constructor of the middleware and the two scripts
    that install it, [inject_2fa_middleware.py] and [zou_app_wrapper.py] *)
Module Startup.
Import Py.

(** The two objects handlers are registered on: [zou_app], what
    [from zou.app import app as zou_app] binds, and its attribute
    [zou_app.app]. *)
Inductive application :=
| ZouApp
| ZouAppApp.

(** What start-up does to the host: lines printed, a traceback printed,
    and handlers registered with the [before_request] of an application; a
    handler is the [check_2fa_requirement] of a middleware instance. *)
Inductive effect :=
| Print (line : string)
| PrintTraceback
| BeforeRequest (app : application) (self : Middleware.middleware).

Definition M (A : Type) : Type := (res A * list effect)%type.

Definition ret {A} (a : A) : M A := (Ok a, []).

Definition bind {A B} (m : M A) (f : A -> M B) : M B :=
  match m with
  | (Ok a, l) => let (r, l') := f a in (r, (l ++ l')%list)
  | (Raise e, l) => (Raise e, l)
  end.

Notation "x <- m ;; k" := (bind m (fun x => k))
  (at level 61, m at next level, right associativity).
Notation "m ;; k" := (bind m (fun _ => k))
  (at level 61, right associativity).

Definition print_ (line : string) : M unit := (Ok tt, [Print line]).

Fixpoint print_all (lines : list string) : M unit :=
  match lines with
  | [] => ret tt
  | l :: ls => print_ l ;; print_all ls
  end.

(** [try: m except Exception as e: h e]. *)
Definition try_except {A} (m : M A) (h : exn -> M A) : M A :=
  match m with
  | (Ok a, l) => (Ok a, l)
  | (Raise e, l) => let (r, l') := h e in (r, (l ++ l')%list)
  end.

(** What the host answers at start-up: the outcome of importing
    [zou_2fa_middleware], of importing [zou.app], of reading the attribute
    [zou_app.app], and of a call of [before_request] on each of the two
    applications. *)
Record host := {
  import_zou_2fa_middleware : res unit;
  import_zou_app : res unit;
  zou_app_app : res unit;
  before_request : application -> res unit
}.

Definition import_ (r : res unit) : M unit := (r, []).

(** [zou_app.app]. *)
Definition get_app (h : host) : M application :=
  match zou_app_app h with
  | Ok _ => (Ok ZouAppApp, [])
  | Raise e => (Raise e, [])
  end.

(** [app.before_request(self.check_2fa_requirement)]. *)
Definition register (h : host) (app : application)
           (self : Middleware.middleware) : M unit :=
  match before_request h app with
  | Ok _ => (Ok tt, [BeforeRequest app self])
  | Raise e => (Raise e, [])
  end.

Definition rule : string := Enforce.repeat_str "=" 80.

Definition exempt_users_line (l : list string) : string :=
  match l with
  | [] => "None"
  | _ => join ", " l
  end.

(** [Enforce2FAMiddleware.__init__]. *)
Definition Enforce2FAMiddleware (h : host) (app : application)
           (env : environ) : M Middleware.middleware :=
  let self := Middleware.init env in
  if Middleware.require_2fa self then
    print_all
      [ rule;
        "2FA ENFORCEMENT MIDDLEWARE ENABLED";
        rule;
        "Exempt users: " ++ exempt_users_line (Middleware.exempt_users self);
        "Users without 2FA will be redirected to configure it.";
        rule ] ;;
    register h app self ;;
    ret self
  else ret self.

Definition init_2fa_middleware (h : host) (app : application)
           (env : environ) : M Middleware.middleware :=
  Enforce2FAMiddleware h app env.

(** [auto_init()]. *)
Definition auto_init (h : host) (env : environ) : M unit :=
  try_except
    (import_ (import_zou_app h) ;;
     app <- get_app h ;;
     init_2fa_middleware h app env ;;
     print_ "✓ 2FA enforcement middleware successfully initialized")
    (fun e =>
       print_ ("! Could not auto-initialize 2FA middleware: " ++ exn_msg e) ;;
       print_ "  Middleware will be initialized manually at startup").

Definition require_2fa (env : environ) : bool :=
  str_in (lower (getenv env "REQUIRE_2FA" "False")) ["true"; "1"; "yes"].

Definition failure_report (e : exn) : M unit :=
  print_all
    [ "✗ Error loading 2FA middleware: " ++ exn_msg e;
      "  Zou will start without 2FA enforcement";
      rule;
      "" ] ;;
  (Ok tt, [PrintTraceback]).

Definition disabled_report : M unit :=
  print_all
    [ "";
      rule;
      "2FA enforcement is disabled";
      "To enable, set REQUIRE_2FA=True in your .env file";
      rule;
      "" ].

Definition initializing_report : M unit :=
  print_all [ ""; rule; "INITIALIZING 2FA ENFORCEMENT MIDDLEWARE"; rule ].

(** The module body of [inject_2fa_middleware.py]. *)
Definition inject_2fa_middleware (h : host) (env : environ) : M unit :=
  import_ (import_zou_app h) ;;
  let zou_app := ZouApp in
  if require_2fa env then
    initializing_report ;;
    try_except
      (import_ (import_zou_2fa_middleware h) ;;
       middleware <- Enforce2FAMiddleware h zou_app env ;;
       register h zou_app middleware ;;
       print_all
         [ "✓ 2FA enforcement middleware successfully registered";
           "  Exempt users: " ++ exempt_users_line (Middleware.exempt_users middleware);
           "  Users without 2FA will be prompted to configure it";
           "  before_request handler registered";
           rule;
           "" ])
      failure_report
  else disabled_report.

(** The module body of [zou_app_wrapper.py]; [app = zou_app.app] comes
    before the flag is read and outside the [try]. *)
Definition zou_app_wrapper (h : host) (env : environ) : M unit :=
  import_ (import_zou_app h) ;;
  app <- get_app h ;;
  if require_2fa env then
    initializing_report ;;
    try_except
      (import_ (import_zou_2fa_middleware h) ;;
       init_2fa_middleware h app env ;;
       print_all
         [ "✓ 2FA enforcement middleware successfully loaded";
           "  Users without 2FA will be prompted to configure it";
           rule;
           "" ])
      failure_report
  else disabled_report.

(** The handlers registered on an application, in order. *)
Definition same_application (a b : application) : bool :=
  match a, b with
  | ZouApp, ZouApp | ZouAppApp, ZouAppApp => true
  | _, _ => false
  end.

Fixpoint registered (app : application) (l : list effect)
  : list Middleware.middleware :=
  match l with
  | [] => []
  | BeforeRequest app' self :: l' =>
      if same_application app app' then self :: registered app l'
      else registered app l'
  | _ :: l' => registered app l'
  end.

End Startup.
(** * Vocabulary of the specification and sample inputs *)

Import Py.

(** The gate's decision on a request: what the handler returns. *)
Definition decision (self : Middleware.middleware) (w : Middleware.world)
           (req : Middleware.request) : res (option Middleware.response) :=
  fst (Middleware.check_2fa_requirement self w req).

(** The path the gate matches against its allow-list. *)
Definition normalized_path (req : Middleware.request) : string :=
  lstrip "/"%char (Middleware.path req).

(** The entries of the allow-list that are authentication endpoints or
    endpoints on which a user configures a second factor. *)
Definition auth_and_2fa_patterns : list string :=
  [ "api/auth/login"; "auth/login";
    "api/auth/logout"; "auth/logout";
    "api/auth/authenticated"; "auth/authenticated";
    "api/auth/register"; "auth/register";
    "api/auth/totp"; "auth/totp";
    "api/auth/fido"; "auth/fido";
    "api/auth/email-otp"; "auth/email-otp";
    "api/auth/recovery-codes"; "auth/recovery-codes";
    "api/actions/persons/enable-totp"; "actions/persons/enable-totp";
    "api/actions/persons/disable-totp"; "actions/persons/disable-totp";
    "api/actions/persons/enable-email-otp"; "actions/persons/enable-email-otp";
    "api/actions/persons/disable-email-otp"; "actions/persons/disable-email-otp";
    "api/actions/persons/register-fido-device";
    "actions/persons/register-fido-device";
    "api/actions/persons/unregister-fido-device";
    "actions/persons/unregister-fido-device";
    "api/actions/persons/generate-recovery-codes";
    "actions/persons/generate-recovery-codes" ].


(** A gate with enforcement on and the given exempt set. *)
Definition enforcing (exempt : list string) : Middleware.middleware :=
  {| Middleware.require_2fa := true; Middleware.exempt_users := exempt |}.

Definition mk_request (path method : string) : Middleware.request :=
  {| Middleware.path := path; Middleware.method := method;
     Middleware.is_json := false; Middleware.headers := [] |}.

(** A user object as flask_login hands it out. *)
Definition user_object (authenticated : bool) (email : string)
           (totp email_otp fido : bool) : Middleware.pyobj :=
  {| Middleware.obj_bool := Ok true;
     Middleware.obj_attr := fun name =>
       if String.eqb name "is_authenticated" then Ok (PyBool authenticated)
       else if String.eqb name "email" then Ok (PyStr email)
       else if String.eqb name "totp_enabled" then Ok (PyBool totp)
       else if String.eqb name "email_otp_enabled" then Ok (PyBool email_otp)
       else if String.eqb name "fido_enabled" then Ok (PyBool fido)
       else Raise (Exn AttributeError name) |}.

(** The anonymous user of flask_login. *)
Definition anonymous_user : Middleware.pyobj :=
  {| Middleware.obj_bool := Ok true;
     Middleware.obj_attr := fun name =>
       if String.eqb name "is_authenticated" then Ok (PyBool false)
       else Raise (Exn AttributeError name) |}.

(** A [current_user] whose resolution fails with the given exception. *)
Definition failing_user (e : exn) : Middleware.pyobj :=
  {| Middleware.obj_bool := Raise e;
     Middleware.obj_attr := fun _ => Raise e |}.

(** A person as [persons_service.get_person] serializes it. *)
Definition person_dict (email : string) (totp email_otp fido : bool) : pydict :=
  [ ("id", PyStr "7f3c"); ("email", PyStr email);
    ("totp_enabled", PyBool totp); ("email_otp_enabled", PyBool email_otp);
    ("fido_enabled", PyBool fido) ].

(** A host where flask_login is importable with the given [current_user],
    and the request carries a bearer token for [bearer] when there is one. *)
Definition host_with_session (cu : Middleware.pyobj) (bearer : option pydict)
  : Middleware.world :=
  {| Middleware.import_flask_login := Ok tt;
     Middleware.current_user := cu;
     Middleware.import_flask_jwt_extended := Ok tt;
     Middleware.import_flask_jwt_extended_exceptions := Ok tt;
     Middleware.import_persons_service := Ok tt;
     Middleware.verify_jwt_in_request := Ok tt;
     Middleware.get_jwt_identity :=
       match bearer with
       | Some _ => Ok (PyStr "7f3c")
       | None => Ok PyNone
       end;
     Middleware.get_person := fun _ => Ok bearer |}.

(** The same host without flask_login. *)
Definition host_without_session (bearer : option pydict) : Middleware.world :=
  {| Middleware.import_flask_login :=
       Raise (Exn ImportError "No module named 'flask_login'");
     Middleware.current_user :=
       failing_user (Exn (OtherException "NameError") "current_user");
     Middleware.import_flask_jwt_extended := Ok tt;
     Middleware.import_flask_jwt_extended_exceptions := Ok tt;
     Middleware.import_persons_service := Ok tt;
     Middleware.verify_jwt_in_request := Ok tt;
     Middleware.get_jwt_identity :=
       match bearer with
       | Some _ => Ok (PyStr "7f3c")
       | None => Ok PyNone
       end;
     Middleware.get_person := fun _ => Ok bearer |}.

(** flask_login resolves an authenticated caller with this email. *)
Definition session_resolves (w : Middleware.world) (email : pyval) : Prop :=
  Middleware.import_flask_login w = Ok tt
  /\ Middleware.obj_bool (Middleware.current_user w) = Ok true
  /\ (exists v, Middleware.obj_attr (Middleware.current_user w) "is_authenticated" = Ok v
                /\ truthy v = true)
  /\ Middleware.obj_attr (Middleware.current_user w) "email" = Ok email.



(** flask_login is not importable. *)
Definition flask_login_missing (w : Middleware.world) : Prop :=
  exists e, Middleware.import_flask_login w = Raise e /\ is_ImportError e = true.

(** The three imports of the bearer-token path succeed. *)
Definition jwt_importable (w : Middleware.world) : Prop :=
  Middleware.import_flask_jwt_extended w = Ok tt
  /\ Middleware.import_flask_jwt_extended_exceptions w = Ok tt
  /\ Middleware.import_persons_service w = Ok tt.

(** The bearer token resolves to the person [user]. *)
Definition jwt_resolves (w : Middleware.world) (user : pydict) : Prop :=
  flask_login_missing w
  /\ jwt_importable w
  /\ Middleware.verify_jwt_in_request w = Ok tt
  /\ exists user_id,
       Middleware.get_jwt_identity w = Ok user_id
       /\ truthy user_id = true
       /\ Middleware.get_person w user_id = Ok (Some user)
       /\ user <> [].






(** Events of the bearer-token path and of the session path. *)
Definition on_jwt_path (ev : Middleware.event) : bool :=
  match ev with
  | Middleware.EvJwt _ => true
  | Middleware.EvImport name => negb (String.eqb name "flask_login")
  | _ => false
  end.

Definition on_session_path (ev : Middleware.event) : bool :=
  match ev with
  | Middleware.EvSession _ => true
  | _ => false
  end.

(** flask_login is importable and reports the caller as not
    authenticated. *)
Definition reports_not_authenticated (w : Middleware.world) : Prop :=
  Middleware.import_flask_login w = Ok tt
  /\ (Middleware.obj_bool (Middleware.current_user w) = Ok false
      \/ (Middleware.obj_bool (Middleware.current_user w) = Ok true
          /\ exists v,
               Middleware.obj_attr (Middleware.current_user w) "is_authenticated" = Ok v
               /\ truthy v = false)).

(** Sample callers and requests. *)
Definition carol : Middleware.pyobj :=
  user_object true "carol@studio.example" false false false.

Definition api_post : Middleware.request := mk_request "/api/data/persons" "POST".


(** What a block may return: nothing, or the answer of step 9, which is
    given to requests other than GET only. *)
Definition step9_block (req : Middleware.request) (v : Middleware.flow) : Prop :=
  match v with
  | Middleware.Return (Some r) =>
      Middleware.method req <> "GET"
      /\ exists email, r = Middleware._handle_2fa_required req email
  | _ => True
  end.

(** Each import of the bearer-token path either succeeds or reports the
    module as missing. *)
Definition available_or_missing (r : res unit) : Prop :=
  r = Ok tt \/ exists e, r = Raise e /\ is_ImportError e = true.

Definition imports_by_availability (w : Middleware.world) : Prop :=
  available_or_missing (Middleware.import_flask_jwt_extended w)
  /\ available_or_missing (Middleware.import_flask_jwt_extended_exceptions w)
  /\ available_or_missing (Middleware.import_persons_service w).

Definition runtime_error : exn :=
  Exn (OtherException "RuntimeError") "Working outside of request context.".

Definition person_not_found : exn :=
  Exn (OtherException "PersonNotFoundException") "".

(** A host without flask_login where the person of the token is gone. *)
Definition host_person_lookup_fails : Middleware.world :=
  {| Middleware.import_flask_login :=
       Raise (Exn ImportError "No module named 'flask_login'");
     Middleware.current_user := failing_user runtime_error;
     Middleware.import_flask_jwt_extended := Ok tt;
     Middleware.import_flask_jwt_extended_exceptions := Ok tt;
     Middleware.import_persons_service := Ok tt;
     Middleware.verify_jwt_in_request := Ok tt;
     Middleware.get_jwt_identity := Ok (PyStr "7f3c");
     Middleware.get_person := fun _ => Raise person_not_found |}.

(** A host without flask_login where importing zou's services fails with
    something else than [ImportError]. *)
Definition host_services_import_fails : Middleware.world :=
  {| Middleware.import_flask_login :=
       Raise (Exn ImportError "No module named 'flask_login'");
     Middleware.current_user := failing_user runtime_error;
     Middleware.import_flask_jwt_extended := Ok tt;
     Middleware.import_flask_jwt_extended_exceptions := Ok tt;
     Middleware.import_persons_service := Raise runtime_error;
     Middleware.verify_jwt_in_request := Ok tt;
     Middleware.get_jwt_identity := Ok (PyStr "7f3c");
     Middleware.get_person := fun _ => Raise person_not_found |}.

(** Every event a computation logs passes the test [P]. *)
Definition log_all (P : Middleware.event -> bool) {A} (m : Middleware.M A) : Prop :=
  forallb P (snd m) = true.

Definition off_jwt_path (ev : Middleware.event) : bool := negb (on_jwt_path ev).

Definition off_session_path (ev : Middleware.event) : bool := negb (on_session_path ev).

(** A bearer token of a person with no second factor. *)
Definition dave : pydict := person_dict "dave@studio.example" false false false.

(** What resolving [current_user] raises when the application's user
    loader imports a module that is not installed. *)
Definition loader_import_error : exn := Exn ImportError "No module named 'ldap'".

(** A host where flask_login is importable but resolving [current_user]
    raises that [ImportError], and the request carries a bearer token for
    [dave]. *)
Definition host_session_import_error : Middleware.world :=
  host_with_session (failing_user loader_import_error) (Some dave).

(** The handler consulted flask_login's [current_user]; it consulted the
    bearer-token path. *)
Definition consults_session {A} (m : Middleware.M A) : bool :=
  existsb on_session_path (snd m).

Definition consults_token {A} (m : Middleware.M A) : bool :=
  existsb on_jwt_path (snd m).

(** The first sentence of C9 as the specification words it: no request
    sees both identity sources. *)
Definition C9_as_stated : Prop :=
  forall self w req,
    Middleware.require_2fa self = true ->
    consults_session (Middleware.check_2fa_requirement self w req)
    && consults_token (Middleware.check_2fa_requirement self w req) = false.

(** ** Vocabulary for the audit and enforcement script *)

(** A storage that answers every call. *)
Definition no_faults : Enforce.faults :=
  {| Enforce.connect_fault := None; Enforce.select_fault := None;
     Enforce.update_fault := fun _ => None; Enforce.commit_fault := None;
     Enforce.rollback_fault := None |}.

(** The storage can be reached and the rows fetched. *)
Definition fetch_succeeds (f : Enforce.faults) : Prop :=
  Enforce.connect_fault f = None /\ Enforce.select_fault f = None.

Definition has_2fa (p : Enforce.person) : bool :=
  Enforce.col_truthy (Enforce.totp_enabled p)
  || Enforce.col_truthy (Enforce.email_otp_enabled p)
  || Enforce.col_truthy (Enforce.fido_enabled p).

(** An active account with an email and no second factor. *)
Definition active_without_2fa (p : Enforce.person) : bool :=
  Enforce.is_some (Enforce.email p)
  && Enforce.col_truthy (Enforce.active p)
  && negb (has_2fa p).

(** The script's membership test on an account. *)
Definition is_exempt (exempt_users : list string) (p : Enforce.person) : bool :=
  match Enforce.email p with
  | Some e => str_in e exempt_users
  | None => false
  end.

(** The same tests on a fetched row. *)
Definition row_has_2fa (r : Enforce.row) : bool :=
  Enforce.col_truthy (Enforce.row_totp r)
  || Enforce.col_truthy (Enforce.row_email_otp r)
  || Enforce.col_truthy (Enforce.row_fido r).

Definition row_active_without_2fa (r : Enforce.row) : bool :=
  Enforce.col_truthy (Enforce.row_active r) && negb (row_has_2fa r).

(** The entry the audit makes for a fetched row. *)
Definition info_of (exempt_users : list string) (r : Enforce.row) : Enforce.user_info :=
  {| Enforce.ui_id := Enforce.row_id r; Enforce.ui_email := Enforce.row_email r;
     Enforce.ui_name := Enforce.full_name (Enforce.row_first_name r) (Enforce.row_last_name r);
     Enforce.ui_totp := Enforce.row_totp r; Enforce.ui_email_otp := Enforce.row_email_otp r;
     Enforce.ui_fido := Enforce.row_fido r; Enforce.ui_active := Enforce.row_active r;
     Enforce.ui_role := Enforce.row_role r;
     Enforce.ui_exempt := str_in (Enforce.row_email r) exempt_users |}.

(** C3 as the specification words it: the audit's summary result leaves
    the exempt accounts out. *)
Definition C3_as_stated : Prop :=
  forall f env now rows typed,
    fetch_succeeds f ->
    fst (Enforce.audit_users f env now (Enforce.start rows typed))
    = Enforce.Val
        (Z.of_nat
           (List.length
              (filter (fun p => active_without_2fa p
                                && negb (is_exempt (Enforce.get_exempt_users env) p))
                      rows))).

(** The accounts [enforce_2fa] sets out to disable. *)
Definition users_to_disable (env : environ) (rows : list Enforce.person)
  : list Enforce.row5 :=
  filter (fun u => match u with
                   | (_, email, _, _, _) =>
                       negb (str_in email (Enforce.get_exempt_users env))
                   end)
         (Enforce.filter_map Enforce.to_row5 rows).

Definition row5_id (u : Enforce.row5) : string :=
  match u with
  | (user_id, _, _, _, _) => user_id
  end.

(** The rows of a batch whose [UPDATE] goes through: those before the
    first row for which the storage raises.  That error aborts the
    transaction, and the rows after it are refused. *)
Fixpoint succeeded (f : Enforce.faults) (batch : list Enforce.row5) : list Enforce.row5 :=
  match batch with
  | [] => []
  | u :: rest =>
      if Enforce.is_some (Enforce.update_fault f (row5_id u)) then []
      else u :: succeeded f rest
  end.

(** The table after the given rows were deactivated. *)
Definition deactivated (done : list Enforce.row5) (rows : list Enforce.person)
  : list Enforce.person :=
  fold_left (fun t u => map (Enforce.deactivate (row5_id u)) t) done rows.

(** Every error an [UPDATE] raises is a [psycopg2.Error]. *)
Definition update_faults_are_storage_errors (f : Enforce.faults) : Prop :=
  forall user_id e,
    Enforce.update_fault f user_id = Some e -> is_Psycopg2Error e = true.

Definition is_update (c : Enforce.call) : bool :=
  match c with
  | Enforce.UpdateActiveFalse _ | Enforce.UpdateActiveTrue _ => true
  | _ => false
  end.

Definition is_commit (c : Enforce.call) : bool :=
  match c with
  | Enforce.Commit => true
  | _ => false
  end.



(** Sample accounts. *)
Definition account (user_id email : string) (totp active : bool) : Enforce.person :=
  {| Enforce.id := user_id; Enforce.email := Some email;
     Enforce.first_name := Some "Ada"; Enforce.last_name := None;
     Enforce.totp_enabled := Some totp; Enforce.email_otp_enabled := Some false;
     Enforce.fido_enabled := Some false; Enforce.active := Some active;
     Enforce.role := Some "user" |}.

Definition three_accounts : list Enforce.person :=
  [ account "u1" "a@x.com" false true;
    account "u2" "b@x.com" false true;
    account "u3" "c@x.com" false true ].

(** A storage whose [UPDATE] of [user_id] raises [e]. *)
Definition update_fails_for (user_id : string) (e : exn) : Enforce.faults :=
  {| Enforce.connect_fault := None; Enforce.select_fault := None;
     Enforce.update_fault := fun i => if String.eqb i user_id then Some e else None;
     Enforce.commit_fault := None; Enforce.rollback_fault := None |}.

Definition exempt_env (value : string) : environ := [("2FA_EXEMPT_USERS", value)].

Definition row5_email (u : Enforce.row5) : string :=
  match u with
  | (_, email, _, _, _) => email
  end.

(** What the loop prints on the output for a batch: one line per row
    whose [UPDATE] went through. *)
Definition disabled_lines (f : Enforce.faults) (batch : list Enforce.row5) : list string :=
  map (fun u => "  ✓ Disabled: " ++ row5_email u) (succeeded f batch).

(** What it prints on the error stream for rows refused inside an aborted
    transaction. *)
Definition refused_lines (batch : list Enforce.row5) : list string :=
  map (fun u => "  ✗ Failed to disable " ++ row5_email u ++ ": "
                ++ exn_msg Enforce.in_failed_transaction) batch.

(** And on the error stream for a whole batch: the error of the first
    row that fails, then the refusal of every row after it. *)
Fixpoint failed_lines (f : Enforce.faults) (batch : list Enforce.row5) : list string :=
  match batch with
  | [] => []
  | u :: rest =>
      match Enforce.update_fault f (row5_id u) with
      | Some e =>
          ("  ✗ Failed to disable " ++ row5_email u ++ ": " ++ exn_msg e)
          :: refused_lines rest
      | None => failed_lines f rest
      end
  end.

Definition update_calls (batch : list Enforce.row5) : list Enforce.call :=
  map (fun u => Enforce.UpdateActiveFalse (row5_id u)) batch.

Definition storage_error : exn := Exn Psycopg2Error "server closed the connection unexpectedly".

(** An error the server raises for one statement. *)
Definition lock_timeout : exn :=
  Exn Psycopg2Error "canceling statement due to lock timeout".

(** The rows the audit query fetches from a table. *)
Definition fetched (rows : list Enforce.person) : list Enforce.row :=
  Enforce.order_by_email (Enforce.filter_map Enforce.to_row rows).

Definition row_with_2fa (r : Enforce.row) : bool :=
  Enforce.col_truthy (Enforce.row_active r) && row_has_2fa r.

Definition row_inactive (r : Enforce.row) : bool :=
  negb (Enforce.col_truthy (Enforce.row_active r)).

(** An exempt list written with capitals, and the account it names as the
    account store has it. *)
Definition capitalised_env : environ := exempt_env "Admin@Studio.Example".

Definition admin_account : Enforce.person :=
  account "u1" "admin@studio.example" false true.

(** ** Further vocabulary for the request gate *)

(** The values of [REQUIRE_2FA] that switch enforcement on, compared
    lower-cased. *)
Definition enforcement_values : list string := ["true"; "1"; "yes"].

(** An identity source resolved an authenticated caller with this email. *)
Definition caller_resolved (w : Middleware.world) (email : string) : Prop :=
  session_resolves w (PyStr email)
  \/ (exists user, jwt_resolves w user
                   /\ dict_get user "email" PyNone = PyStr email).

(** The three flags of flask_login's user can be read and one is set. *)
Definition session_has_2fa (w : Middleware.world) : Prop :=
  exists totp email_otp fido,
    Middleware.obj_attr (Middleware.current_user w) "totp_enabled" = Ok totp
    /\ Middleware.obj_attr (Middleware.current_user w) "email_otp_enabled" = Ok email_otp
    /\ Middleware.obj_attr (Middleware.current_user w) "fido_enabled" = Ok fido
    /\ truthy totp || truthy email_otp || truthy fido = true.

Definition dict_has_2fa (user : pydict) : Prop :=
  truthy (dict_get user "totp_enabled" (PyBool false))
  || truthy (dict_get user "email_otp_enabled" (PyBool false))
  || truthy (dict_get user "fido_enabled" (PyBool false)) = true.

(** An authenticated caller with this email and a second factor. *)
Definition caller_with_2fa (w : Middleware.world) (email : string) : Prop :=
  (session_resolves w (PyStr email) /\ session_has_2fa w)
  \/ (exists user, jwt_resolves w user
                   /\ dict_get user "email" PyNone = PyStr email
                   /\ dict_has_2fa user).


(** The bearer-token path is taken and the request carries no usable
    token: the verification rejects it, or it names no identity. *)
Definition no_bearer_credential (w : Middleware.world) : Prop :=
  flask_login_missing w
  /\ jwt_importable w
  /\ ((exists e, Middleware.verify_jwt_in_request w = Raise e
                 /\ Middleware.is_NoAuthorization_or_InvalidHeader e = true)
      \/ (Middleware.verify_jwt_in_request w = Ok tt
          /\ exists user_id, Middleware.get_jwt_identity w = Ok user_id
                             /\ truthy user_id = false)).

Definition queries_person (ev : Middleware.event) : bool :=
  match ev with
  | Middleware.EvJwt what => String.eqb what "get_person"
  | _ => false
  end.

Definition never_queries_person (ev : Middleware.event) : bool := negb (queries_person ev).

(** A user with a second factor, and a host that has no token to check. *)
Definition erin : Middleware.pyobj :=
  user_object true "erin@studio.example" false true false.

Definition host_without_token : Middleware.world :=
  {| Middleware.import_flask_login :=
       Raise (Exn ImportError "No module named 'flask_login'");
     Middleware.current_user := failing_user runtime_error;
     Middleware.import_flask_jwt_extended := Ok tt;
     Middleware.import_flask_jwt_extended_exceptions := Ok tt;
     Middleware.import_persons_service := Ok tt;
     Middleware.verify_jwt_in_request :=
       Raise (Exn NoAuthorizationError "Missing Authorization Header");
     Middleware.get_jwt_identity := Ok PyNone;
     Middleware.get_person := fun _ => Raise person_not_found |}.

(** ** Further vocabulary for the script *)

Definition is_rollback (c : Enforce.call) : bool :=
  match c with
  | Enforce.Rollback => true
  | _ => false
  end.

(** A call that writes: an [UPDATE] or a commit. *)
Definition is_write (c : Enforce.call) : bool := is_update c || is_commit c.

(** The fetch raises the storage error [e]. *)
Definition fetch_fails_with (f : Enforce.faults) (e : exn) : Prop :=
  Enforce.connect_fault f = None
  /\ Enforce.select_fault f = Some e
  /\ is_Psycopg2Error e = true.

(** A storage whose [SELECT] raises [e]. *)
Definition select_fails (e : exn) : Enforce.faults :=
  {| Enforce.connect_fault := None; Enforce.select_fault := Some e;
     Enforce.update_fault := fun _ => None; Enforce.commit_fault := None;
     Enforce.rollback_fault := None |}.

(** A storage that cannot be reached. *)
Definition connect_fails (e : exn) : Enforce.faults :=
  {| Enforce.connect_fault := Some e; Enforce.select_fault := None;
     Enforce.update_fault := fun _ => None; Enforce.commit_fault := None;
     Enforce.rollback_fault := None |}.

(** The accounts with an email: the ones the audit reports on. *)
Definition with_email (rows : list Enforce.person) : list Enforce.person :=
  filter (fun p => Enforce.is_some (Enforce.email p)) rows.

(** The exit status of the process for the way [main] ends: the code
    given to [sys.exit], 0 when [main] returns, 1 for an uncaught
    exception. *)
Definition process_status {A} (o : Enforce.outcome A) : Z :=
  match o with
  | Enforce.Val _ => 0%Z
  | Enforce.Exc _ => 1%Z
  | Enforce.Exit code => code
  end.

Definition run_audit : Cli.args :=
  {| Cli.audit := true; Cli.enforce := false; Cli.enable_user_arg := None |}.

Definition run_enforce : Cli.args :=
  {| Cli.audit := false; Cli.enforce := true; Cli.enable_user_arg := None |}.

Definition run_enable_user (email : string) : Cli.args :=
  {| Cli.audit := false; Cli.enforce := false; Cli.enable_user_arg := Some email |}.

(** A storage on which every [UPDATE] and the commit go through. *)
Definition writes_succeed (f : Enforce.faults) : Prop :=
  (forall user_id, Enforce.update_fault f user_id = None)
  /\ Enforce.commit_fault f = None.

(** The account with its [active] flag cleared when its id is listed. *)
Definition deactivate_all (ids : list string) (p : Enforce.person) : Enforce.person :=
  if str_in (Enforce.id p) ids then Enforce.deactivate (Enforce.id p) p else p.

(** The row [enable_user] finds for an email: the first account of the
    table that carries it. *)
Definition found (email : string) (rows : list Enforce.person) : option Cli.row8 :=
  hd_error (Enforce.filter_map (Cli.to_row8 email) rows).

Definition row8_id (u : Cli.row8) : string :=
  match u with
  | (user_id, _, _, _, _, _, _, _) => user_id
  end.

Definition row8_active (u : Cli.row8) : bool :=
  match u with
  | (_, _, _, _, _, _, _, active) => Enforce.col_truthy active
  end.

Definition row8_has_2fa (u : Cli.row8) : bool :=
  match u with
  | (_, _, _, _, totp, email_otp, fido, _) =>
      Enforce.col_truthy totp || Enforce.col_truthy email_otp || Enforce.col_truthy fido
  end.

(** The table after the account [user_id] was re-activated. *)
Definition activated (user_id : string) (rows : list Enforce.person) : list Enforce.person :=
  map (Cli.activate user_id) rows.

Definition inactive_accounts : list Enforce.person :=
  [ account "u1" "a@x.com" false false;
    account "u2" "b@x.com" true false;
    account "u3" "c@x.com" false true ].

(** The operator goes ahead with the re-activation of the row [u]: either
    no question is asked, or the answer is [yes]. *)
Definition goes_ahead (u : Cli.row8) (typed : list string) : Prop :=
  row8_has_2fa u = true
  \/ exists c rest, typed = c :: rest /\ lower c = "yes".

(** A write of the re-activation raises the storage error [e]. *)
Definition write_fails_with (f : Enforce.faults) (user_id : string) (e : exn) : Prop :=
  is_Psycopg2Error e = true
  /\ (Enforce.update_fault f user_id = Some e
      \/ (Enforce.update_fault f user_id = None /\ Enforce.commit_fault f = Some e)).

(** A storage whose commit raises [e]. *)
Definition commit_fails (e : exn) : Enforce.faults :=
  {| Enforce.connect_fault := None; Enforce.select_fault := None;
     Enforce.update_fault := fun _ => None; Enforce.commit_fault := Some e;
     Enforce.rollback_fault := None |}.

(** ** Vocabulary for start-up *)

(** The application module and the middleware module both import. *)
Definition modules_import (h : Startup.host) : Prop :=
  Startup.import_zou_app h = Ok tt
  /\ Startup.import_zou_2fa_middleware h = Ok tt.

(** The application module imports, but loading the middleware, or
    registering a handler on [app], raises [e]. *)
Definition install_fails (h : Startup.host) (app : Startup.application)
           (e : exn) : Prop :=
  Startup.import_zou_app h = Ok tt
  /\ (Startup.import_zou_2fa_middleware h = Raise e
      \/ (Startup.import_zou_2fa_middleware h = Ok tt
          /\ Startup.before_request h app = Raise e)).

(** The handlers registered on [zou_app] and those registered on
    [zou_app.app]. *)
Definition handlers (l : list Startup.effect)
  : list Middleware.middleware * list Middleware.middleware :=
  (Startup.registered Startup.ZouApp l, Startup.registered Startup.ZouAppApp l).

Definition announces_no_enforcement (l : list Startup.effect) : Prop :=
  In (Startup.Print "  Zou will start without 2FA enforcement") l.

Definition ready_host : Startup.host :=
  {| Startup.import_zou_2fa_middleware := Ok tt;
     Startup.import_zou_app := Ok tt;
     Startup.zou_app_app := Ok tt;
     Startup.before_request := fun _ => Ok tt |}.

Definition host_without_middleware : Startup.host :=
  {| Startup.import_zou_2fa_middleware :=
       Raise (Exn ImportError "No module named 'zou_2fa_middleware'");
     Startup.import_zou_app := Ok tt;
     Startup.zou_app_app := Ok tt;
     Startup.before_request := fun _ => Ok tt |}.

Definition no_attribute_app : exn :=
  Exn AttributeError "'Flask' object has no attribute 'app'".

(** A host whose [zou_app] is the Flask application itself: it has no
    attribute [app]. *)
Definition host_without_app_attribute : Startup.host :=
  {| Startup.import_zou_2fa_middleware := Ok tt;
     Startup.import_zou_app := Ok tt;
     Startup.zou_app_app := Raise no_attribute_app;
     Startup.before_request := fun _ => Ok tt |}.

Definition enforcement_env : environ := [("REQUIRE_2FA", "True")].
(** * Properties of the request gate *)

Lemma lstrip_idempotent (c : ascii) (s : string) :
  lstrip c (lstrip c s) = lstrip c s.
Proof.
  induction s as [|a s IH]; simpl; [reflexivity|].
  destruct (Ascii.eqb a c) eqn:E; [exact IH|].
  simpl. rewrite E. reflexivity.
Qed.

Lemma str_in_In (x : string) (l : list string) :
  str_in x l = true <-> In x l.
Proof.
  unfold str_in. rewrite existsb_exists. split.
  - intros [y [Hy E]]. apply String.eqb_eq in E. subst. exact Hy.
  - intros H. exists x. split; [exact H | apply String.eqb_refl].
Qed.

Lemma auth_and_2fa_patterns_allowed :
  incl auth_and_2fa_patterns Middleware.allowed_patterns.
Proof.
  intros p H. apply str_in_In.
  unfold auth_and_2fa_patterns in H. simpl in H.
  repeat (destruct H as [<- | H]; [reflexivity|]).
  contradiction.
Qed.

(** A path that starts with an entry of the allow-list is an allowed
    route, for every method. *)
Lemma allowed_by_pattern (req : Middleware.request) (p : string) :
  In p Middleware.allowed_patterns ->
  startswith (normalized_path req) p = true ->
  Middleware._is_allowed_route req (normalized_path req) = true.
Proof.
  intros Hin Hpre. unfold Middleware._is_allowed_route, normalized_path in *.
  rewrite lstrip_idempotent.
  match goal with |- (if ?c then _ else _) = _ => destruct c end; [reflexivity|].
  assert (E : existsb (fun pattern => startswith (lstrip "/"%char (Middleware.path req)) pattern)
                      Middleware.allowed_patterns = true).
  { apply existsb_exists. exists p. split; assumption. }
  rewrite E. reflexivity.
Qed.

(** An allowed route passes the gate untouched: nothing is consulted and
    nothing is logged. *)
Lemma allowed_route_passes self w req :
  Middleware._is_allowed_route req (normalized_path req) = true ->
  Middleware.check_2fa_requirement self w req = (Ok None, []).
Proof.
  intros H. unfold Middleware.check_2fa_requirement.
  destruct (Middleware.require_2fa self); simpl; [|reflexivity].
  unfold normalized_path in H. rewrite H. reflexivity.
Qed.

(** C7: a request whose path, after its leading slashes, begins with an
    authentication endpoint or a 2FA self-configuration endpoint of the
    allow-list is allowed, whoever the caller is (every [w], among them
    the unauthenticated ones), for every method, with enforcement on. *)
Theorem C7_auth_and_2fa_endpoints_allowed
        (self : Middleware.middleware) (w : Middleware.world)
        (req : Middleware.request) (p : string) :
  Middleware.require_2fa self = true ->
  In p auth_and_2fa_patterns ->
  startswith (normalized_path req) p = true ->
  Middleware.check_2fa_requirement self w req = (Ok None, []).
Proof.
  intros _ Hin Hpre. apply allowed_route_passes.
  apply (allowed_by_pattern req p); [|exact Hpre].
  apply auth_and_2fa_patterns_allowed. exact Hin.
Qed.

Lemma C7_auth_and_2fa_endpoints_allowed_witness :
  Middleware.check_2fa_requirement
    (enforcing []) (host_with_session anonymous_user None)
    (mk_request "//api/auth/totp/verify" "POST")
  = (Ok None, []).
Proof.
  apply (C7_auth_and_2fa_endpoints_allowed
           (enforcing []) (host_with_session anonymous_user None)
           (mk_request "//api/auth/totp/verify" "POST") "api/auth/totp").
  - reflexivity.
  - simpl. tauto.
  - vm_compute. reflexivity.
Defined.

(** C10: matching is by string prefix, so every path that begins with the
    bare strings [config] or [health] after its leading slashes is
    allowed, for every method and every caller, with enforcement on. *)
Theorem C10_config_health_prefix_allowed
        (self : Middleware.middleware) (w : Middleware.world)
        (req : Middleware.request) :
  Middleware.require_2fa self = true ->
  startswith (normalized_path req) "config" = true
  \/ startswith (normalized_path req) "health" = true ->
  Middleware.check_2fa_requirement self w req = (Ok None, []).
Proof.
  intros _ H. apply allowed_route_passes.
  destruct H as [H | H].
  - apply (allowed_by_pattern req "config"); [|exact H].
    apply str_in_In. reflexivity.
  - apply (allowed_by_pattern req "health"); [|exact H].
    apply str_in_In. reflexivity.
Qed.

Lemma C10_config_health_prefix_allowed_witness :
  Middleware.check_2fa_requirement
    (enforcing []) (host_with_session carol None)
    (mk_request "/configure-anything" "DELETE")
  = (Ok None, [])
  /\ Middleware.check_2fa_requirement
       (enforcing []) (host_with_session carol None)
       (mk_request "/healthz/x" "POST")
     = (Ok None, []).
Proof.
  split.
  - apply (C10_config_health_prefix_allowed
             (enforcing []) (host_with_session carol None)
             (mk_request "/configure-anything" "DELETE")).
    + reflexivity.
    + left. vm_compute. reflexivity.
  - apply (C10_config_health_prefix_allowed
             (enforcing []) (host_with_session carol None)
             (mk_request "/healthz/x" "POST")).
    + reflexivity.
    + right. vm_compute. reflexivity.
Defined.

(** C8: a GET request whose normalized path is under [data/] or
    [api/data/] is allowed with enforcement on, whoever the caller is and
    whatever their 2FA flags; the test comes before the allow-list and
    does not read it. *)
Theorem C8_get_data_namespace_allowed
        (self : Middleware.middleware) (w : Middleware.world)
        (req : Middleware.request) :
  Middleware.require_2fa self = true ->
  Middleware.method req = "GET" ->
  startswith (normalized_path req) "data/" = true
  \/ startswith (normalized_path req) "api/data/" = true ->
  Middleware.check_2fa_requirement self w req = (Ok None, []).
Proof.
  intros _ Hm H. apply allowed_route_passes.
  unfold Middleware._is_allowed_route, normalized_path in *.
  rewrite lstrip_idempotent, Hm. simpl.
  destruct H as [H | H]; rewrite H; simpl; [reflexivity|].
  rewrite orb_true_r. reflexivity.
Qed.

Lemma C8_get_data_namespace_allowed_witness :
  Middleware.check_2fa_requirement
    (enforcing []) (host_with_session carol None)
    (mk_request "/api/data/persons" "GET")
  = (Ok None, []).
Proof.
  apply (C8_get_data_namespace_allowed
           (enforcing []) (host_with_session carol None)
           (mk_request "/api/data/persons" "GET")).
  - reflexivity.
  - reflexivity.
  - right. vm_compute. reflexivity.
Defined.

(** The data namespace is no entry of the allow-list: a path under it
    matches no pattern, and only its GET requests pass. *)
Lemma data_namespace_not_in_allow_list :
  existsb (fun pattern => startswith "api/data/persons" pattern)
          Middleware.allowed_patterns = false
  /\ Middleware._is_allowed_route (mk_request "/api/data/persons" "POST")
                                  "api/data/persons" = false.
Proof. split; vm_compute; reflexivity. Qed.

(** ** Running the handler on a symbolic host *)

Arguments Middleware.html_response : simpl never.
Arguments Middleware.message : simpl never.
Arguments Middleware.bind : simpl never.
Arguments Middleware.try_ : simpl never.
Arguments Middleware.ext : simpl never.
Arguments Middleware.ret : simpl never.
Arguments Middleware.raise : simpl never.

(** The result of a computation, read through the monad's operations. *)
Lemma fst_bind {A B} (m : Middleware.M A) (f : A -> Middleware.M B) :
  fst (Middleware.bind m f)
  = match fst m with
    | Ok a => fst (f a)
    | Raise e => Raise e
    end.
Proof.
  destruct m as [[a | e] l]; unfold Middleware.bind; simpl;
    [destruct (f a)|]; reflexivity.
Qed.

Lemma fst_try {A} (m : Middleware.M A) (cs : list (Middleware.clause A)) :
  fst (Middleware.try_ m cs)
  = match fst m with
    | Ok a => Ok a
    | Raise e =>
        match Middleware.dispatch cs e with
        | Some h => fst h
        | None => Raise e
        end
    end.
Proof.
  destruct m as [[a | e] l]; unfold Middleware.try_; simpl; [reflexivity|].
  destruct (Middleware.dispatch cs e) as [[r l']|]; reflexivity.
Qed.

Lemma fst_ext {A} (ev : Middleware.event) (r : res A) :
  fst (Middleware.ext ev r) = r.
Proof. reflexivity. Qed.

Lemma fst_ret {A} (a : A) : fst (Middleware.ret a) = Ok a.
Proof. reflexivity. Qed.

Lemma fst_raise {A} (e : exn) : fst (@Middleware.raise A e) = Raise e.
Proof. reflexivity. Qed.

(** The log of a computation, read the same way. *)
Lemma snd_bind {A B} (m : Middleware.M A) (f : A -> Middleware.M B) :
  snd (Middleware.bind m f)
  = (snd m ++ match fst m with
              | Ok a => snd (f a)
              | Raise e => []
              end)%list.
Proof.
  destruct m as [[a | e] l]; unfold Middleware.bind; simpl;
    [destruct (f a); reflexivity | rewrite app_nil_r; reflexivity].
Qed.

Lemma snd_try {A} (m : Middleware.M A) (cs : list (Middleware.clause A)) :
  snd (Middleware.try_ m cs)
  = (snd m ++ match fst m with
              | Ok a => []
              | Raise e =>
                  match Middleware.dispatch cs e with
                  | Some h => snd h
                  | None => []
                  end
              end)%list.
Proof.
  destruct m as [[a | e] l]; unfold Middleware.try_; simpl;
    [rewrite app_nil_r; reflexivity|].
  destruct (Middleware.dispatch cs e) as [[r l']|]; simpl;
    [reflexivity | rewrite app_nil_r; reflexivity].
Qed.

Lemma snd_ext {A} (ev : Middleware.event) (r : res A) :
  snd (Middleware.ext ev r) = [ev].
Proof. reflexivity. Qed.

Lemma snd_ret {A} (a : A) : snd (Middleware.ret a) = [].
Proof. reflexivity. Qed.

Lemma snd_raise {A} (e : exn) : snd (@Middleware.raise A e) = [].
Proof. reflexivity. Qed.

(** Push [fst] through the monad as far as the known outcomes allow. *)
Ltac run_fst :=
  repeat first
    [ rewrite fst_bind | rewrite fst_try | rewrite fst_ext
    | rewrite fst_ret | rewrite fst_raise
    | progress cbn [fst Middleware.dispatch negb] ].

(** The same, using every equation of the context on the way. *)
Ltac run_known :=
  repeat first
    [ progress run_fst
    | match goal with H : _ = _ |- _ => rewrite H end
    | progress simpl ].

Lemma handle_status (req : Middleware.request) (email : pyval) :
  Middleware.status_code (Middleware._handle_2fa_required req email) = 403%Z.
Proof.
  unfold Middleware._handle_2fa_required.
  destruct (Middleware.is_api_request req); reflexivity.
Qed.









(** ** What the two identity paths can answer *)

Ltac case_on x := destruct x eqn:?; run_fst.

Ltac next_case :=
  match goal with
  | |- context [match ?x with _ => _ end] =>
      lazymatch x with
      | context [match _ with _ => _ end] => fail
      | _ => case_on x
      end
  end.

Lemma step9_block_intro (req : Middleware.request) (email : pyval) :
  String.eqb (Middleware.method req) "GET" = false ->
  step9_block req
    (Middleware.Return (Some (Middleware._handle_2fa_required req email))).
Proof.
  intros H. split.
  - apply String.eqb_neq. exact H.
  - exists email. reflexivity.
Qed.

Lemma session_outcome self w req :
  match fst (Middleware.session_path self w req) with
  | Ok v => step9_block req v
  | Raise _ => True
  end.
Proof.
  unfold Middleware.session_path, Middleware.getattr, Middleware.attr,
    Middleware.bool_, Middleware.print_, Middleware.return_.
  run_fst.
  repeat next_case; first [exact I | apply step9_block_intro; assumption].
Qed.

Lemma jwt_lookup_outcome self w req :
  match fst (Middleware.jwt_lookup self w req) with
  | Ok v => step9_block req v
  | Raise _ => True
  end.
Proof.
  unfold Middleware.jwt_lookup, Middleware.print_, Middleware.return_.
  run_fst.
  repeat next_case; first [exact I | apply step9_block_intro; assumption].
Qed.

Lemma jwt_path_outcome self w req :
  match fst (Middleware.jwt_path self w req) with
  | Ok v => step9_block req v
  | Raise _ => True
  end.
Proof.
  pose proof (jwt_lookup_outcome self w req) as H.
  unfold Middleware.jwt_path. run_fst.
  repeat next_case; first [exact I | exact H].
Qed.

(** With its imports settled by availability the bearer-token path raises
    nothing. *)
Lemma jwt_path_total self w req :
  imports_by_availability w ->
  exists v, fst (Middleware.jwt_path self w req) = Ok v.
Proof.
  intros [H1 [H2 H3]]. unfold Middleware.jwt_path. run_fst.
  destruct H1 as [-> | [e1 [-> E1]]]; run_fst;
    [| unfold Middleware.is_Exception; rewrite ?E1; run_fst; eauto].
  destruct H2 as [-> | [e2 [-> E2]]]; run_fst;
    [| rewrite ?E2; run_fst; eauto].
  destruct H3 as [-> | [e3 [-> E3]]]; run_fst;
    [| rewrite ?E3; run_fst; eauto].
  destruct (fst (Middleware.jwt_lookup self w req)); run_fst;
    unfold Middleware.is_Exception; run_fst; eauto.
Qed.

(** The handler's decision in terms of the session path's result. *)
Lemma decision_by_session self w req :
  Middleware.require_2fa self = true ->
  Middleware._is_allowed_route req (normalized_path req) = false ->
  decision self w req
  = match fst (Middleware.session_path self w req) with
    | Ok (Middleware.Return v) => Ok v
    | Ok Middleware.Next => Ok None
    | Raise e =>
        if is_ImportError e then
          match fst (Middleware.jwt_path self w req) with
          | Ok (Middleware.Return v) => Ok v
          | Ok Middleware.Next => Ok None
          | Raise e' => Raise e'
          end
        else Ok None
    end.
Proof.
  intros Hon Hroute. unfold decision, Middleware.check_2fa_requirement.
  rewrite Hon. unfold normalized_path in Hroute. simpl. rewrite Hroute.
  unfold Middleware.print_. run_fst.
  destruct (fst (Middleware.session_path self w req)) as [[|v] | e]; run_fst;
    try reflexivity.
  destruct (is_ImportError e); run_fst.
  - destruct (fst (Middleware.jwt_path self w req)) as [[|v] | e']; reflexivity.
  - unfold Middleware.is_Exception. run_fst. reflexivity.
Qed.

(** X29.  Where the gate fails open and where it cannot.  With
    enforcement on and the path not allow-listed: an exception other than
    [ImportError] raised on the session path is caught and the decision is
    Allow; so is every exception raised in the bearer-token lookup once
    that path's three modules are imported.  Every response the gate
    returns is the step-9 block: status 403, to a request other than GET.
    And when each import of the bearer-token path either succeeds or
    raises [ImportError], the handler raises nothing. *)
Theorem gate_fails_open_where_it_catches
        (self : Middleware.middleware) (w : Middleware.world)
        (req : Middleware.request) :
  Middleware.require_2fa self = true ->
  Middleware._is_allowed_route req (normalized_path req) = false ->
  (forall e,
      fst (Middleware.session_path self w req) = Raise e ->
      is_ImportError e = false ->
      decision self w req = Ok None)
  /\ (forall e0 e,
         fst (Middleware.session_path self w req) = Raise e0 ->
         is_ImportError e0 = true ->
         jwt_importable w ->
         fst (Middleware.jwt_lookup self w req) = Raise e ->
         decision self w req = Ok None)
  /\ (forall r,
         decision self w req = Ok (Some r) ->
         Middleware.status_code r = 403%Z
         /\ Middleware.method req <> "GET"
         /\ exists email, r = Middleware._handle_2fa_required req email)
  /\ (imports_by_availability w -> exists v, decision self w req = Ok v).
Proof.
  intros Hon Hroute.
  rewrite (decision_by_session self w req Hon Hroute).
  pose proof (session_outcome self w req) as Hs.
  pose proof (jwt_path_outcome self w req) as Hj.
  split; [|split; [|split]].
  - intros e He Hni. rewrite He, Hni. reflexivity.
  - intros e0 e He0 Hi [I1 [I2 I3]] He. rewrite He0, Hi.
    unfold Middleware.jwt_path. run_fst. rewrite I1. run_fst.
    rewrite I2. run_fst. rewrite I3. run_fst. rewrite He. run_fst.
    unfold Middleware.is_Exception. run_fst. reflexivity.
  - intros r Hr.
    assert (Hblock : step9_block req (Middleware.Return (Some r))).
    { destruct (fst (Middleware.session_path self w req)) as [[|v] | e];
        [discriminate | | ].
      - injection Hr as ->. exact Hs.
      - destruct (is_ImportError e); [|discriminate].
        destruct (fst (Middleware.jwt_path self w req)) as [[|v] | e'];
          try discriminate.
        injection Hr as ->. exact Hj. }
    destruct Hblock as [Hm [email ->]].
    split; [apply handle_status|].
    split; [exact Hm|].
    exists email. reflexivity.
  - intros Hav.
    destruct (fst (Middleware.session_path self w req)) as [[|v] | e]; eauto.
    destruct (is_ImportError e); eauto.
    destruct (jwt_path_total self w req Hav) as [v ->].
    destruct v; eauto.
Qed.

Lemma gate_fails_open_where_it_catches_witness :
  decision (enforcing []) (host_with_session (failing_user runtime_error) None) api_post
  = Ok None
  /\ decision (enforcing []) host_person_lookup_fails api_post = Ok None.
Proof.
  split.
  - apply (proj1 (gate_fails_open_where_it_catches
                    (enforcing []) (host_with_session (failing_user runtime_error) None)
                    api_post eq_refl eq_refl) runtime_error); reflexivity.
  - apply (proj1 (proj2 (gate_fails_open_where_it_catches
                           (enforcing []) host_person_lookup_fails
                           api_post eq_refl eq_refl))
                 (Exn ImportError "No module named 'flask_login'") person_not_found).
    + reflexivity.
    + reflexivity.
    + repeat split.
    + reflexivity.
Defined.

(** C1 does not hold of the handler: two requests to a path that is not
    allow-listed, with enforcement on, on which an exception raised while
    the caller's identity is resolved does not end in Allow.  On a host
    without flask_login where importing zou's [persons_service] raises a
    [RuntimeError], that exception is raised inside the
    [except ImportError] handler, is offered to no other clause and leaves
    the gate.  On a host with flask_login where resolving [current_user]
    raises an [ImportError], the handler takes it for a missing
    flask_login, turns to the bearer token, and the request is blocked. *)
Theorem C1_exception_does_not_end_in_allow :
  decision (enforcing []) host_services_import_fails api_post = Raise runtime_error
  /\ decision (enforcing []) host_session_import_error api_post
     = Ok (Some (Middleware._handle_2fa_required api_post
                   (PyStr "dave@studio.example")))
  /\ Middleware.status_code
       (Middleware._handle_2fa_required api_post (PyStr "dave@studio.example"))
     = 403%Z.
Proof.
  split; [|split]; vm_compute; reflexivity.
Qed.

(** ** What the handler logs *)

Section Log.
Variable P : Middleware.event -> bool.

Lemma log_all_ret {A} (a : A) : log_all P (Middleware.ret a).
Proof. reflexivity. Qed.

Lemma log_all_raise {A} (e : exn) : log_all P (@Middleware.raise A e).
Proof. reflexivity. Qed.

Lemma log_all_ext {A} (ev : Middleware.event) (r : res A) :
  P ev = true -> log_all P (Middleware.ext ev r).
Proof. intros H. unfold log_all. simpl. rewrite H. reflexivity. Qed.

Lemma log_all_bind {A B} (m : Middleware.M A) (f : A -> Middleware.M B) :
  log_all P m -> (forall a, log_all P (f a)) -> log_all P (Middleware.bind m f).
Proof.
  unfold log_all. intros Hm Hf. rewrite snd_bind, forallb_app, Hm. simpl.
  destruct (fst m); [apply Hf | reflexivity].
Qed.

Lemma log_all_try {A} (m : Middleware.M A) (cs : list (Middleware.clause A)) :
  log_all P m ->
  Forall (fun c => forall e, log_all P (snd c e)) cs ->
  log_all P (Middleware.try_ m cs).
Proof.
  unfold log_all. intros Hm Hcs. rewrite snd_try, forallb_app, Hm. simpl.
  destruct (fst m) as [a | e]; [reflexivity|].
  induction Hcs as [| [p h] cs Hc _ IH]; simpl; [reflexivity|].
  destruct (p e); [apply Hc | exact IH].
Qed.
End Log.

Ltac log_step :=
  first
    [ apply log_all_ret
    | apply log_all_raise
    | apply log_all_ext; reflexivity
    | apply log_all_bind; [| intros ?]
    | apply log_all_try; [| repeat constructor; simpl; intros ?]
    | match goal with
      | |- log_all _ (if ?c then _ else _) => destruct c
      | |- log_all _ (match ?x with _ => _ end) => destruct x
      end ].

Lemma is_exempt_user_log P self email :
  log_all P (Middleware._is_exempt_user self email).
Proof.
  unfold Middleware._is_exempt_user. repeat log_step.
Qed.

(** The session path stays off the bearer-token path. *)
Lemma session_path_log self w req :
  log_all off_jwt_path (Middleware.session_path self w req).
Proof.
  unfold Middleware.session_path, Middleware._has_2fa_enabled,
    Middleware.getattr, Middleware.attr, Middleware.bool_,
    Middleware.print_, Middleware.return_.
  repeat first [apply is_exempt_user_log | log_step].
Qed.

(** The bearer-token path never touches [current_user]. *)
Lemma jwt_path_log self w req :
  log_all off_session_path (Middleware.jwt_path self w req).
Proof.
  unfold Middleware.jwt_path, Middleware.jwt_lookup,
    Middleware.print_, Middleware.return_.
  repeat first [apply is_exempt_user_log | log_step].
Qed.

(** The bearer-token path is entered only on an [ImportError] of the
    session path. *)
Lemma gate_log_off_jwt self w req :
  (forall e, fst (Middleware.session_path self w req) = Raise e ->
             is_ImportError e = false) ->
  log_all off_jwt_path (Middleware.check_2fa_requirement self w req).
Proof.
  intros Hs. unfold Middleware.check_2fa_requirement.
  destruct (negb (Middleware.require_2fa self)); [reflexivity|].
  simpl. destruct (Middleware._is_allowed_route req _); [reflexivity|].
  apply log_all_bind; [reflexivity | intros _].
  apply log_all_bind; [| intros [|v]; reflexivity].
  unfold log_all. rewrite snd_try, forallb_app.
  rewrite (session_path_log self w req). simpl.
  destruct (fst (Middleware.session_path self w req)) as [v | e] eqn:E;
    [reflexivity|].
  rewrite (Hs e eq_refl). reflexivity.
Qed.

(** Without flask_login, [current_user] is never touched. *)
Lemma gate_log_off_session self w req :
  flask_login_missing w ->
  log_all off_session_path (Middleware.check_2fa_requirement self w req).
Proof.
  intros [e [Himp He]]. unfold Middleware.check_2fa_requirement.
  destruct (negb (Middleware.require_2fa self)); [reflexivity|].
  simpl. destruct (Middleware._is_allowed_route req _); [reflexivity|].
  apply log_all_bind; [reflexivity | intros _].
  apply log_all_bind; [| intros [|v]; reflexivity].
  unfold log_all. rewrite snd_try, forallb_app.
  unfold Middleware.session_path at 1 2. rewrite snd_bind, fst_bind.
  rewrite fst_ext, snd_ext, Himp. simpl. rewrite He.
  apply jwt_path_log.
Qed.

Lemma not_authenticated_session_result self w req :
  reports_not_authenticated w ->
  fst (Middleware.session_path self w req) = Ok (Middleware.Return None).
Proof.
  intros [Himp [Hb | [Hb [v [Ha Hv]]]]];
    unfold Middleware.session_path, Middleware.attr, Middleware.bool_,
      Middleware.return_;
    run_known; reflexivity.
Qed.

Lemma log_all_none (P : Middleware.event -> bool) {A} (m : Middleware.M A) :
  log_all (fun ev => negb (P ev)) m -> existsb P (snd m) = false.
Proof.
  unfold log_all. induction (snd m) as [|ev l IH]; simpl; [reflexivity|].
  intros H. apply andb_true_iff in H. destruct H as [Hev Hl].
  apply negb_true_iff in Hev. rewrite Hev. apply IH. exact Hl.
Qed.

(** C9, as the code has it: the identity source is chosen by module
    availability, not by the credentials on the request.  When
    flask_login is importable and reports the caller as not authenticated,
    the gate allows and logs nothing of the bearer-token path, whatever
    token the request carries and whatever its method; when flask_login
    is missing, [current_user] is never touched; the bearer-token path is
    entered only when the session path ended in an [ImportError]; so a
    request sees both sources only when flask_login was imported and a
    step on [current_user] raised an [ImportError]. *)
Theorem C9_identity_source_by_availability
        (self : Middleware.middleware) (w : Middleware.world)
        (req : Middleware.request) :
  Middleware.require_2fa self = true ->
  (reports_not_authenticated w ->
   decision self w req = Ok None
   /\ log_all off_jwt_path (Middleware.check_2fa_requirement self w req))
  /\ (flask_login_missing w ->
      log_all off_session_path (Middleware.check_2fa_requirement self w req))
  /\ ((forall e, fst (Middleware.session_path self w req) = Raise e ->
                 is_ImportError e = false) ->
      log_all off_jwt_path (Middleware.check_2fa_requirement self w req))
  /\ (consults_session (Middleware.check_2fa_requirement self w req) = true ->
      consults_token (Middleware.check_2fa_requirement self w req) = true ->
      Middleware.import_flask_login w = Ok tt
      /\ exists e, fst (Middleware.session_path self w req) = Raise e
                   /\ is_ImportError e = true).
Proof.
  intros Hon. split; [|split; [|split]].
  - intros Hna.
    pose proof (not_authenticated_session_result self w req Hna) as Hs.
    split.
    + destruct (Middleware._is_allowed_route req (normalized_path req)) eqn:Hr.
      * unfold decision. rewrite (allowed_route_passes self w req Hr). reflexivity.
      * rewrite (decision_by_session self w req Hon Hr), Hs. reflexivity.
    + apply gate_log_off_jwt. intros e He. rewrite Hs in He. discriminate.
  - apply gate_log_off_session.
  - apply gate_log_off_jwt.
  - unfold consults_session, consults_token. intros Hsession Htoken.
    assert (Hraised : exists e, fst (Middleware.session_path self w req) = Raise e
                                /\ is_ImportError e = true).
    { destruct (fst (Middleware.session_path self w req)) as [v | e] eqn:Hs.
      - exfalso.
        assert (Hoff : log_all off_jwt_path (Middleware.check_2fa_requirement self w req)).
        { apply gate_log_off_jwt. intros e He. rewrite Hs in He. discriminate. }
        apply log_all_none in Hoff. congruence.
      - destruct (is_ImportError e) eqn:He; [exists e; split; [reflexivity | exact He]|].
        exfalso.
        assert (Hoff : log_all off_jwt_path (Middleware.check_2fa_requirement self w req)).
        { apply gate_log_off_jwt. intros e' He'. rewrite Hs in He'.
          injection He' as <-. exact He. }
        apply log_all_none in Hoff. congruence. }
    split; [|exact Hraised].
    destruct (Middleware.import_flask_login w) as [[] | e] eqn:Himp; [reflexivity|].
    exfalso. destruct Hraised as [e' [Hs He']].
    assert (Hsame : e' = e).
    { revert Hs. unfold Middleware.session_path. run_fst. rewrite Himp.
      run_fst. intros H. injection H as <-. reflexivity. }
    subst e'.
    assert (Hoff : log_all off_session_path (Middleware.check_2fa_requirement self w req)).
    { apply gate_log_off_session. exists e. split; [exact Himp | exact He']. }
    apply log_all_none in Hoff. congruence.
Qed.

(** The first sentence of C9 fails: on a host with flask_login where
    resolving [current_user] raises an [ImportError], a POST with a bearer
    token sees both identity sources, and the token decides. *)
Lemma C9_counterexample : ~ C9_as_stated.
Proof.
  intros H.
  specialize (H (enforcing []) host_session_import_error api_post eq_refl).
  vm_compute in H. discriminate H.
Qed.

Lemma anonymous_with_token_not_authenticated :
  reports_not_authenticated (host_with_session anonymous_user (Some dave)).
Proof.
  split; [reflexivity|]. right. split; [reflexivity|].
  exists (PyBool false). split; reflexivity.
Qed.

Lemma C9_identity_source_by_availability_witness :
  decision (enforcing []) (host_with_session anonymous_user (Some dave)) api_post
  = Ok None
  /\ log_all off_jwt_path
       (Middleware.check_2fa_requirement
          (enforcing []) (host_with_session anonymous_user (Some dave)) api_post).
Proof.
  apply (proj1 (C9_identity_source_by_availability
                  (enforcing []) (host_with_session anonymous_user (Some dave))
                  api_post eq_refl)).
  apply anonymous_with_token_not_authenticated.
Defined.

(** The same token on a host without flask_login: the POST is blocked. *)
Lemma bearer_token_blocked_without_flask_login :
  decision (enforcing []) (host_without_session (Some dave)) api_post
  = Ok (Some (Middleware._handle_2fa_required api_post
                (PyStr "dave@studio.example"))).
Proof. vm_compute. reflexivity. Qed.

(** ** The gate's exempt set *)

Lemma lower_ascii_idempotent (a : ascii) :
  lower_ascii (lower_ascii a) = lower_ascii a.
Proof.
  destruct a as [[] [] [] [] [] [] [] []]; reflexivity.
Qed.

Lemma lower_idempotent (s : string) : lower (lower s) = lower s.
Proof.
  induction s as [|a s IH]; simpl; [reflexivity|].
  rewrite lower_ascii_idempotent, IH. reflexivity.
Qed.

(** The gate stores every entry of the exempt list lower-cased, and its
    membership test reads the caller's email lower-cased too. *)
Lemma gate_exempt_set_is_lower_case (env : environ) :
  Forall (fun entry => lower entry = entry) (Middleware._get_exempt_users env)
  /\ forall email email',
       lower email = lower email' ->
       Middleware._is_exempt_user (Middleware.init env) (PyStr email)
       = Middleware._is_exempt_user (Middleware.init env) (PyStr email').
Proof.
  split.
  - unfold Middleware._get_exempt_users.
    destruct (negb _); [|constructor].
    apply Forall_forall. intros x Hx. apply in_map_iff in Hx.
    destruct Hx as [y [<- _]]. apply lower_idempotent.
  - intros email email' H. unfold Middleware._is_exempt_user. simpl.
    rewrite H.
    assert (E : String.eqb email EmptyString = String.eqb email' EmptyString).
    { destruct email, email'; simpl in *; try reflexivity; discriminate. }
    rewrite E. reflexivity.
Qed.

(** A non-[ImportError] exception of one of the bearer-token path's own
    imports is offered to no handler and leaves the gate. *)
Lemma bearer_import_failure_escapes
      (self : Middleware.middleware) (w : Middleware.world)
      (req : Middleware.request) (e : exn) :
  Middleware.require_2fa self = true ->
  Middleware._is_allowed_route req (normalized_path req) = false ->
  flask_login_missing w ->
  Middleware.import_flask_jwt_extended w = Raise e
  \/ (Middleware.import_flask_jwt_extended w = Ok tt
      /\ Middleware.import_flask_jwt_extended_exceptions w = Raise e)
  \/ (Middleware.import_flask_jwt_extended w = Ok tt
      /\ Middleware.import_flask_jwt_extended_exceptions w = Ok tt
      /\ Middleware.import_persons_service w = Raise e) ->
  is_ImportError e = false ->
  decision self w req = Raise e.
Proof.
  intros Hon Hroute [e0 [Himp He0]] Hfail He.
  rewrite (decision_by_session self w req Hon Hroute).
  unfold Middleware.session_path at 1. run_fst. rewrite Himp, He0.
  unfold Middleware.jwt_path. run_fst.
  destruct Hfail as [H1 | [[H1 H2] | [H1 [H2 H3]]]];
    run_known; reflexivity.
Qed.

Lemma bearer_import_failure_escapes_witness :
  decision (enforcing []) host_services_import_fails api_post = Raise runtime_error.
Proof.
  apply (bearer_import_failure_escapes (enforcing []) host_services_import_fails
           api_post runtime_error).
  - reflexivity.
  - reflexivity.
  - exists (Exn ImportError "No module named 'flask_login'"). split; reflexivity.
  - right. right. repeat split.
  - reflexivity.
Defined.

(** * Properties of the audit and enforcement script *)

Lemma print_all_spec (lines : list string) (s : Enforce.state) :
  Enforce.print_all lines s
  = (Enforce.Val tt,
     {| Enforce.table := Enforce.table s; Enforce.txn := Enforce.txn s;
        Enforce.stdin := Enforce.stdin s;
        Enforce.stdout := (Enforce.stdout s ++ lines)%list;
        Enforce.stderr := Enforce.stderr s; Enforce.calls := Enforce.calls s |}).
Proof.
  revert s. induction lines as [|l ls IH]; intros s; simpl.
  - rewrite app_nil_r. destruct s; reflexivity.
  - unfold Enforce.bind, Enforce.print_. rewrite IH. simpl.
    rewrite <- app_assoc. reflexivity.
Qed.

Arguments Enforce.print_all : simpl never.
Arguments Enforce.repeat_str : simpl never.
Arguments Enforce.str_nat : simpl never.
Arguments Enforce.str_Z : simpl never.

Ltac unfold_cli :=
  unfold Enforce.enforce_2fa, Enforce.audit_users, Enforce.get_db_connection,
    Enforce.select_active_without_2fa, Enforce.select_all, Enforce.execute,
    Enforce.commit, Enforce.rollback, Enforce.cursor_close, Enforce.conn_close,
    Enforce.try_finally, Enforce.try_except_psycopg2, Enforce.fail_with,
    Enforce.bind, Enforce.ret, Enforce.raise, Enforce.sys_exit,
    Enforce.log_call, Enforce.print_, Enforce.eprint, Enforce.input,
    Enforce.set_txn, Enforce.set_table, Enforce.txn_aborted, Enforce.start.

(** C5: whatever is typed at the prompt, unless it is [yes] (in any letter
    case), [enforce_2fa] issues no [UPDATE] and no commit and leaves the
    table as it was, and it returns 0 whenever the accounts could be
    fetched. *)
Theorem C5_no_mutation_without_yes
        (f : Enforce.faults) (env : environ) (rows : list Enforce.person)
        (c : string) (rest : list string) :
  lower c <> "yes" ->
  Enforce.table (snd (Enforce.enforce_2fa f env (Enforce.start rows (c :: rest)))) = rows
  /\ existsb is_update
       (Enforce.calls (snd (Enforce.enforce_2fa f env (Enforce.start rows (c :: rest)))))
     = false
  /\ existsb is_commit
       (Enforce.calls (snd (Enforce.enforce_2fa f env (Enforce.start rows (c :: rest)))))
     = false
  /\ (fetch_succeeds f ->
      fst (Enforce.enforce_2fa f env (Enforce.start rows (c :: rest))) = Enforce.Val 0%Z).
Proof.
  intros Hc. apply String.eqb_neq in Hc.
  unfold_cli. simpl.
  destruct (Enforce.connect_fault f) as [e|] eqn:Hconn; simpl.
  { destruct (is_Psycopg2Error e); simpl;
      (repeat split; try reflexivity; intros [H _]; congruence). }
  destruct (Enforce.select_fault f) as [e|] eqn:Hsel; simpl.
  { destruct (is_Psycopg2Error e); simpl;
      [destruct (Enforce.rollback_fault f); simpl|];
      (repeat split; try reflexivity; intros [_ H]; congruence). }
  destruct (Enforce.filter_map Enforce.to_row5 rows) as [|u us] eqn:Husers; simpl.
  { repeat split; reflexivity. }
  match goal with
  | |- context [match ?l with [] => _ | _ :: _ => _ end] => destruct l eqn:Hbatch
  end; simpl.
  { repeat split; reflexivity. }
  rewrite print_all_spec. simpl. rewrite Hc. simpl.
  repeat split; reflexivity.
Qed.

Lemma C5_no_mutation_without_yes_witness :
  Enforce.table (snd (Enforce.enforce_2fa no_faults [] (Enforce.start three_accounts ["y"])))
  = three_accounts
  /\ existsb is_update
       (Enforce.calls (snd (Enforce.enforce_2fa no_faults [] (Enforce.start three_accounts ["y"]))))
     = false
  /\ existsb is_commit
       (Enforce.calls (snd (Enforce.enforce_2fa no_faults [] (Enforce.start three_accounts ["y"]))))
     = false
  /\ (fetch_succeeds no_faults ->
      fst (Enforce.enforce_2fa no_faults [] (Enforce.start three_accounts ["y"]))
      = Enforce.Val 0%Z).
Proof.
  apply (C5_no_mutation_without_yes no_faults [] three_accounts "y" []).
  vm_compute. discriminate.
Defined.

(** ** The mutation phase *)

(** The state of the transaction after further calls. *)
Lemma aborted_after_app (f : Enforce.faults) (l l' : list Enforce.call) (a : bool) :
  Enforce.aborted_after f (l ++ l')%list a
  = Enforce.aborted_after f l' (Enforce.aborted_after f l a).
Proof.
  revert a. induction l as [|c l IH]; intros a; simpl; [reflexivity | apply IH].
Qed.

Lemma txn_aborted_after_update (f : Enforce.faults) (s s' : Enforce.state)
      (user_id : string) :
  Enforce.calls s' = (Enforce.calls s ++ [Enforce.UpdateActiveFalse user_id])%list ->
  Enforce.txn_aborted f s'
  = Enforce.txn_aborted f s || Enforce.storage_fault (Enforce.update_fault f user_id).
Proof.
  intros H. unfold Enforce.txn_aborted. rewrite H, aborted_after_app. reflexivity.
Qed.

(** The loop over the batch inside an aborted transaction: every [UPDATE]
    is attempted and refused, nothing is counted or changed. *)
Lemma disable_users_refused (f : Enforce.faults) (batch : list Enforce.row5) :
  forall (n : Z) (s : Enforce.state),
    Enforce.txn_aborted f s = true ->
    Enforce.disable_users f batch n s
    = (Enforce.Val n,
       {| Enforce.table := Enforce.table s;
          Enforce.txn := Enforce.txn s;
          Enforce.stdin := Enforce.stdin s;
          Enforce.stdout := Enforce.stdout s;
          Enforce.stderr := (Enforce.stderr s ++ refused_lines batch)%list;
          Enforce.calls := (Enforce.calls s ++ update_calls batch)%list |}).
Proof.
  induction batch as [|u batch IH]; intros n s Hab.
  - simpl. unfold Enforce.ret, refused_lines, update_calls. simpl.
    rewrite !app_nil_r. destruct s; reflexivity.
  - destruct u as [[[[user_id email] first] last] role].
    simpl Enforce.disable_users.
    unfold Enforce.bind at 1.
    unfold Enforce.try_except_psycopg2, Enforce.update_active_false,
      Enforce.bind, Enforce.execute.
    rewrite Hab.
    unfold Enforce.bind, Enforce.log_call, Enforce.eprint, Enforce.ret,
      Enforce.raise.
    cbn [is_Psycopg2Error Enforce.in_failed_transaction exn_cls
         Enforce.table Enforce.txn Enforce.stdin Enforce.stdout Enforce.stderr
         Enforce.calls].
    rewrite IH.
    + unfold refused_lines, update_calls. simpl.
      rewrite <- !app_assoc. reflexivity.
    + erewrite txn_aborted_after_update by reflexivity.
      rewrite Hab. reflexivity.
Qed.

(** The loop over the batch in a transaction that is not aborted, when
    every error of an [UPDATE] is a storage error: it attempts every row
    in order and counts the rows before the first failure; that failure
    aborts the transaction, and the rows after it are refused.  The
    committed table is left alone. *)
Lemma disable_users_spec (f : Enforce.faults) :
  update_faults_are_storage_errors f ->
  forall (batch : list Enforce.row5) (n : Z) (s : Enforce.state),
    Enforce.txn_aborted f s = false ->
    Enforce.disable_users f batch n s
    = (Enforce.Val (n + Z.of_nat (List.length (succeeded f batch)))%Z,
       {| Enforce.table := Enforce.table s;
          Enforce.txn := deactivated (succeeded f batch) (Enforce.txn s);
          Enforce.stdin := Enforce.stdin s;
          Enforce.stdout := (Enforce.stdout s ++ disabled_lines f batch)%list;
          Enforce.stderr := (Enforce.stderr s ++ failed_lines f batch)%list;
          Enforce.calls := (Enforce.calls s ++ update_calls batch)%list |}).
Proof.
  intros Hf batch. induction batch as [|u batch IH]; intros n s Hab.
  - simpl. unfold Enforce.ret, disabled_lines, update_calls. simpl.
    rewrite Z.add_0_r, !app_nil_r. destruct s; reflexivity.
  - destruct u as [[[[user_id email] first] last] role].
    simpl Enforce.disable_users.
    unfold Enforce.bind at 1.
    unfold Enforce.try_except_psycopg2, Enforce.update_active_false,
      Enforce.bind, Enforce.execute.
    rewrite Hab.
    unfold Enforce.fail_with, Enforce.bind, Enforce.log_call, Enforce.print_,
      Enforce.eprint, Enforce.ret, Enforce.raise, Enforce.set_txn.
    unfold disabled_lines, update_calls in *.
    cbn [succeeded failed_lines row5_id row5_email map
         Enforce.table Enforce.txn Enforce.stdin Enforce.stdout Enforce.stderr
         Enforce.calls].
    destruct (Enforce.update_fault f user_id) as [e|] eqn:Hu;
      cbn [Enforce.is_some Enforce.table Enforce.txn Enforce.stdin Enforce.stdout
           Enforce.stderr Enforce.calls].
    + rewrite (Hf user_id e Hu).
      rewrite disable_users_refused.
      * unfold deactivated, update_calls. simpl.
        rewrite Z.add_0_r, app_nil_r, <- !app_assoc. reflexivity.
      * erewrite txn_aborted_after_update by reflexivity.
        rewrite Hab, Hu. simpl. apply (Hf user_id e Hu).
    + rewrite IH.
      * unfold deactivated. simpl. rewrite <- !app_assoc. simpl.
        f_equal. f_equal. lia.
      * erewrite txn_aborted_after_update by reflexivity.
        rewrite Hab, Hu. reflexivity.
Qed.

Arguments Enforce.disable_users : simpl never.

(** Whether the batch left the transaction aborted. *)
Lemma aborted_after_updates (f : Enforce.faults) :
  update_faults_are_storage_errors f ->
  forall batch : list Enforce.row5,
    Enforce.aborted_after f (update_calls batch) false = true
    <-> succeeded f batch <> batch.
Proof.
  intros Hf batch. induction batch as [|u batch IH]; simpl.
  - split; [discriminate | intros H; contradiction H; reflexivity].
  - destruct (Enforce.update_fault f (row5_id u)) as [e|] eqn:Hu; simpl.
    + rewrite (Hf _ _ Hu). split; [discriminate|]. intros _.
      assert (Hlater : forall l, Enforce.aborted_after f (update_calls l) true = true).
      { intros l. induction l as [|v l IHl]; simpl; [reflexivity | exact IHl]. }
      apply Hlater.
    + rewrite IH. split.
      * intros H E. apply H. injection E as E. exact E.
      * intros H E. apply H. rewrite E. reflexivity.
Qed.

(** The run of [enforce_2fa] after a confirmation, on a storage that can
    be reached and read, with a batch that is not empty: up to the commit.
    A commit that raises nothing publishes the deactivations when every
    [UPDATE] went through, and nothing when one of them failed. *)
Lemma confirmed_run (f : Enforce.faults) (env : environ)
      (rows : list Enforce.person) (c : string) (rest : list string) :
  fetch_succeeds f ->
  lower c = "yes" ->
  update_faults_are_storage_errors f ->
  users_to_disable env rows <> [] ->
  let batch := users_to_disable env rows in
  let run := Enforce.enforce_2fa f env (Enforce.start rows (c :: rest)) in
  match Enforce.commit_fault f with
  | None =>
      fst run = Enforce.Val (Z.of_nat (List.length (succeeded f batch)))
      /\ (succeeded f batch = batch -> Enforce.table (snd run) = deactivated batch rows)
      /\ (succeeded f batch <> batch -> Enforce.table (snd run) = rows)
      /\ Enforce.calls (snd run)
         = ([Enforce.Connect; Enforce.SelectActiveWithout2FA]
            ++ update_calls batch
            ++ [Enforce.Commit; Enforce.CursorClose; Enforce.ConnClose])%list
      /\ In ("Successfully disabled "
             ++ Enforce.str_Z (Z.of_nat (List.length (succeeded f batch)))
             ++ " user(s).")
            (Enforce.stdout (snd run))
      /\ Enforce.stderr (snd run) = failed_lines f batch
  | Some e =>
      is_Psycopg2Error e = true ->
      Enforce.rollback_fault f = None ->
      fst run = Enforce.Val (-1)%Z
      /\ Enforce.table (snd run) = rows
  end.
Proof.
  intros [Hconn Hsel] Hc Hf Hne. apply String.eqb_eq in Hc.
  pose proof (aborted_after_updates f Hf (users_to_disable env rows)) as Hab.
  unfold users_to_disable in *.
  unfold_cli. rewrite Hconn, Hsel.
  cbn [Enforce.table Enforce.txn Enforce.stdin Enforce.stdout Enforce.stderr
       Enforce.calls Enforce.aborted_after Enforce.ends_transaction fst snd app].
  destruct (Enforce.filter_map Enforce.to_row5 rows) as [|u us] eqn:Husers;
    [contradiction Hne; reflexivity|].
  match type of Hne with ?b <> [] => remember b as batch eqn:Hbatch end.
  destruct batch as [|b batch]; [contradiction Hne; reflexivity|].
  rewrite print_all_spec.
  cbn [Enforce.table Enforce.txn Enforce.stdin Enforce.stdout Enforce.stderr
       Enforce.calls Enforce.aborted_after Enforce.ends_transaction fst snd app negb].
  rewrite Hc. cbn [negb].
  rewrite (disable_users_spec f Hf);
    [|unfold Enforce.txn_aborted; simpl; rewrite Hsel; reflexivity].
  cbn [Enforce.table Enforce.txn Enforce.stdin Enforce.stdout Enforce.stderr
       Enforce.calls Enforce.aborted_after Enforce.ends_transaction fst snd app].
  cbn [Enforce.statement_aborts orb]. rewrite Hsel. cbn [Enforce.storage_fault].
  destruct (Enforce.commit_fault f) as [e|] eqn:Hcommit.
  - intros He Hrb. rewrite He, Hrb. simpl. split; reflexivity.
  - rewrite print_all_spec.
    cbn [Enforce.table Enforce.txn Enforce.stdin Enforce.stdout Enforce.stderr
         Enforce.calls fst snd].
    split; [reflexivity|]. split; [|split; [|split; [|split]]].
    + intros Hall.
      destruct (Enforce.aborted_after f (update_calls (b :: batch)) false) eqn:Hx.
      * exfalso. exact (proj1 Hab eq_refl Hall).
      * cbn [Enforce.table]. rewrite Hall. reflexivity.
    + intros Hsome. apply Hab in Hsome. rewrite Hsome. reflexivity.
    + destruct (Enforce.aborted_after f (update_calls (b :: batch)) false);
        cbn [Enforce.calls]; simpl; rewrite <- !app_assoc; reflexivity.
    + destruct (Enforce.aborted_after f (update_calls (b :: batch)) false);
        cbn [Enforce.stdout]; apply in_or_app; right; simpl; tauto.
    + destruct (Enforce.aborted_after f (update_calls (b :: batch)) false);
        reflexivity.
Qed.


Lemma update_fails_for_storage_error (user_id : string) (e : exn) :
  is_Psycopg2Error e = true ->
  update_faults_are_storage_errors (update_fails_for user_id e).
Proof.
  intros He i e' H. unfold update_fails_for in H. simpl in H.
  destruct (String.eqb i user_id); [|discriminate].
  injection H as <-. exact He.
Qed.




(** ** The audit *)

(** The three listings the loop of [audit_users] builds. *)
Lemma bucket_users_from (ex : list string) (l : list Enforce.row) (b : Enforce.buckets) :
  fold_left (Enforce.bucket_user ex) l b
  = {| Enforce.users_without_2fa :=
         (Enforce.users_without_2fa b
          ++ map (info_of ex) (filter row_active_without_2fa l))%list;
       Enforce.users_with_2fa :=
         (Enforce.users_with_2fa b ++ map (info_of ex) (filter row_with_2fa l))%list;
       Enforce.inactive_users :=
         (Enforce.inactive_users b ++ map (info_of ex) (filter row_inactive l))%list |}.
Proof.
  revert b. induction l as [|r l IH]; intros b; simpl.
  - rewrite !app_nil_r. destruct b; reflexivity.
  - rewrite IH. unfold Enforce.bucket_user, row_active_without_2fa, row_with_2fa,
      row_inactive, row_has_2fa.
    fold (info_of ex r).
    destruct (Enforce.col_truthy (Enforce.row_active r)); simpl.
    + destruct (Enforce.col_truthy (Enforce.row_totp r)
                || Enforce.col_truthy (Enforce.row_email_otp r)
                || Enforce.col_truthy (Enforce.row_fido r)); simpl;
        rewrite <- ?app_assoc; reflexivity.
    + rewrite <- ?app_assoc. reflexivity.
Qed.

Lemma bucket_users_spec (ex : list string) (l : list Enforce.row) :
  Enforce.bucket_users ex l
  = {| Enforce.users_without_2fa := map (info_of ex) (filter row_active_without_2fa l);
       Enforce.users_with_2fa := map (info_of ex) (filter row_with_2fa l);
       Enforce.inactive_users := map (info_of ex) (filter row_inactive l) |}.
Proof.
  unfold Enforce.bucket_users. rewrite bucket_users_from. reflexivity.
Qed.

(** Ordering the rows neither drops nor adds one. *)
Lemma insert_by_email_In (r x : Enforce.row) (l : list Enforce.row) :
  In x (Enforce.insert_by_email r l) <-> x = r \/ In x l.
Proof.
  induction l as [|r' l IH]; simpl.
  - intuition.
  - destruct (String.leb (Enforce.row_email r) (Enforce.row_email r')); simpl.
    + intuition.
    + rewrite IH. intuition.
Qed.

Lemma order_by_email_In (x : Enforce.row) (l : list Enforce.row) :
  In x (Enforce.order_by_email l) <-> In x l.
Proof.
  unfold Enforce.order_by_email. induction l as [|r l IH]; simpl.
  - reflexivity.
  - rewrite insert_by_email_In, IH. intuition.
Qed.

Lemma insert_by_email_count (q : Enforce.row -> bool) (r : Enforce.row)
      (l : list Enforce.row) :
  List.length (filter q (Enforce.insert_by_email r l))
  = List.length (filter q (r :: l)).
Proof.
  induction l as [|r' l IH]; simpl; [reflexivity|].
  destruct (String.leb (Enforce.row_email r) (Enforce.row_email r')); simpl;
    [reflexivity|].
  simpl in IH. destruct (q r'), (q r); simpl in *; rewrite IH; reflexivity.
Qed.

Lemma order_by_email_count (q : Enforce.row -> bool) (l : list Enforce.row) :
  List.length (filter q (Enforce.order_by_email l)) = List.length (filter q l).
Proof.
  unfold Enforce.order_by_email. induction l as [|r l IH]; simpl; [reflexivity|].
  rewrite insert_by_email_count. simpl.
  destruct (q r); simpl; rewrite IH; reflexivity.
Qed.

Lemma to_row_In (p : Enforce.person) (r : Enforce.row) (rows : list Enforce.person) :
  In p rows -> Enforce.to_row p = Some r ->
  In r (Enforce.filter_map Enforce.to_row rows).
Proof.
  intros Hin Hr. induction rows as [|p' rows IH]; simpl in *; [contradiction|].
  destruct Hin as [-> | Hin].
  - rewrite Hr. left. reflexivity.
  - destruct (Enforce.to_row p'); [right|]; auto.
Qed.

Lemma to_row_without_2fa (p : Enforce.person) :
  match Enforce.to_row p with
  | Some r => row_active_without_2fa r = active_without_2fa p
  | None => active_without_2fa p = false
  end.
Proof.
  unfold Enforce.to_row, active_without_2fa.
  destruct (Enforce.email p); reflexivity.
Qed.

Lemma fetched_count_without_2fa (rows : list Enforce.person) :
  List.length (filter row_active_without_2fa (fetched rows))
  = List.length (filter active_without_2fa rows).
Proof.
  unfold fetched. rewrite order_by_email_count.
  induction rows as [|p rows IH]; simpl; [reflexivity|].
  pose proof (to_row_without_2fa p) as Hp.
  destruct (Enforce.to_row p) as [r|]; simpl; rewrite Hp; [|exact IH].
  destruct (active_without_2fa p); simpl; rewrite IH; reflexivity.
Qed.

(** What a run of the audit returns and prints when the rows can be
    fetched. *)
Lemma audit_run (f : Enforce.faults) (env : environ) (now : string)
      (rows : list Enforce.person) (typed : list string) :
  fetch_succeeds f ->
  fst (Enforce.audit_users f env now (Enforce.start rows typed))
  = Enforce.Val
      (Z.of_nat (List.length
                   (Enforce.users_without_2fa
                      (Enforce.bucket_users (Enforce.get_exempt_users env) (fetched rows)))))
  /\ Enforce.stdout (snd (Enforce.audit_users f env now (Enforce.start rows typed)))
     = Enforce.report_lines now (Enforce.get_exempt_users env) (fetched rows)
         (Enforce.bucket_users (Enforce.get_exempt_users env) (fetched rows)).
Proof.
  intros [Hconn Hsel]. unfold_cli. rewrite Hconn, Hsel.
  cbn [Enforce.table Enforce.txn Enforce.stdin Enforce.stdout Enforce.stderr
       Enforce.calls Enforce.aborted_after Enforce.ends_transaction fst snd app].
  rewrite print_all_spec. simpl. split; reflexivity.
Qed.

(** C3, as the code has it: the audit keeps no bucket for exempt accounts.
    Its result is the number of active accounts with an email and no
    second factor, exempt or not.  An exempt account with all three flags
    false is entered, with the exempt marker set, in the listing of users
    without 2FA when it is active and in the listing of inactive users
    when it is not.  Only [enforce_2fa] leaves exempt accounts out of the
    batch it disables. *)
Theorem C3_audit_counts_exempt_accounts
        (f : Enforce.faults) (env : environ) (now : string)
        (rows : list Enforce.person) (typed : list string) :
  fetch_succeeds f ->
  fst (Enforce.audit_users f env now (Enforce.start rows typed))
  = Enforce.Val (Z.of_nat (List.length (filter active_without_2fa rows)))
  /\ Enforce.stdout (snd (Enforce.audit_users f env now (Enforce.start rows typed)))
     = Enforce.report_lines now (Enforce.get_exempt_users env) (fetched rows)
         (Enforce.bucket_users (Enforce.get_exempt_users env) (fetched rows))
  /\ (forall p e,
         In p rows ->
         Enforce.email p = Some e ->
         str_in e (Enforce.get_exempt_users env) = true ->
         has_2fa p = false ->
         exists info,
           Enforce.ui_id info = Enforce.id p
           /\ Enforce.ui_email info = e
           /\ Enforce.ui_exempt info = true
           /\ In info
                (if Enforce.col_truthy (Enforce.active p)
                 then Enforce.users_without_2fa
                        (Enforce.bucket_users (Enforce.get_exempt_users env) (fetched rows))
                 else Enforce.inactive_users
                        (Enforce.bucket_users (Enforce.get_exempt_users env) (fetched rows))))
  /\ (forall u,
         In u (users_to_disable env rows) ->
         str_in (row5_email u) (Enforce.get_exempt_users env) = false).
Proof.
  intros Hfetch.
  destruct (audit_run f env now rows typed Hfetch) as [Hres Hout].
  split; [|split; [exact Hout|split]].
  - rewrite Hres, bucket_users_spec. simpl.
    rewrite length_map, fetched_count_without_2fa. reflexivity.
  - intros p e Hin He Hex H2fa.
    set (r := {| Enforce.row_id := Enforce.id p; Enforce.row_email := e;
                 Enforce.row_first_name := Enforce.first_name p;
                 Enforce.row_last_name := Enforce.last_name p;
                 Enforce.row_totp := Enforce.totp_enabled p;
                 Enforce.row_email_otp := Enforce.email_otp_enabled p;
                 Enforce.row_fido := Enforce.fido_enabled p;
                 Enforce.row_active := Enforce.active p;
                 Enforce.row_role := Enforce.role p |}).
    assert (Hr : In r (fetched rows)).
    { apply order_by_email_In. apply (to_row_In p r rows Hin).
      unfold Enforce.to_row. rewrite He. reflexivity. }
    exists (info_of (Enforce.get_exempt_users env) r).
    split; [reflexivity|]. split; [reflexivity|]. split; [exact Hex|].
    rewrite bucket_users_spec. simpl.
    destruct (Enforce.col_truthy (Enforce.active p)) eqn:Hact;
      apply in_map; apply filter_In; (split; [exact Hr|]).
    + unfold row_active_without_2fa, row_has_2fa. simpl.
      unfold has_2fa in H2fa. rewrite Hact, H2fa. reflexivity.
    + unfold row_inactive. simpl. rewrite Hact. reflexivity.
  - intros u Hu. unfold users_to_disable in Hu. apply filter_In in Hu.
    destruct Hu as [_ Hu]. destruct u as [[[[i e] fn] ln] ro]. simpl.
    apply negb_true_iff in Hu. exact Hu.
Qed.

Lemma C3_audit_counts_exempt_accounts_witness :
  fst (Enforce.audit_users no_faults (exempt_env "a@x.com") "2026-01-01 00:00:00"
         (Enforce.start three_accounts []))
  = Enforce.Val 3%Z.
Proof.
  apply (proj1 (C3_audit_counts_exempt_accounts
                  no_faults (exempt_env "a@x.com") "2026-01-01 00:00:00"
                  three_accounts [] (conj eq_refl eq_refl))).
Defined.

(** C3 as stated fails: with [a@x.com] exempt, the audit of three active
    accounts without 2FA, [a@x.com] among them, returns 3 and not 2, and
    prints [a@x.com] under the users without 2FA, marked exempt. *)
Lemma C3_counterexample : ~ C3_as_stated.
Proof.
  intros H.
  specialize (H no_faults (exempt_env "a@x.com") "2026-01-01 00:00:00"
                three_accounts [] (conj eq_refl eq_refl)).
  vm_compute in H. discriminate H.
Qed.

Lemma exempt_account_listed_without_2fa :
  In "  ✗ a@x.com                                  Active [EXEMPT]"
     (Enforce.stdout
        (snd (Enforce.audit_users no_faults (exempt_env "a@x.com")
                "2026-01-01 00:00:00" (Enforce.start three_accounts [])))).
Proof. vm_compute. tauto. Qed.

(** ** The exempt list in the script *)

(** C4 on the exempt list [Admin@Studio.Example]: the script keeps the
    entry as written while the gate stores it lower-cased, so the account
    [admin@studio.example] is exempt for the gate and not for the script,
    and a confirmed [enforce_2fa] disables it. *)
Theorem C4_script_keeps_letter_case :
  Enforce.get_exempt_users capitalised_env = ["Admin@Studio.Example"]
  /\ Middleware._get_exempt_users capitalised_env = ["admin@studio.example"]
  /\ is_exempt (Enforce.get_exempt_users capitalised_env) admin_account = false
  /\ fst (Middleware._is_exempt_user (Middleware.init capitalised_env)
            (PyStr "admin@studio.example")) = Ok true
  /\ fst (Enforce.enforce_2fa no_faults capitalised_env
            (Enforce.start [admin_account] ["yes"])) = Enforce.Val 1%Z
  /\ Enforce.table (snd (Enforce.enforce_2fa no_faults capitalised_env
                           (Enforce.start [admin_account] ["yes"])))
     = [account "u1" "admin@studio.example" false false].
Proof. repeat split; vm_compute; reflexivity. Qed.

(** * Further properties of the request gate *)

(** ** The enforcement flag *)

(** A gate built from an environment where [REQUIRE_2FA] is unset, or set
    to anything but [true], [1] or [yes] in some letter case, lets every
    request through and consults nothing. *)
Theorem gate_off_allows_everything
        (env : environ) (w : Middleware.world) (req : Middleware.request) :
  ~ In (lower (getenv env "REQUIRE_2FA" "False")) enforcement_values ->
  Middleware.check_2fa_requirement (Middleware.init env) w req = (Ok None, []).
Proof.
  intros H. unfold Middleware.check_2fa_requirement, Middleware.init.
  cbn [Middleware.require_2fa].
  destruct (str_in (lower (getenv env "REQUIRE_2FA" "False")) ["true"; "1"; "yes"])
    eqn:E; [|reflexivity].
  apply str_in_In in E. contradiction.
Qed.

Lemma gate_off_allows_everything_witness :
  Middleware.check_2fa_requirement
    (Middleware.init [("REQUIRE_2FA", "on")]) (host_with_session carol None) api_post
  = (Ok None, []).
Proof.
  apply (gate_off_allows_everything [("REQUIRE_2FA", "on")]
           (host_with_session carol None) api_post).
  vm_compute. intuition discriminate.
Defined.

(** ** Reads are never blocked *)

(** Whatever the gate returns as a response is the answer of step 9. *)
Lemma returned_response_is_step9 self w req r :
  Middleware.require_2fa self = true ->
  Middleware._is_allowed_route req (normalized_path req) = false ->
  decision self w req = Ok (Some r) ->
  step9_block req (Middleware.Return (Some r)).
Proof.
  intros Hon Hroute. rewrite (decision_by_session self w req Hon Hroute).
  pose proof (session_outcome self w req) as Hs.
  pose proof (jwt_path_outcome self w req) as Hj.
  destruct (fst (Middleware.session_path self w req)) as [[|v] | e];
    [discriminate | | ].
  - intros H. injection H as ->. exact Hs.
  - destruct (is_ImportError e); [|discriminate].
    destruct (fst (Middleware.jwt_path self w req)) as [[|v] | e'];
      try discriminate.
    intros H. injection H as ->. exact Hj.
Qed.

Lemma options_is_allowed_route (req : Middleware.request) (path : string) :
  Middleware.method req = "OPTIONS" ->
  Middleware._is_allowed_route req path = true.
Proof.
  intros H. unfold Middleware._is_allowed_route. rewrite H. simpl.
  match goal with |- (if ?c then _ else _) = _ => destruct c end; reflexivity.
Qed.

(** No GET and no OPTIONS request is ever answered with a response by the
    gate, whoever the caller is and whatever the path: the handler
    returns nothing, or an exception of the host leaves it. *)
Theorem get_and_options_never_blocked
        (self : Middleware.middleware) (w : Middleware.world)
        (req : Middleware.request) :
  Middleware.method req = "GET" \/ Middleware.method req = "OPTIONS" ->
  decision self w req = Ok None \/ exists e, decision self w req = Raise e.
Proof.
  intros Hm.
  destruct (decision self w req) as [[r|] | e] eqn:Hr; [| left | right; eauto];
    [|reflexivity].
  exfalso. destruct Hm as [Hget | Hopt].
  - destruct (Middleware.require_2fa self) eqn:Hon.
    + destruct (Middleware._is_allowed_route req (normalized_path req)) eqn:Hroute.
      * unfold decision in Hr. rewrite (allowed_route_passes self w req Hroute) in Hr.
        discriminate.
      * destruct (returned_response_is_step9 self w req r Hon Hroute Hr) as [Hm _].
        contradiction.
    + unfold decision, Middleware.check_2fa_requirement in Hr. rewrite Hon in Hr.
      discriminate.
  - unfold decision in Hr.
    rewrite (allowed_route_passes self w req
               (options_is_allowed_route req _ Hopt)) in Hr.
    discriminate.
Qed.

Lemma get_and_options_never_blocked_witness :
  decision (enforcing []) (host_with_session carol None)
           (mk_request "/api/actions/tasks" "GET") = Ok None
  \/ exists e, decision (enforcing []) (host_with_session carol None)
                        (mk_request "/api/actions/tasks" "GET") = Raise e.
Proof.
  apply (get_and_options_never_blocked (enforcing []) (host_with_session carol None)
           (mk_request "/api/actions/tasks" "GET")).
  left. reflexivity.
Defined.

(** ** Exempt callers and callers with a second factor *)

Lemma is_exempt_user_member (self : Middleware.middleware) (email : string) :
  email <> EmptyString ->
  str_in (lower email) (Middleware.exempt_users self) = true ->
  fst (Middleware._is_exempt_user self (PyStr email)) = Ok true.
Proof.
  intros Hne H. unfold Middleware._is_exempt_user. simpl.
  destruct (String.eqb email EmptyString) eqn:E.
  - apply String.eqb_eq in E. contradiction.
  - simpl. rewrite H. reflexivity.
Qed.

(** The exempt test on a string raises nothing. *)
Lemma is_exempt_user_total (self : Middleware.middleware) (email : string) :
  exists b, fst (Middleware._is_exempt_user self (PyStr email)) = Ok b.
Proof.
  unfold Middleware._is_exempt_user. simpl.
  destruct (String.eqb email EmptyString); simpl; eauto.
Qed.

(** A resolved caller whose email, lower-cased, is in the exempt set is
    allowed, for every method and whatever their 2FA flags are. *)
Theorem exempt_caller_allowed
        (self : Middleware.middleware) (w : Middleware.world)
        (req : Middleware.request) (email : string) :
  email <> EmptyString ->
  str_in (lower email) (Middleware.exempt_users self) = true ->
  caller_resolved w email ->
  decision self w req = Ok None.
Proof.
  intros Hne Hex Hcaller.
  pose proof (is_exempt_user_member self email Hne Hex) as Hexempt.
  destruct (Middleware.require_2fa self) eqn:Hon;
    [|unfold decision, Middleware.check_2fa_requirement; rewrite Hon; reflexivity].
  destruct (Middleware._is_allowed_route req (normalized_path req)) eqn:Hroute;
    [unfold decision; rewrite (allowed_route_passes self w req Hroute); reflexivity|].
  rewrite (decision_by_session self w req Hon Hroute).
  destruct Hcaller as [Hs | [user [Hj Hemail]]].
  - destruct Hs as [Himp [Hbool [[v [Hauth Hv]] Hmail]]].
    unfold Middleware.session_path, Middleware.getattr, Middleware.attr,
      Middleware.bool_, Middleware.return_.
    run_known. reflexivity.
  - destruct Hj as [[e [Himp He]] [[I1 [I2 I3]] [Hver [uid [Hid [Tid [Hget Hne']]]]]]].
    unfold Middleware.session_path at 1. run_fst. rewrite Himp, He.
    unfold Middleware.jwt_path, Middleware.jwt_lookup, Middleware.print_,
      Middleware.return_.
    destruct user as [|kv user']; [congruence|].
    run_known. reflexivity.
Qed.

Lemma exempt_caller_allowed_witness :
  decision (enforcing ["carol@studio.example"]) (host_with_session carol None) api_post
  = Ok None.
Proof.
  apply (exempt_caller_allowed (enforcing ["carol@studio.example"])
           (host_with_session carol None) api_post "carol@studio.example").
  - discriminate.
  - reflexivity.
  - left. repeat split; try reflexivity. exists (PyBool true). split; reflexivity.
Defined.

(** The value [_has_2fa_enabled] computes for a user whose flags can be
    read is true exactly when one of them is. *)
Lemma has_2fa_enabled_value (o : Middleware.pyobj) (totp email_otp fido : pyval) :
  Middleware.obj_bool o = Ok true ->
  Middleware.obj_attr o "totp_enabled" = Ok totp ->
  Middleware.obj_attr o "email_otp_enabled" = Ok email_otp ->
  Middleware.obj_attr o "fido_enabled" = Ok fido ->
  exists v, fst (Middleware._has_2fa_enabled o) = Ok v
            /\ truthy v = truthy totp || truthy email_otp || truthy fido.
Proof.
  intros Hb H1 H2 H3.
  unfold Middleware._has_2fa_enabled, Middleware.getattr, Middleware.attr,
    Middleware.bool_.
  run_fst. rewrite Hb. run_fst. rewrite H1. run_fst.
  destruct (truthy totp) eqn:T1; run_fst.
  - exists totp. split; [reflexivity | rewrite T1; reflexivity].
  - rewrite H2. run_fst. destruct (truthy email_otp) eqn:T2; run_fst.
    + exists email_otp. split; [reflexivity | rewrite T2; reflexivity].
    + rewrite H3. run_fst. exists fido. split; reflexivity.
Qed.

(** A resolved caller with one of the three flags set is allowed, for
    every method. *)
Theorem caller_with_2fa_allowed
        (self : Middleware.middleware) (w : Middleware.world)
        (req : Middleware.request) (email : string) :
  caller_with_2fa w email ->
  decision self w req = Ok None.
Proof.
  intros Hcaller.
  destruct (is_exempt_user_total self email) as [ex Hexempt].
  destruct (Middleware.require_2fa self) eqn:Hon;
    [|unfold decision, Middleware.check_2fa_requirement; rewrite Hon; reflexivity].
  destruct (Middleware._is_allowed_route req (normalized_path req)) eqn:Hroute;
    [unfold decision; rewrite (allowed_route_passes self w req Hroute); reflexivity|].
  rewrite (decision_by_session self w req Hon Hroute).
  destruct Hcaller as [[Hs H2fa] | [user [Hj [Hemail H2fa]]]].
  - destruct Hs as [Himp [Hbool [[v [Hauth Hv]] Hmail]]].
    destruct H2fa as [v1 [v2 [v3 [H1 [H2 [H3 Hany]]]]]].
    destruct (has_2fa_enabled_value (Middleware.current_user w) v1 v2 v3
                Hbool H1 H2 H3) as [v' [Hv' Tv']].
    rewrite Hany in Tv'.
    unfold Middleware.session_path, Middleware.getattr, Middleware.attr,
      Middleware.bool_, Middleware.return_.
    run_fst. rewrite Himp. run_fst. rewrite Hbool. run_fst.
    rewrite Hauth. run_fst. rewrite Hv. run_fst. rewrite Hmail. run_fst.
    rewrite Hexempt. run_fst.
    destruct ex; run_fst; [reflexivity|].
    rewrite Hv'. run_fst. rewrite Tv'. run_fst. reflexivity.
  - destruct Hj as [[e [Himp He]] [[I1 [I2 I3]] [Hver [uid [Hid [Tid [Hget Hne']]]]]]].
    unfold Middleware.session_path at 1. run_fst. rewrite Himp, He.
    unfold Middleware.jwt_path, Middleware.jwt_lookup, Middleware.print_,
      Middleware.return_.
    destruct user as [|kv user']; [congruence|].
    run_fst. rewrite I1. run_fst. rewrite I2. run_fst. rewrite I3. run_fst.
    rewrite Hver. run_fst. rewrite Hid. run_fst. rewrite Tid. run_fst.
    rewrite Hget. run_fst. rewrite Hemail, Hexempt. run_fst.
    destruct ex; run_fst; [reflexivity|].
    assert (T : truthy (py_or (dict_get (kv :: user') "totp_enabled" (PyBool false))
                          (py_or (dict_get (kv :: user') "email_otp_enabled" (PyBool false))
                                 (dict_get (kv :: user') "fido_enabled" (PyBool false))))
                = true).
    { unfold dict_has_2fa in H2fa. unfold py_or.
      destruct (truthy (dict_get (kv :: user') "totp_enabled" (PyBool false))) eqn:T1;
        [exact T1|].
      destruct (truthy (dict_get (kv :: user') "email_otp_enabled" (PyBool false))) eqn:T2;
        [exact T2|].
      exact H2fa. }
    rewrite T. run_fst. reflexivity.
Qed.

Lemma caller_with_2fa_allowed_witness :
  decision (enforcing []) (host_with_session erin None) api_post = Ok None.
Proof.
  apply (caller_with_2fa_allowed (enforcing []) (host_with_session erin None)
           api_post "erin@studio.example").
  left. split.
  - repeat split; try reflexivity. exists (PyBool true). split; reflexivity.
  - exists (PyBool false), (PyBool true), (PyBool false). repeat split.
Defined.

(** ** Writes under the data namespace *)






(** ** Requests without a bearer token *)

(** On the bearer-token path, a request whose token is missing or
    malformed, or names no identity, is allowed, and the person service is
    never queried for it. *)
Theorem request_without_token_allowed
        (self : Middleware.middleware) (w : Middleware.world)
        (req : Middleware.request) :
  no_bearer_credential w ->
  decision self w req = Ok None
  /\ log_all never_queries_person (Middleware.check_2fa_requirement self w req).
Proof.
  intros [[e0 [Himp He0]] [[I1 [I2 I3]] Hcred]].
  unfold decision, Middleware.check_2fa_requirement.
  destruct (negb (Middleware.require_2fa self)); [split; reflexivity|].
  cbv zeta.
  destruct (Middleware._is_allowed_route req _); [split; reflexivity|].
  unfold log_all.
  unfold Middleware.session_path, Middleware.jwt_path, Middleware.jwt_lookup,
    Middleware.print_, Middleware.return_.
  destruct Hcred as [[e [Hver He]] | [Hver [uid [Hid Tid]]]].
  - unfold Middleware.is_NoAuthorization_or_InvalidHeader in He.
    split.
    + run_fst. rewrite Himp. run_fst. rewrite He0. run_fst.
      rewrite I1. run_fst. rewrite I2. run_fst. rewrite I3. run_fst.
      rewrite Hver. run_fst.
      unfold Middleware.is_NoAuthorization_or_InvalidHeader. rewrite He.
      run_fst. reflexivity.
    + repeat first
        [ rewrite snd_bind | rewrite snd_try | rewrite snd_ext | rewrite snd_ret
        | rewrite fst_bind | rewrite fst_try | rewrite fst_ext | rewrite fst_ret
        | rewrite Himp | rewrite He0 | rewrite I1 | rewrite I2 | rewrite I3
        | rewrite Hver
        | progress unfold Middleware.is_NoAuthorization_or_InvalidHeader
        | rewrite He
        | progress cbn [fst snd Middleware.dispatch app] ].
      reflexivity.
  - split.
    + run_known. reflexivity.
    + repeat first
        [ rewrite snd_bind | rewrite snd_try | rewrite snd_ext | rewrite snd_ret
        | rewrite fst_bind | rewrite fst_try | rewrite fst_ext | rewrite fst_ret
        | rewrite Himp | rewrite He0 | rewrite I1 | rewrite I2 | rewrite I3
        | rewrite Hver | rewrite Hid | rewrite Tid
        | progress cbn [fst snd Middleware.dispatch app] ].
      reflexivity.
Qed.

Lemma host_without_token_no_credential : no_bearer_credential host_without_token.
Proof.
  split; [exists (Exn ImportError "No module named 'flask_login'"); split; reflexivity|].
  split; [repeat split|].
  left. exists (Exn NoAuthorizationError "Missing Authorization Header").
  split; reflexivity.
Qed.

Lemma request_without_token_allowed_witness :
  decision (enforcing []) host_without_token api_post = Ok None
  /\ log_all never_queries_person
       (Middleware.check_2fa_requirement (enforcing []) host_without_token api_post).
Proof.
  apply (request_without_token_allowed (enforcing []) host_without_token api_post).
  apply host_without_token_no_credential.
Defined.

(** * Further properties of the script *)

(** ** The audit reads and never writes *)

Ltac cli_projections :=
  cbn [Enforce.table Enforce.txn Enforce.stdin Enforce.stdout Enforce.stderr
       Enforce.calls Enforce.aborted_after Enforce.ends_transaction fst snd app].

(** Whatever the storage does, [audit_users] leaves the table as it was
    and issues no [UPDATE] and no commit. *)
Theorem audit_is_read_only
        (f : Enforce.faults) (env : environ) (now : string)
        (rows : list Enforce.person) (typed : list string) :
  Enforce.table (snd (Enforce.audit_users f env now (Enforce.start rows typed))) = rows
  /\ existsb is_write
       (Enforce.calls (snd (Enforce.audit_users f env now (Enforce.start rows typed))))
     = false
  /\ Enforce.stdin (snd (Enforce.audit_users f env now (Enforce.start rows typed)))
     = typed.
Proof.
  unfold_cli. cli_projections.
  destruct (Enforce.connect_fault f) as [e|]; cli_projections.
  { destruct (is_Psycopg2Error e); repeat split; reflexivity. }
  destruct (Enforce.select_fault f) as [e|]; cli_projections.
  { destruct (is_Psycopg2Error e); repeat split; reflexivity. }
  rewrite print_all_spec. repeat split; reflexivity.
Qed.

(** The three listings of the audit split the accounts with an email:
    their sizes add up to the total the report prints. *)
Lemma buckets_add_up (ex : list string) (l : list Enforce.row) :
  (List.length (Enforce.users_with_2fa (Enforce.bucket_users ex l))
   + List.length (Enforce.users_without_2fa (Enforce.bucket_users ex l))
   + List.length (Enforce.inactive_users (Enforce.bucket_users ex l)))%nat
  = List.length l.
Proof.
  rewrite bucket_users_spec. simpl. rewrite !length_map.
  induction l as [|r l IH]; simpl; [reflexivity|].
  unfold row_with_2fa, row_active_without_2fa, row_inactive in *.
  destruct (Enforce.col_truthy (Enforce.row_active r)), (row_has_2fa r);
    simpl; lia.
Qed.

Lemma order_by_email_length (l : list Enforce.row) :
  List.length (Enforce.order_by_email l) = List.length l.
Proof.
  pose proof (order_by_email_count (fun _ => true) l) as H.
  assert (Hall : forall (l : list Enforce.row), filter (fun _ => true) l = l).
  { intros l'. induction l' as [|x l' IHl]; simpl;
      [reflexivity | rewrite IHl; reflexivity]. }
  rewrite !Hall in H. exact H.
Qed.

Lemma fetched_length (rows : list Enforce.person) :
  List.length (fetched rows) = List.length (with_email rows).
Proof.
  unfold fetched, with_email. rewrite order_by_email_length.
  induction rows as [|p rows IH]; simpl; [reflexivity|].
  unfold Enforce.to_row at 1.
  destruct (Enforce.email p); simpl; rewrite IH; reflexivity.
Qed.

(** The summary the audit prints adds up: the total it reports is the
    number of accounts with an email, and it is the sum of the three
    counts printed below it. *)
Theorem audit_summary_adds_up
        (f : Enforce.faults) (env : environ) (now : string)
        (rows : list Enforce.person) (typed : list string) :
  fetch_succeeds f ->
  exists with_2fa without_2fa inactive,
    (with_2fa + without_2fa + inactive)%nat = List.length (with_email rows)
    /\ firstn 4 (skipn 6 (Enforce.stdout
                            (snd (Enforce.audit_users f env now (Enforce.start rows typed)))))
       = [ "  Total users: " ++ Enforce.str_nat (with_2fa + without_2fa + inactive);
           "  Users with 2FA: " ++ Enforce.str_nat with_2fa;
           "  Users without 2FA: " ++ Enforce.str_nat without_2fa;
           "  Inactive users: " ++ Enforce.str_nat inactive ].
Proof.
  intros Hfetch.
  destruct (audit_run f env now rows typed Hfetch) as [_ Hout].
  set (b := Enforce.bucket_users (Enforce.get_exempt_users env) (fetched rows)) in *.
  exists (List.length (Enforce.users_with_2fa b)),
         (List.length (Enforce.users_without_2fa b)),
         (List.length (Enforce.inactive_users b)).
  pose proof (buckets_add_up (Enforce.get_exempt_users env) (fetched rows)) as Hsum.
  fold b in Hsum. split.
  - rewrite Hsum. apply fetched_length.
  - rewrite Hout, Hsum. reflexivity.
Qed.

Lemma audit_summary_adds_up_witness :
  exists with_2fa without_2fa inactive,
    (with_2fa + without_2fa + inactive)%nat = List.length (with_email three_accounts)
    /\ firstn 4 (skipn 6 (Enforce.stdout
                            (snd (Enforce.audit_users no_faults [] "2026-01-01 00:00:00"
                                    (Enforce.start three_accounts [])))))
       = [ "  Total users: " ++ Enforce.str_nat (with_2fa + without_2fa + inactive);
           "  Users with 2FA: " ++ Enforce.str_nat with_2fa;
           "  Users without 2FA: " ++ Enforce.str_nat without_2fa;
           "  Inactive users: " ++ Enforce.str_nat inactive ].
Proof.
  apply (audit_summary_adds_up no_faults [] "2026-01-01 00:00:00" three_accounts []).
  split; reflexivity.
Defined.

(** ** Storage failures *)

(** When the fetch raises a storage error, [audit_users] prints no
    report, writes the error to the error stream, closes cursor and
    connection and returns -1. *)
Theorem audit_fetch_failure
        (f : Enforce.faults) (env : environ) (now : string)
        (rows : list Enforce.person) (typed : list string) (e : exn) :
  fetch_fails_with f e ->
  Enforce.audit_users f env now (Enforce.start rows typed)
  = (Enforce.Val (-1)%Z,
     {| Enforce.table := rows; Enforce.txn := rows; Enforce.stdin := typed;
        Enforce.stdout := [];
        Enforce.stderr := ["Database error: " ++ exn_msg e];
        Enforce.calls := [Enforce.Connect; Enforce.SelectAll;
                          Enforce.CursorClose; Enforce.ConnClose] |}).
Proof.
  intros [Hconn [Hsel He]]. unfold_cli. rewrite Hconn, Hsel. cli_projections.
  rewrite He. reflexivity.
Qed.

Lemma audit_fetch_failure_witness :
  Enforce.audit_users (select_fails storage_error) [] "2026-01-01 00:00:00"
    (Enforce.start three_accounts [])
  = (Enforce.Val (-1)%Z,
     {| Enforce.table := three_accounts; Enforce.txn := three_accounts;
        Enforce.stdin := []; Enforce.stdout := [];
        Enforce.stderr := ["Database error: " ++ exn_msg storage_error];
        Enforce.calls := [Enforce.Connect; Enforce.SelectAll;
                          Enforce.CursorClose; Enforce.ConnClose] |}).
Proof.
  apply (audit_fetch_failure (select_fails storage_error) [] "2026-01-01 00:00:00"
           three_accounts [] storage_error).
  repeat split.
Defined.

(** When the fetch raises a storage error, [enforce_2fa] rolls back and
    returns -1 without a prompt, whatever is waiting on the input: nothing
    is read from it and no [UPDATE] is issued.  (The rollback is assumed
    to go through.) *)
Theorem enforce_fetch_failure
        (f : Enforce.faults) (env : environ)
        (rows : list Enforce.person) (typed : list string) (e : exn) :
  fetch_fails_with f e ->
  Enforce.rollback_fault f = None ->
  Enforce.enforce_2fa f env (Enforce.start rows typed)
  = (Enforce.Val (-1)%Z,
     {| Enforce.table := rows; Enforce.txn := rows; Enforce.stdin := typed;
        Enforce.stdout := [];
        Enforce.stderr := ["Database error: " ++ exn_msg e];
        Enforce.calls := [Enforce.Connect; Enforce.SelectActiveWithout2FA;
                          Enforce.Rollback; Enforce.CursorClose; Enforce.ConnClose] |}).
Proof.
  intros [Hconn [Hsel He]] Hrb. unfold_cli. rewrite Hconn, Hsel. cli_projections.
  rewrite He. cli_projections. rewrite Hrb. reflexivity.
Qed.

Lemma enforce_fetch_failure_witness :
  Enforce.enforce_2fa (select_fails storage_error) [] (Enforce.start three_accounts ["yes"])
  = (Enforce.Val (-1)%Z,
     {| Enforce.table := three_accounts; Enforce.txn := three_accounts;
        Enforce.stdin := ["yes"]; Enforce.stdout := [];
        Enforce.stderr := ["Database error: " ++ exn_msg storage_error];
        Enforce.calls := [Enforce.Connect; Enforce.SelectActiveWithout2FA;
                          Enforce.Rollback; Enforce.CursorClose; Enforce.ConnClose] |}).
Proof.
  apply (enforce_fetch_failure (select_fails storage_error) []
           three_accounts ["yes"] storage_error).
  - repeat split.
  - reflexivity.
Defined.

(** When the storage cannot be reached, both operations end in
    [sys.exit(1)] before any query: only the attempt to connect is on the
    call log, and the error is on the error stream. *)
Theorem connect_failure_exits
        (f : Enforce.faults) (env : environ) (now : string)
        (rows : list Enforce.person) (typed : list string) (e : exn) :
  Enforce.connect_fault f = Some e ->
  is_Psycopg2Error e = true ->
  Enforce.audit_users f env now (Enforce.start rows typed)
  = (Enforce.Exit 1%Z,
     {| Enforce.table := rows; Enforce.txn := rows; Enforce.stdin := typed;
        Enforce.stdout := [];
        Enforce.stderr := ["Error connecting to database: " ++ exn_msg e];
        Enforce.calls := [Enforce.Connect] |})
  /\ Enforce.enforce_2fa f env (Enforce.start rows typed)
     = (Enforce.Exit 1%Z,
        {| Enforce.table := rows; Enforce.txn := rows; Enforce.stdin := typed;
           Enforce.stdout := [];
           Enforce.stderr := ["Error connecting to database: " ++ exn_msg e];
           Enforce.calls := [Enforce.Connect] |}).
Proof.
  intros Hconn He. split; unfold_cli; rewrite Hconn; cli_projections;
    rewrite He; reflexivity.
Qed.

Lemma connect_failure_exits_witness :
  Enforce.audit_users (connect_fails storage_error) [] "2026-01-01 00:00:00"
    (Enforce.start three_accounts [])
  = (Enforce.Exit 1%Z,
     {| Enforce.table := three_accounts; Enforce.txn := three_accounts;
        Enforce.stdin := []; Enforce.stdout := [];
        Enforce.stderr := ["Error connecting to database: " ++ exn_msg storage_error];
        Enforce.calls := [Enforce.Connect] |}).
Proof.
  apply (proj1 (connect_failure_exits (connect_fails storage_error) []
                  "2026-01-01 00:00:00" three_accounts [] storage_error
                  eq_refl eq_refl)).
Defined.

(** ** Runs of [enforce_2fa] that have nothing to do *)

Lemma nothing_to_do_run
      (f : Enforce.faults) (env : environ)
      (rows : list Enforce.person) (typed : list string) :
  fetch_succeeds f ->
  users_to_disable env rows = [] ->
  fst (Enforce.enforce_2fa f env (Enforce.start rows typed)) = Enforce.Val 0%Z
  /\ Enforce.table (snd (Enforce.enforce_2fa f env (Enforce.start rows typed))) = rows
  /\ Enforce.stdin (snd (Enforce.enforce_2fa f env (Enforce.start rows typed))) = typed
  /\ Enforce.calls (snd (Enforce.enforce_2fa f env (Enforce.start rows typed)))
     = [Enforce.Connect; Enforce.SelectActiveWithout2FA;
        Enforce.CursorClose; Enforce.ConnClose].
Proof.
  intros [Hconn Hsel] Hnone. unfold users_to_disable in Hnone.
  unfold_cli. rewrite Hconn, Hsel. cli_projections.
  destruct (Enforce.filter_map Enforce.to_row5 rows) as [|u us] eqn:Husers.
  - repeat split; reflexivity.
  - rewrite Hnone. repeat split; reflexivity.
Qed.

(** When every active account without 2FA is exempt, or there is none,
    [enforce_2fa] returns 0 without a prompt: nothing is read from the
    input, the table stays as it is, and no [UPDATE], commit or rollback is
    issued. *)
Theorem enforce_nothing_to_do
        (f : Enforce.faults) (env : environ)
        (rows : list Enforce.person) (typed : list string) :
  fetch_succeeds f ->
  users_to_disable env rows = [] ->
  fst (Enforce.enforce_2fa f env (Enforce.start rows typed)) = Enforce.Val 0%Z
  /\ Enforce.table (snd (Enforce.enforce_2fa f env (Enforce.start rows typed))) = rows
  /\ Enforce.stdin (snd (Enforce.enforce_2fa f env (Enforce.start rows typed))) = typed
  /\ Enforce.calls (snd (Enforce.enforce_2fa f env (Enforce.start rows typed)))
     = [Enforce.Connect; Enforce.SelectActiveWithout2FA;
        Enforce.CursorClose; Enforce.ConnClose].
Proof. exact (nothing_to_do_run f env rows typed). Qed.

Lemma enforce_nothing_to_do_witness :
  fst (Enforce.enforce_2fa no_faults (exempt_env "a@x.com,b@x.com,c@x.com")
         (Enforce.start three_accounts ["yes"])) = Enforce.Val 0%Z
  /\ Enforce.table (snd (Enforce.enforce_2fa no_faults (exempt_env "a@x.com,b@x.com,c@x.com")
                           (Enforce.start three_accounts ["yes"]))) = three_accounts
  /\ Enforce.stdin (snd (Enforce.enforce_2fa no_faults (exempt_env "a@x.com,b@x.com,c@x.com")
                           (Enforce.start three_accounts ["yes"]))) = ["yes"]
  /\ Enforce.calls (snd (Enforce.enforce_2fa no_faults (exempt_env "a@x.com,b@x.com,c@x.com")
                           (Enforce.start three_accounts ["yes"])))
     = [Enforce.Connect; Enforce.SelectActiveWithout2FA;
        Enforce.CursorClose; Enforce.ConnClose].
Proof.
  apply (enforce_nothing_to_do no_faults (exempt_env "a@x.com,b@x.com,c@x.com")
           three_accounts ["yes"]).
  - split; reflexivity.
  - vm_compute. reflexivity.
Defined.

(** At the end of the input, the prompt of [enforce_2fa] raises
    [EOFError]: the exception leaves the function after cursor and
    connection are closed, and nothing was written. *)
Theorem enforce_without_input
        (f : Enforce.faults) (env : environ) (rows : list Enforce.person) :
  fetch_succeeds f ->
  users_to_disable env rows <> [] ->
  fst (Enforce.enforce_2fa f env (Enforce.start rows []))
  = Enforce.Exc (Exn EOFError "EOF when reading a line")
  /\ Enforce.table (snd (Enforce.enforce_2fa f env (Enforce.start rows []))) = rows
  /\ Enforce.calls (snd (Enforce.enforce_2fa f env (Enforce.start rows [])))
     = [Enforce.Connect; Enforce.SelectActiveWithout2FA;
        Enforce.CursorClose; Enforce.ConnClose].
Proof.
  intros [Hconn Hsel] Hne. unfold users_to_disable in Hne.
  unfold_cli. rewrite Hconn, Hsel. cli_projections.
  destruct (Enforce.filter_map Enforce.to_row5 rows) as [|u us] eqn:Husers;
    [contradiction Hne; reflexivity|].
  match type of Hne with ?b <> [] => remember b as batch eqn:Hbatch end.
  destruct batch as [|b batch]; [contradiction Hne; reflexivity|].
  rewrite print_all_spec. cli_projections. repeat split; reflexivity.
Qed.

Lemma enforce_without_input_witness :
  fst (Enforce.enforce_2fa no_faults [] (Enforce.start three_accounts []))
  = Enforce.Exc (Exn EOFError "EOF when reading a line")
  /\ Enforce.table (snd (Enforce.enforce_2fa no_faults [] (Enforce.start three_accounts [])))
     = three_accounts
  /\ Enforce.calls (snd (Enforce.enforce_2fa no_faults [] (Enforce.start three_accounts [])))
     = [Enforce.Connect; Enforce.SelectActiveWithout2FA;
        Enforce.CursorClose; Enforce.ConnClose].
Proof.
  apply (enforce_without_input no_faults [] three_accounts).
  - split; reflexivity.
  - vm_compute. discriminate.
Defined.

(** ** Running [enforce_2fa] twice *)

Lemma deactivate_id (i : string) (p : Enforce.person) :
  Enforce.id (Enforce.deactivate i p) = Enforce.id p.
Proof.
  unfold Enforce.deactivate. destruct (String.eqb (Enforce.id p) i); reflexivity.
Qed.

Lemma deactivate_all_cons (i : string) (ids : list string) (p : Enforce.person) :
  deactivate_all ids (Enforce.deactivate i p) = deactivate_all (i :: ids) p.
Proof.
  unfold deactivate_all. rewrite deactivate_id. simpl.
  unfold Enforce.deactivate.
  destruct (String.eqb (Enforce.id p) i) eqn:E; simpl.
  - rewrite String.eqb_refl.
    destruct (str_in (Enforce.id p) ids); simpl;
      rewrite ?String.eqb_refl; reflexivity.
  - reflexivity.
Qed.

Lemma deactivate_all_nil (p : Enforce.person) : deactivate_all [] p = p.
Proof. reflexivity. Qed.

(** The table after a batch: every account whose id is in the batch has
    its flag cleared, and no other account is touched. *)
Lemma deactivated_spec (done : list Enforce.row5) (rows : list Enforce.person) :
  deactivated done rows = map (deactivate_all (map row5_id done)) rows.
Proof.
  unfold deactivated. revert rows.
  induction done as [|u done IH]; intros rows; simpl.
  - rewrite <- (map_id rows) at 1. apply map_ext. intros p. reflexivity.
  - rewrite IH, map_map. apply map_ext. intros p. apply deactivate_all_cons.
Qed.

Lemma to_row5_id (p : Enforce.person) (u : Enforce.row5) :
  Enforce.to_row5 p = Some u -> row5_id u = Enforce.id p.
Proof.
  unfold Enforce.to_row5. destruct (Enforce.email p); [|discriminate].
  destruct (_ && _); [|discriminate].
  intros H. injection H as <-. reflexivity.
Qed.

Lemma to_row5_deactivate_all (ids : list string) (p : Enforce.person) :
  Enforce.to_row5 (deactivate_all ids p)
  = if str_in (Enforce.id p) ids then None else Enforce.to_row5 p.
Proof.
  unfold deactivate_all. destruct (str_in (Enforce.id p) ids); [|reflexivity].
  unfold Enforce.deactivate. rewrite String.eqb_refl.
  unfold Enforce.to_row5. simpl. destruct (Enforce.email p); reflexivity.
Qed.

Lemma fetch_after_deactivation (ids : list string) (rows : list Enforce.person) :
  Enforce.filter_map Enforce.to_row5 (map (deactivate_all ids) rows)
  = filter (fun u => negb (str_in (row5_id u) ids))
           (Enforce.filter_map Enforce.to_row5 rows).
Proof.
  induction rows as [|p rows IH]; simpl; [reflexivity|].
  rewrite to_row5_deactivate_all.
  destruct (Enforce.to_row5 p) as [u|] eqn:Hu.
  - simpl. rewrite (to_row5_id p u Hu).
    destruct (str_in (Enforce.id p) ids); simpl; rewrite IH; reflexivity.
  - destruct (str_in (Enforce.id p) ids); exact IH.
Qed.

Lemma filter_none {A} (g : A -> bool) (l : list A) :
  (forall x, In x l -> g x = false) -> filter g l = [].
Proof.
  induction l as [|x l IH]; intros H; simpl; [reflexivity|].
  rewrite (H x (or_introl eq_refl)). apply IH.
  intros y Hy. apply H. right. exact Hy.
Qed.

(** Once its batch is disabled, a table has nothing left to disable. *)
Lemma nothing_left_to_disable (env : environ) (rows : list Enforce.person) :
  users_to_disable env (deactivated (users_to_disable env rows) rows) = [].
Proof.
  rewrite deactivated_spec. unfold users_to_disable at 1.
  rewrite fetch_after_deactivation.
  apply filter_none. intros u Hu. apply filter_In in Hu. destruct Hu as [Hin Hq].
  apply negb_true_iff in Hq. apply not_true_is_false. intros Hp.
  assert (Hi : In (row5_id u) (map row5_id (users_to_disable env rows))).
  { apply in_map. unfold users_to_disable. apply filter_In.
    split; [exact Hin | exact Hp]. }
  apply str_in_In in Hi. congruence.
Qed.

Lemma succeeded_all (f : Enforce.faults) (batch : list Enforce.row5) :
  (forall user_id, Enforce.update_fault f user_id = None) ->
  succeeded f batch = batch.
Proof.
  intros H. induction batch as [|u batch IH]; simpl; [reflexivity|].
  rewrite H. simpl. rewrite IH. reflexivity.
Qed.

(** [enforce_2fa] is idempotent: after a confirmed run on a storage whose
    writes go through, a second run finds nothing to disable; it returns 0
    without a prompt and leaves the table as the first run left it. *)
Theorem enforce_twice
        (f : Enforce.faults) (env : environ) (rows : list Enforce.person)
        (c : string) (rest typed : list string) :
  fetch_succeeds f ->
  writes_succeed f ->
  lower c = "yes" ->
  fst (Enforce.enforce_2fa f env
         (Enforce.start
            (Enforce.table (snd (Enforce.enforce_2fa f env (Enforce.start rows (c :: rest)))))
            typed))
  = Enforce.Val 0%Z
  /\ Enforce.table
       (snd (Enforce.enforce_2fa f env
               (Enforce.start
                  (Enforce.table (snd (Enforce.enforce_2fa f env (Enforce.start rows (c :: rest)))))
                  typed)))
     = Enforce.table (snd (Enforce.enforce_2fa f env (Enforce.start rows (c :: rest))))
  /\ Enforce.stdin
       (snd (Enforce.enforce_2fa f env
               (Enforce.start
                  (Enforce.table (snd (Enforce.enforce_2fa f env (Enforce.start rows (c :: rest)))))
                  typed)))
     = typed.
Proof.
  intros Hfetch [Hup Hcommit] Hc.
  assert (Hleft : users_to_disable env
                    (Enforce.table (snd (Enforce.enforce_2fa f env
                                           (Enforce.start rows (c :: rest))))) = []).
  { destruct (users_to_disable env rows) as [|u batch] eqn:Hbatch.
    - destruct (nothing_to_do_run f env rows (c :: rest) Hfetch Hbatch)
        as [_ [Ht _]].
      rewrite Ht. exact Hbatch.
    - assert (Hne : users_to_disable env rows <> []) by (rewrite Hbatch; discriminate).
      assert (Hf : update_faults_are_storage_errors f).
      { intros i e He. rewrite Hup in He. discriminate. }
      pose proof (confirmed_run f env rows c rest Hfetch Hc Hf Hne) as H.
      cbv zeta in H. rewrite Hcommit in H. destruct H as [_ [Ht _]].
      rewrite (Ht (succeeded_all f _ Hup)). apply nothing_left_to_disable. }
  destruct (nothing_to_do_run f env _ typed Hfetch Hleft) as [Hr [Ht [Hin _]]].
  repeat split; assumption.
Qed.

Lemma enforce_twice_witness :
  fst (Enforce.enforce_2fa no_faults (exempt_env "a@x.com")
         (Enforce.start
            (Enforce.table (snd (Enforce.enforce_2fa no_faults (exempt_env "a@x.com")
                                   (Enforce.start three_accounts ["YES"]))))
            ["yes"]))
  = Enforce.Val 0%Z
  /\ Enforce.table
       (snd (Enforce.enforce_2fa no_faults (exempt_env "a@x.com")
               (Enforce.start
                  (Enforce.table (snd (Enforce.enforce_2fa no_faults (exempt_env "a@x.com")
                                         (Enforce.start three_accounts ["YES"]))))
                  ["yes"])))
     = Enforce.table (snd (Enforce.enforce_2fa no_faults (exempt_env "a@x.com")
                             (Enforce.start three_accounts ["YES"])))
  /\ Enforce.stdin
       (snd (Enforce.enforce_2fa no_faults (exempt_env "a@x.com")
               (Enforce.start
                  (Enforce.table (snd (Enforce.enforce_2fa no_faults (exempt_env "a@x.com")
                                         (Enforce.start three_accounts ["YES"]))))
                  ["yes"])))
     = ["yes"].
Proof.
  apply (enforce_twice no_faults (exempt_env "a@x.com") three_accounts "YES" [] ["yes"]).
  - split; reflexivity.
  - split; [intros user_id|]; reflexivity.
  - reflexivity.
Defined.

(** ** A failed [UPDATE] in the batch *)

Lemma succeeded_nil_batch (f : Enforce.faults) (batch : list Enforce.row5) :
  succeeded f batch <> batch -> batch <> [].
Proof.
  intros H E. apply H. rewrite E. reflexivity.
Qed.

(** X30.  The per-row handler of [enforce_2fa] does not keep what went
    through before a failure.  After the confirmation, when the [UPDATE]
    of some row raises a storage error and the commit raises nothing, the
    run still returns the number of rows updated before the failure and
    reports them as successfully disabled, but the transaction is aborted,
    the commit publishes nothing and the table is as it was before the
    run. *)
Theorem failed_update_voids_the_batch
        (f : Enforce.faults) (env : environ) (rows : list Enforce.person)
        (c : string) (rest : list string) :
  fetch_succeeds f ->
  lower c = "yes" ->
  update_faults_are_storage_errors f ->
  Enforce.commit_fault f = None ->
  succeeded f (users_to_disable env rows) <> users_to_disable env rows ->
  fst (Enforce.enforce_2fa f env (Enforce.start rows (c :: rest)))
  = Enforce.Val (Z.of_nat (List.length (succeeded f (users_to_disable env rows))))
  /\ Enforce.table (snd (Enforce.enforce_2fa f env (Enforce.start rows (c :: rest))))
     = rows
  /\ In ("Successfully disabled "
         ++ Enforce.str_Z (Z.of_nat (List.length (succeeded f (users_to_disable env rows))))
         ++ " user(s).")
        (Enforce.stdout (snd (Enforce.enforce_2fa f env (Enforce.start rows (c :: rest))))).
Proof.
  intros Hfetch Hc Hf Hcommit Hfailed.
  pose proof (confirmed_run f env rows c rest Hfetch Hc Hf
                (succeeded_nil_batch f _ Hfailed)) as H.
  cbv zeta in H. rewrite Hcommit in H.
  destruct H as [Hresult [_ [Htable [_ [Hout _]]]]].
  split; [exact Hresult|]. split; [exact (Htable Hfailed) | exact Hout].
Qed.

Lemma failed_update_voids_the_batch_witness :
  fst (Enforce.enforce_2fa (update_fails_for "u2" lock_timeout) []
         (Enforce.start three_accounts ["yes"]))
  = Enforce.Val 1%Z
  /\ Enforce.table (snd (Enforce.enforce_2fa (update_fails_for "u2" lock_timeout) []
                           (Enforce.start three_accounts ["yes"])))
     = three_accounts
  /\ In "Successfully disabled 1 user(s)."
        (Enforce.stdout (snd (Enforce.enforce_2fa (update_fails_for "u2" lock_timeout) []
                                (Enforce.start three_accounts ["yes"])))).
Proof.
  apply (failed_update_voids_the_batch (update_fails_for "u2" lock_timeout) []
           three_accounts "yes" []).
  - split; reflexivity.
  - reflexivity.
  - apply update_fails_for_storage_error. reflexivity.
  - reflexivity.
  - vm_compute. discriminate.
Defined.

(** ** Re-enabling one account *)

Ltac unfold_enable :=
  unfold Cli.enable_user, Cli.select_by_email, Cli.update_active_true;
  unfold_cli; cli_projections.

(** An email no account carries: [enable_user] reports it on the error
    stream and returns [False]; it reads no input and writes nothing. *)
Theorem enable_user_not_found
        (f : Enforce.faults) (email : string)
        (rows : list Enforce.person) (typed : list string) :
  fetch_succeeds f ->
  found email rows = None ->
  Cli.enable_user f email (Enforce.start rows typed)
  = (Enforce.Val false,
     {| Enforce.table := rows; Enforce.txn := rows; Enforce.stdin := typed;
        Enforce.stdout := [];
        Enforce.stderr := ["User not found: " ++ email];
        Enforce.calls := [Enforce.Connect; Enforce.CursorClose; Enforce.ConnClose] |}).
Proof.
  intros [Hconn Hsel] Hnone. unfold found in Hnone.
  unfold_enable. rewrite Hconn, Hsel. cli_projections. rewrite Hnone.
  reflexivity.
Qed.

Lemma enable_user_not_found_witness :
  Cli.enable_user no_faults "A@x.com" (Enforce.start inactive_accounts ["yes"])
  = (Enforce.Val false,
     {| Enforce.table := inactive_accounts; Enforce.txn := inactive_accounts;
        Enforce.stdin := ["yes"]; Enforce.stdout := [];
        Enforce.stderr := ["User not found: " ++ "A@x.com"];
        Enforce.calls := [Enforce.Connect; Enforce.CursorClose; Enforce.ConnClose] |}).
Proof.
  apply (enable_user_not_found no_faults "A@x.com" inactive_accounts ["yes"]).
  - split; reflexivity.
  - reflexivity.
Defined.

(** An account that is active already: [enable_user] returns [True] and
    changes nothing; no input is read and neither an [UPDATE] nor a
    commit is issued. *)
Theorem enable_user_already_active
        (f : Enforce.faults) (email : string)
        (rows : list Enforce.person) (typed : list string) (u : Cli.row8) :
  fetch_succeeds f ->
  found email rows = Some u ->
  row8_active u = true ->
  fst (Cli.enable_user f email (Enforce.start rows typed)) = Enforce.Val true
  /\ Enforce.table (snd (Cli.enable_user f email (Enforce.start rows typed))) = rows
  /\ Enforce.stdin (snd (Cli.enable_user f email (Enforce.start rows typed))) = typed
  /\ Enforce.calls (snd (Cli.enable_user f email (Enforce.start rows typed)))
     = [Enforce.Connect; Enforce.CursorClose; Enforce.ConnClose].
Proof.
  intros [Hconn Hsel] Hfound Hact. unfold found in Hfound.
  destruct u as [[[[[[[uid e] fn] ln] totp] eotp] fido] act]. simpl in Hact.
  unfold_enable. rewrite Hconn, Hsel. cli_projections. rewrite Hfound.
  rewrite print_all_spec. cli_projections. rewrite Hact.
  repeat split; reflexivity.
Qed.

Lemma enable_user_already_active_witness :
  fst (Cli.enable_user no_faults "c@x.com" (Enforce.start inactive_accounts []))
  = Enforce.Val true
  /\ Enforce.table (snd (Cli.enable_user no_faults "c@x.com"
                           (Enforce.start inactive_accounts []))) = inactive_accounts
  /\ Enforce.stdin (snd (Cli.enable_user no_faults "c@x.com"
                           (Enforce.start inactive_accounts []))) = []
  /\ Enforce.calls (snd (Cli.enable_user no_faults "c@x.com"
                           (Enforce.start inactive_accounts [])))
     = [Enforce.Connect; Enforce.CursorClose; Enforce.ConnClose].
Proof.
  apply (enable_user_already_active no_faults "c@x.com" inactive_accounts []
           ("u3", "c@x.com", Some "Ada", None, Some false, Some false, Some false,
            Some true)).
  - split; reflexivity.
  - reflexivity.
  - reflexivity.
Defined.

(** An inactive account with a second factor is re-activated without a
    prompt: the accounts with its id get [active] set, the change is
    committed, and nothing is read from the input. *)
Theorem enable_user_with_2fa
        (f : Enforce.faults) (email : string)
        (rows : list Enforce.person) (typed : list string) (u : Cli.row8) :
  fetch_succeeds f ->
  writes_succeed f ->
  found email rows = Some u ->
  row8_active u = false ->
  row8_has_2fa u = true ->
  fst (Cli.enable_user f email (Enforce.start rows typed)) = Enforce.Val true
  /\ Enforce.table (snd (Cli.enable_user f email (Enforce.start rows typed)))
     = activated (row8_id u) rows
  /\ Enforce.stdin (snd (Cli.enable_user f email (Enforce.start rows typed))) = typed.
Proof.
  intros [Hconn Hsel] [Hup Hcommit] Hfound Hact H2fa. unfold found in Hfound.
  destruct u as [[[[[[[uid e] fn] ln] totp] eotp] fido] act].
  simpl in Hact, H2fa.
  unfold_enable. rewrite Hconn, Hsel. cli_projections. rewrite Hfound.
  rewrite print_all_spec. cli_projections. rewrite Hact, H2fa.
  simpl. rewrite Hup. simpl. rewrite Hcommit. simpl. rewrite Hup. simpl.
  repeat split; reflexivity.
Qed.

Lemma enable_user_with_2fa_witness :
  fst (Cli.enable_user no_faults "b@x.com" (Enforce.start inactive_accounts []))
  = Enforce.Val true
  /\ Enforce.table (snd (Cli.enable_user no_faults "b@x.com"
                           (Enforce.start inactive_accounts [])))
     = activated "u2" inactive_accounts
  /\ Enforce.stdin (snd (Cli.enable_user no_faults "b@x.com"
                           (Enforce.start inactive_accounts []))) = [].
Proof.
  apply (enable_user_with_2fa no_faults "b@x.com" inactive_accounts []
           ("u2", "b@x.com", Some "Ada", None, Some true, Some false, Some false,
            Some false)).
  - split; reflexivity.
  - split; [intros i|]; reflexivity.
  - reflexivity.
  - reflexivity.
  - reflexivity.
Defined.

(** X21.  An inactive account without a second factor is re-activated
    exactly when the operator answers [yes] (in any letter case) to the
    warning.  After [yes], on a storage whose writes go through, the calls
    on the connection are the [UPDATE] of the account's id and the commit,
    and the table has the account active.  After any other answer
    [enable_user] returns [False] whatever the storage would answer to a
    write: the connection sees no [UPDATE], no commit and no rollback, and
    the table is as it was. *)
Theorem enable_user_without_2fa
        (f : Enforce.faults) (email : string)
        (rows : list Enforce.person) (c : string) (rest : list string)
        (u : Cli.row8) :
  fetch_succeeds f ->
  found email rows = Some u ->
  row8_active u = false ->
  row8_has_2fa u = false ->
  (lower c = "yes" ->
   writes_succeed f ->
   fst (Cli.enable_user f email (Enforce.start rows (c :: rest))) = Enforce.Val true
   /\ Enforce.table (snd (Cli.enable_user f email (Enforce.start rows (c :: rest))))
      = activated (row8_id u) rows
   /\ Enforce.calls (snd (Cli.enable_user f email (Enforce.start rows (c :: rest))))
      = [Enforce.Connect; Enforce.UpdateActiveTrue (row8_id u); Enforce.Commit;
         Enforce.CursorClose; Enforce.ConnClose])
  /\ (lower c <> "yes" ->
      fst (Cli.enable_user f email (Enforce.start rows (c :: rest))) = Enforce.Val false
      /\ Enforce.table (snd (Cli.enable_user f email (Enforce.start rows (c :: rest))))
         = rows
      /\ Enforce.stdin (snd (Cli.enable_user f email (Enforce.start rows (c :: rest))))
         = rest
      /\ Enforce.calls (snd (Cli.enable_user f email (Enforce.start rows (c :: rest))))
         = [Enforce.Connect; Enforce.CursorClose; Enforce.ConnClose]).
Proof.
  intros [Hconn Hsel] Hfound Hact H2fa. unfold found in Hfound.
  destruct u as [[[[[[[uid e] fn] ln] totp] eotp] fido] act].
  simpl in Hact, H2fa.
  unfold_enable. rewrite Hconn, Hsel. cli_projections. rewrite Hfound.
  rewrite print_all_spec. cli_projections. rewrite Hact, H2fa.
  simpl. split; intros Hc.
  - intros [Hup Hcommit]. apply String.eqb_eq in Hc. rewrite Hc.
    simpl. rewrite Hup. simpl. rewrite Hcommit. simpl. rewrite Hup. simpl. repeat split; reflexivity.
  - apply String.eqb_neq in Hc. rewrite Hc. simpl.
    repeat split; reflexivity.
Qed.

Lemma enable_user_without_2fa_witness :
  (fst (Cli.enable_user no_faults "a@x.com" (Enforce.start inactive_accounts ["Yes"]))
   = Enforce.Val true
   /\ Enforce.table (snd (Cli.enable_user no_faults "a@x.com"
                            (Enforce.start inactive_accounts ["Yes"])))
      = activated "u1" inactive_accounts
   /\ Enforce.calls (snd (Cli.enable_user no_faults "a@x.com"
                            (Enforce.start inactive_accounts ["Yes"])))
      = [Enforce.Connect; Enforce.UpdateActiveTrue "u1"; Enforce.Commit;
         Enforce.CursorClose; Enforce.ConnClose])
  /\ (fst (Cli.enable_user (update_fails_for "u1" lock_timeout) "a@x.com"
             (Enforce.start inactive_accounts ["y"; "yes"]))
      = Enforce.Val false
      /\ Enforce.table (snd (Cli.enable_user (update_fails_for "u1" lock_timeout) "a@x.com"
                               (Enforce.start inactive_accounts ["y"; "yes"])))
         = inactive_accounts
      /\ Enforce.stdin (snd (Cli.enable_user (update_fails_for "u1" lock_timeout) "a@x.com"
                               (Enforce.start inactive_accounts ["y"; "yes"])))
         = ["yes"]
      /\ Enforce.calls (snd (Cli.enable_user (update_fails_for "u1" lock_timeout) "a@x.com"
                               (Enforce.start inactive_accounts ["y"; "yes"])))
         = [Enforce.Connect; Enforce.CursorClose; Enforce.ConnClose]).
Proof.
  split.
  - apply (proj1 (enable_user_without_2fa no_faults "a@x.com" inactive_accounts
                    "Yes" []
                    ("u1", "a@x.com", Some "Ada", None, Some false, Some false,
                     Some false, Some false)
                    (conj eq_refl eq_refl) eq_refl eq_refl eq_refl)).
    + reflexivity.
    + split; [intros i|]; reflexivity.
  - apply (proj2 (enable_user_without_2fa (update_fails_for "u1" lock_timeout)
                    "a@x.com" inactive_accounts "y" ["yes"]
                    ("u1", "a@x.com", Some "Ada", None, Some false, Some false,
                     Some false, Some false)
                    (conj eq_refl eq_refl) eq_refl eq_refl eq_refl)).
    vm_compute. discriminate.
Defined.

Lemma reactivation_run
      (f : Enforce.faults) (email : string)
      (rows : list Enforce.person) (typed : list string) (u : Cli.row8) :
  fetch_succeeds f ->
  writes_succeed f ->
  found email rows = Some u ->
  row8_active u = false ->
  goes_ahead u typed ->
  fst (Cli.enable_user f email (Enforce.start rows typed)) = Enforce.Val true
  /\ Enforce.table (snd (Cli.enable_user f email (Enforce.start rows typed)))
     = activated (row8_id u) rows.
Proof.
  intros [Hconn Hsel] [Hup Hcommit] Hfound Hact Hgo. unfold found in Hfound.
  destruct u as [[[[[[[uid e] fn] ln] totp] eotp] fido] act].
  simpl in Hact. unfold goes_ahead in Hgo. simpl in Hgo.
  unfold_enable. rewrite Hconn, Hsel. cli_projections. rewrite Hfound.
  rewrite print_all_spec. cli_projections. rewrite Hact.
  destruct (Enforce.col_truthy totp || Enforce.col_truthy eotp
            || Enforce.col_truthy fido) eqn:H2fa; simpl.
  - simpl. rewrite Hup. simpl. rewrite Hcommit. simpl. rewrite Hup. simpl. split; reflexivity.
  - destruct Hgo as [Hgo | [c [rest [-> Hc]]]]; [discriminate|].
    apply String.eqb_eq in Hc. simpl. rewrite Hc.
    simpl. rewrite Hup. simpl. rewrite Hcommit. simpl. rewrite Hup. simpl. split; reflexivity.
Qed.

(** A storage error of the [UPDATE] or of the commit during a
    re-activation is answered with a rollback: [enable_user] returns
    [False] and the table is as it was.  (The rollback is assumed to go
    through.) *)
Theorem enable_user_write_failure
        (f : Enforce.faults) (email : string)
        (rows : list Enforce.person) (typed : list string) (u : Cli.row8) (e : exn) :
  fetch_succeeds f ->
  Enforce.rollback_fault f = None ->
  found email rows = Some u ->
  row8_active u = false ->
  goes_ahead u typed ->
  write_fails_with f (row8_id u) e ->
  fst (Cli.enable_user f email (Enforce.start rows typed)) = Enforce.Val false
  /\ Enforce.table (snd (Cli.enable_user f email (Enforce.start rows typed))) = rows
  /\ existsb is_rollback
       (Enforce.calls (snd (Cli.enable_user f email (Enforce.start rows typed))))
     = true.
Proof.
  intros [Hconn Hsel] Hrb Hfound Hact Hgo [He Hfail]. unfold found in Hfound.
  destruct u as [[[[[[[uid em] fn] ln] totp] eotp] fido] act].
  simpl in Hact, Hfail. unfold goes_ahead in Hgo. simpl in Hgo.
  unfold_enable. rewrite Hconn, Hsel. cli_projections. rewrite Hfound.
  rewrite print_all_spec. cli_projections. rewrite Hact.
  destruct (Enforce.col_truthy totp || Enforce.col_truthy eotp
            || Enforce.col_truthy fido) eqn:H2fa; simpl.
  - destruct Hfail as [Hu | [Hu Hcm]]; rewrite Hu; simpl;
      rewrite ?Hcm; simpl; rewrite He; simpl; rewrite Hrb;
      repeat split; reflexivity.
  - destruct Hgo as [Hgo | [c [rest [-> Hc]]]]; [discriminate|].
    apply String.eqb_eq in Hc. simpl. rewrite Hc. simpl.
    destruct Hfail as [Hu | [Hu Hcm]]; rewrite Hu; simpl;
      rewrite ?Hcm; simpl; rewrite He; simpl; rewrite Hrb;
      repeat split; reflexivity.
Qed.

Lemma enable_user_write_failure_witness :
  fst (Cli.enable_user (commit_fails storage_error) "b@x.com"
         (Enforce.start inactive_accounts [])) = Enforce.Val false
  /\ Enforce.table (snd (Cli.enable_user (commit_fails storage_error) "b@x.com"
                           (Enforce.start inactive_accounts []))) = inactive_accounts
  /\ existsb is_rollback
       (Enforce.calls (snd (Cli.enable_user (commit_fails storage_error) "b@x.com"
                              (Enforce.start inactive_accounts []))))
     = true.
Proof.
  apply (enable_user_write_failure (commit_fails storage_error) "b@x.com"
           inactive_accounts []
           ("u2", "b@x.com", Some "Ada", None, Some true, Some false, Some false,
            Some false) storage_error).
  - split; reflexivity.
  - reflexivity.
  - reflexivity.
  - reflexivity.
  - left. reflexivity.
  - split; [reflexivity|]. right. split; reflexivity.
Defined.

(** ** The exit status of the process *)

(** [main --audit] exits with status 0 as soon as the accounts could be
    fetched, however many of them lack a second factor; the status is 1
    when the fetch raises a storage error or the storage cannot be
    reached. *)
Theorem main_audit_status
        (f : Enforce.faults) (env : environ) (now : string)
        (rows : list Enforce.person) (typed : list string) :
  (fetch_succeeds f ->
   process_status (fst (Cli.main f env now run_audit (Enforce.start rows typed))) = 0%Z)
  /\ (forall e, fetch_fails_with f e ->
      process_status (fst (Cli.main f env now run_audit (Enforce.start rows typed))) = 1%Z)
  /\ (forall e, Enforce.connect_fault f = Some e -> is_Psycopg2Error e = true ->
      process_status (fst (Cli.main f env now run_audit (Enforce.start rows typed))) = 1%Z).
Proof.
  unfold Cli.main. cbn [Cli.audit run_audit]. unfold Enforce.bind at 1.
  split; [|split].
  - intros Hfetch.
    destruct (Enforce.audit_users f env now (Enforce.start rows typed))
      as [o s] eqn:Hrun.
    pose proof (audit_run f env now rows typed Hfetch) as [Hres _].
    rewrite Hrun in Hres. simpl in Hres. rewrite Hres.
    unfold Enforce.sys_exit, Enforce.exit_status. simpl.
    destruct (0 <=? Z.of_nat _)%Z eqn:E; [reflexivity|].
    apply Z.leb_gt in E. lia.
  - intros e [Hconn [Hsel He]].
    unfold_cli. rewrite Hconn, Hsel. cli_projections. rewrite He. reflexivity.
  - intros e Hconn He.
    unfold_cli. rewrite Hconn. cli_projections. rewrite He. reflexivity.
Qed.

Lemma main_audit_status_witness :
  process_status (fst (Cli.main no_faults [] "2026-01-01 00:00:00" run_audit
                         (Enforce.start three_accounts []))) = 0%Z.
Proof.
  apply (proj1 (main_audit_status no_faults [] "2026-01-01 00:00:00"
                  three_accounts [])).
  split; reflexivity.
Defined.

(** [main --enforce] exits with status 0 when the operator declines and
    with status 1 when the fetch raises a storage error (the rollback
    going through). *)
Theorem main_enforce_status
        (f : Enforce.faults) (env : environ) (now : string)
        (rows : list Enforce.person) (typed : list string) :
  (forall c rest, typed = c :: rest -> lower c <> "yes" -> fetch_succeeds f ->
   process_status (fst (Cli.main f env now run_enforce (Enforce.start rows typed))) = 0%Z)
  /\ (forall e, fetch_fails_with f e -> Enforce.rollback_fault f = None ->
      process_status (fst (Cli.main f env now run_enforce (Enforce.start rows typed))) = 1%Z).
Proof.
  unfold Cli.main. cbn [Cli.audit Cli.enforce run_enforce]. unfold Enforce.bind at 1.
  split.
  - intros c rest -> Hc Hfetch.
    destruct (Enforce.enforce_2fa f env (Enforce.start rows (c :: rest)))
      as [o s] eqn:Hrun.
    assert (Hres : o = Enforce.Val 0%Z).
    { apply String.eqb_neq in Hc. destruct Hfetch as [Hconn Hsel].
      revert Hrun. unfold_cli. rewrite Hconn, Hsel. cli_projections.
      destruct (Enforce.filter_map Enforce.to_row5 rows) as [|u us];
        [intros H; injection H as <- _; reflexivity|].
      match goal with
      | |- context [match ?l with [] => _ | _ :: _ => _ end] => destruct l
      end; [intros H; injection H as <- _; reflexivity|].
      rewrite print_all_spec. simpl. rewrite Hc. simpl.
      intros H. injection H as <- _. reflexivity. }
    rewrite Hres. reflexivity.
  - intros e [Hconn [Hsel He]] Hrb.
    unfold_cli. rewrite Hconn, Hsel. cli_projections. rewrite He.
    cli_projections. rewrite Hrb. reflexivity.
Qed.

Lemma main_enforce_status_witness :
  process_status (fst (Cli.main (select_fails storage_error) [] "2026-01-01 00:00:00"
                         run_enforce (Enforce.start three_accounts ["yes"]))) = 1%Z.
Proof.
  apply (proj2 (main_enforce_status (select_fails storage_error) []
                  "2026-01-01 00:00:00" three_accounts ["yes"]) storage_error).
  - repeat split.
  - reflexivity.
Defined.

Lemma main_empty_email_returns
      (f : Enforce.faults) (env : environ) (now : string) (s : Enforce.state) :
  Cli.main f env now (run_enable_user "") s = (Enforce.Val tt, s).
Proof. reflexivity. Qed.

Lemma main_unknown_email_fails
      (f : Enforce.faults) (env : environ) (now : string) (email : string)
      (rows : list Enforce.person) (typed : list string) :
  email <> EmptyString ->
  fetch_succeeds f ->
  found email rows = None ->
  process_status (fst (Cli.main f env now (run_enable_user email)
                         (Enforce.start rows typed))) = 1%Z.
Proof.
  intros Hne [Hconn Hsel] Hnone. unfold found in Hnone.
  apply String.eqb_neq in Hne.
  unfold Cli.main. cbn [Cli.audit Cli.enforce Cli.enable_user_arg run_enable_user].
  rewrite Hne. cbn [negb]. unfold Enforce.bind at 1.
  unfold_enable. rewrite Hconn, Hsel. cli_projections. rewrite Hnone.
  reflexivity.
Qed.

Lemma main_active_email_succeeds
      (f : Enforce.faults) (env : environ) (now : string) (email : string)
      (rows : list Enforce.person) (typed : list string) (u : Cli.row8) :
  email <> EmptyString ->
  fetch_succeeds f ->
  found email rows = Some u ->
  row8_active u = true ->
  process_status (fst (Cli.main f env now (run_enable_user email)
                         (Enforce.start rows typed))) = 0%Z.
Proof.
  intros Hne [Hconn Hsel] Hfound Hact. unfold found in Hfound.
  destruct u as [[[[[[[uid e] fn] ln] totp] eotp] fido] act]. simpl in Hact.
  apply String.eqb_neq in Hne.
  unfold Cli.main. cbn [Cli.audit Cli.enforce Cli.enable_user_arg run_enable_user].
  rewrite Hne. cbn [negb]. unfold Enforce.bind at 1.
  unfold_enable. rewrite Hconn, Hsel. cli_projections. rewrite Hfound.
  rewrite print_all_spec. cli_projections. rewrite Hact.
  reflexivity.
Qed.

(** [main --enable-user EMAIL]: with a storage that can be read, the
    process exits with status 1 when no account carries the email and
    with status 0 when the account is active already; for the empty email
    no branch of [main] is taken, so the process ends with status 0
    without a connection to the storage. *)
Theorem main_enable_user_status
        (f : Enforce.faults) (env : environ) (now : string) (email : string)
        (rows : list Enforce.person) (typed : list string) :
  fetch_succeeds f ->
  (email = EmptyString ->
   Cli.main f env now (run_enable_user email) (Enforce.start rows typed)
   = (Enforce.Val tt, Enforce.start rows typed))
  /\ (email <> EmptyString -> found email rows = None ->
      process_status (fst (Cli.main f env now (run_enable_user email)
                             (Enforce.start rows typed))) = 1%Z)
  /\ (forall u, email <> EmptyString -> found email rows = Some u ->
                row8_active u = true ->
      process_status (fst (Cli.main f env now (run_enable_user email)
                             (Enforce.start rows typed))) = 0%Z).
Proof.
  intros Hfetch. split; [|split].
  - intros ->. apply main_empty_email_returns.
  - intros Hne Hnone. apply main_unknown_email_fails; assumption.
  - intros u Hne Hfound Hact.
    apply (main_active_email_succeeds f env now email rows typed u); assumption.
Qed.

Lemma main_enable_user_status_witness :
  process_status (fst (Cli.main no_faults [] "2026-01-01 00:00:00"
                         (run_enable_user "nobody@x.com")
                         (Enforce.start inactive_accounts []))) = 1%Z.
Proof.
  apply (proj1 (proj2 (main_enable_user_status no_faults [] "2026-01-01 00:00:00"
                         "nobody@x.com" inactive_accounts []
                         (conj eq_refl eq_refl)))).
  - discriminate.
  - reflexivity.
Defined.

(** ** The exempt list in the two components *)

Lemma gate_list_lowers_script_list (env : environ) :
  Middleware._get_exempt_users env = map lower (Enforce.get_exempt_users env).
Proof.
  unfold Middleware._get_exempt_users, Enforce.get_exempt_users.
  destruct (negb _); [|reflexivity].
  rewrite map_map. reflexivity.
Qed.

(** The gate's exempt list is the script's list lower-cased entry by
    entry, so every account with an email that the script treats as
    exempt is exempt for the gate as well (the converse fails on
    capitals). *)
Theorem script_exempt_is_gate_exempt (env : environ) (email : string) :
  email <> EmptyString ->
  str_in email (Enforce.get_exempt_users env) = true ->
  Middleware._get_exempt_users env = map lower (Enforce.get_exempt_users env)
  /\ fst (Middleware._is_exempt_user (Middleware.init env) (PyStr email)) = Ok true.
Proof.
  intros Hne Hin. split; [apply gate_list_lowers_script_list|].
  apply is_exempt_user_member; [exact Hne|].
  unfold Middleware.init. cbn [Middleware.exempt_users].
  rewrite gate_list_lowers_script_list.
  apply str_in_In. apply in_map. apply str_in_In. exact Hin.
Qed.

Lemma script_exempt_is_gate_exempt_witness :
  Middleware._get_exempt_users capitalised_env
  = map lower (Enforce.get_exempt_users capitalised_env)
  /\ fst (Middleware._is_exempt_user (Middleware.init capitalised_env)
            (PyStr "Admin@Studio.Example")) = Ok true.
Proof.
  apply (script_exempt_is_gate_exempt capitalised_env "Admin@Studio.Example").
  - discriminate.
  - reflexivity.
Defined.

(** ** Disabling an account and enabling it again *)

Lemma deactivate_all_email (ids : list string) (q : Enforce.person) :
  Enforce.email (deactivate_all ids q) = Enforce.email q.
Proof.
  unfold deactivate_all, Enforce.deactivate.
  destruct (str_in _ _); [rewrite String.eqb_refl|]; reflexivity.
Qed.

(** The row [enable_user] finds for the email of a disabled account, when
    no other account carries that email. *)
Lemma found_after_deactivation (ids : list string) (e : string)
      (p : Enforce.person) (rows : list Enforce.person) :
  In p rows ->
  Enforce.email p = Some e ->
  (forall q, In q rows -> Enforce.email q = Some e -> q = p) ->
  str_in (Enforce.id p) ids = true ->
  found e (map (deactivate_all ids) rows)
  = Some (Enforce.id p, e, Enforce.first_name p, Enforce.last_name p,
          Enforce.totp_enabled p, Enforce.email_otp_enabled p,
          Enforce.fido_enabled p, Some false).
Proof.
  intros Hin He Huniq Hid. unfold found.
  induction rows as [|q rows IH]; [contradiction|].
  simpl. unfold Cli.to_row8 at 1. rewrite deactivate_all_email.
  destruct (Enforce.email q) as [eq|] eqn:Hq.
  - destruct (String.eqb eq e) eqn:E.
    + apply String.eqb_eq in E. subst eq.
      assert (q = p) by (apply Huniq; [left; reflexivity | exact Hq]). subst q.
      simpl. unfold deactivate_all. rewrite Hid.
      unfold Enforce.deactivate. rewrite String.eqb_refl. reflexivity.
    + apply IH.
      * destruct Hin as [-> | Hin]; [|exact Hin].
        rewrite He in Hq. injection Hq as <-. rewrite String.eqb_refl in E.
        discriminate.
      * intros q' Hq' He'. apply Huniq; [right; exact Hq' | exact He'].
  - apply IH.
    + destruct Hin as [-> | Hin]; [congruence | exact Hin].
    + intros q' Hq' He'. apply Huniq; [right; exact Hq' | exact He'].
Qed.

Lemma reactivate_restores (ids : list string) (p : Enforce.person) :
  Enforce.active p = Some true ->
  Cli.activate (Enforce.id p) (deactivate_all ids p) = p.
Proof.
  intros Hact. unfold deactivate_all, Enforce.deactivate, Cli.activate.
  destruct (str_in (Enforce.id p) ids); rewrite ?String.eqb_refl; simpl;
    rewrite ?String.eqb_refl; destruct p; simpl in *; subst; reflexivity.
Qed.

(** Disabling and re-enabling compose to the identity on an account: an
    active account without 2FA that a confirmed [enforce_2fa] disabled is,
    after a confirmed [enable_user] on its email, in the table as it was
    before, and [enable_user] touches no account with another id.  The
    email is carried by that account only, and every write goes through. *)
Theorem disable_then_enable_restores
        (f : Enforce.faults) (env : environ) (rows : list Enforce.person)
        (p : Enforce.person) (e : string) (u : Enforce.row5)
        (c1 c2 : string) (rest1 rest2 : list string) :
  fetch_succeeds f ->
  writes_succeed f ->
  In p rows ->
  Enforce.to_row5 p = Some u ->
  Enforce.email p = Some e ->
  str_in e (Enforce.get_exempt_users env) = false ->
  (forall q, In q rows -> Enforce.email q = Some e -> q = p) ->
  lower c1 = "yes" ->
  lower c2 = "yes" ->
  fst (Cli.enable_user f e
         (Enforce.start
            (Enforce.table (snd (Enforce.enforce_2fa f env (Enforce.start rows (c1 :: rest1)))))
            (c2 :: rest2)))
  = Enforce.Val true
  /\ In p (Enforce.table
             (snd (Cli.enable_user f e
                     (Enforce.start
                        (Enforce.table
                           (snd (Enforce.enforce_2fa f env (Enforce.start rows (c1 :: rest1)))))
                        (c2 :: rest2)))))
  /\ (forall q,
         In q (Enforce.table (snd (Enforce.enforce_2fa f env (Enforce.start rows (c1 :: rest1))))) ->
         Enforce.id q <> Enforce.id p ->
         In q (Enforce.table
                 (snd (Cli.enable_user f e
                         (Enforce.start
                            (Enforce.table
                               (snd (Enforce.enforce_2fa f env
                                       (Enforce.start rows (c1 :: rest1)))))
                            (c2 :: rest2)))))).
Proof.
  intros Hfetch Hwrites Hin Hu He Hex Huniq Hc1 Hc2.
  destruct Hwrites as [Hup Hcommit].
  (* the batch holds the account *)
  assert (Hrow : u = (Enforce.id p, e, Enforce.first_name p, Enforce.last_name p,
                      Enforce.role p)
                 /\ Enforce.active p = Some true
                 /\ Enforce.totp_enabled p = Some false
                 /\ Enforce.email_otp_enabled p = Some false
                 /\ Enforce.fido_enabled p = Some false).
  { revert Hu. unfold Enforce.to_row5. rewrite He.
    destruct (Enforce.active p) as [[|]|], (Enforce.totp_enabled p) as [[|]|],
      (Enforce.email_otp_enabled p) as [[|]|], (Enforce.fido_enabled p) as [[|]|];
      simpl; try discriminate.
    intros H. injection H as <-. repeat split. }
  destruct Hrow as [-> [Hact [Ht [Heo Hfi]]]].
  assert (Hbatch : In (Enforce.id p, e, Enforce.first_name p, Enforce.last_name p,
                       Enforce.role p) (users_to_disable env rows)).
  { unfold users_to_disable. apply filter_In. split.
    - clear -Hin Hu. induction rows as [|q rows IH]; [contradiction|].
      simpl. destruct Hin as [-> | Hin].
      + rewrite Hu. left. reflexivity.
      + destruct (Enforce.to_row5 q); [right|]; auto.
    - rewrite Hex. reflexivity. }
  assert (Hne : users_to_disable env rows <> []).
  { intros H. rewrite H in Hbatch. contradiction. }
  assert (Hf : update_faults_are_storage_errors f).
  { intros i e' He'. rewrite Hup in He'. discriminate. }
  pose proof (confirmed_run f env rows c1 rest1 Hfetch Hc1 Hf Hne) as H.
  cbv zeta in H. rewrite Hcommit in H. destruct H as [_ [Ht1 _]].
  rewrite (Ht1 (succeeded_all f _ Hup)), deactivated_spec.
  set (ids := map row5_id (users_to_disable env rows)).
  assert (Hid : str_in (Enforce.id p) ids = true).
  { apply str_in_In. unfold ids.
    change (Enforce.id p)
      with (row5_id (Enforce.id p, e, Enforce.first_name p, Enforce.last_name p,
                     Enforce.role p)).
    apply in_map. exact Hbatch. }
  pose proof (found_after_deactivation ids e p rows Hin He Huniq Hid) as Hfound.
  destruct (reactivation_run f e (map (deactivate_all ids) rows) (c2 :: rest2) _
              Hfetch (conj Hup Hcommit) Hfound eq_refl) as [Hres Ht2].
  { right. exists c2, rest2. split; [reflexivity | exact Hc2]. }
  rewrite Hres, Ht2. unfold activated. simpl row8_id.
  split; [reflexivity|]. split.
  - rewrite <- (reactivate_restores ids p Hact) at 1.
    apply in_map. apply in_map. exact Hin.
  - intros q Hq Hneq.
    assert (Hq' : Cli.activate (Enforce.id p) q = q).
    { unfold Cli.activate. apply String.eqb_neq in Hneq. rewrite Hneq. reflexivity. }
    rewrite <- Hq'. apply in_map. exact Hq.
Qed.

Lemma disable_then_enable_restores_witness :
  fst (Cli.enable_user no_faults "b@x.com"
         (Enforce.start
            (Enforce.table (snd (Enforce.enforce_2fa no_faults []
                                   (Enforce.start three_accounts ["yes"]))))
            ["yes"]))
  = Enforce.Val true
  /\ In (account "u2" "b@x.com" false true)
        (Enforce.table
           (snd (Cli.enable_user no_faults "b@x.com"
                   (Enforce.start
                      (Enforce.table (snd (Enforce.enforce_2fa no_faults []
                                             (Enforce.start three_accounts ["yes"]))))
                      ["yes"])))).
Proof.
  pose proof (disable_then_enable_restores no_faults [] three_accounts
                (account "u2" "b@x.com" false true) "b@x.com"
                ("u2", "b@x.com", Some "Ada", None, Some "user")
                "yes" "yes" [] []) as H.
  destruct H as [H1 [H2 _]]; try reflexivity.
  - split; reflexivity.
  - split; [intros i|]; reflexivity.
  - simpl. tauto.
  - intros q Hq He. simpl in Hq.
    destruct Hq as [<- | [<- | [<- | []]]]; try reflexivity; discriminate.
  - split; assumption.
Defined.

(** * Properties of start-up *)

Lemma startup_print_all (lines : list string) :
  Startup.print_all lines = (Ok tt, map Startup.Print lines).
Proof.
  induction lines as [|l ls IH]; simpl; [reflexivity|].
  unfold Startup.bind, Startup.print_. rewrite IH. reflexivity.
Qed.

Lemma registered_prints (app : Startup.application) (lines : list string) :
  Startup.registered app (map Startup.Print lines) = [].
Proof.
  induction lines as [|l ls IH]; simpl; [reflexivity | exact IH].
Qed.

Ltac unfold_startup :=
  unfold Startup.inject_2fa_middleware, Startup.zou_app_wrapper,
    Startup.init_2fa_middleware, Startup.Enforce2FAMiddleware,
    Startup.initializing_report, Startup.disabled_report, Startup.failure_report,
    Startup.register, Startup.get_app, Startup.import_, Startup.try_except;
  rewrite ?startup_print_all;
  unfold Startup.bind, Startup.ret.

(** X27.  With enforcement on and both modules importing:
    [inject_2fa_middleware.py], when [zou_app.before_request] goes through,
    registers the handler of one middleware instance twice on [zou_app],
    once in the constructor and once by its own call, and nothing on
    [zou_app.app]; [zou_app_wrapper.py], when [zou_app.app] can be read and
    its [before_request] goes through, registers the handler once, on
    [zou_app.app], and nothing on [zou_app]. *)
Theorem inject_registers_handler_twice (h : Startup.host) (env : environ) :
  Startup.require_2fa env = true ->
  modules_import h ->
  (Startup.before_request h Startup.ZouApp = Ok tt ->
   fst (Startup.inject_2fa_middleware h env) = Ok tt
   /\ handlers (snd (Startup.inject_2fa_middleware h env))
      = ([Middleware.init env; Middleware.init env], []))
  /\ (Startup.zou_app_app h = Ok tt ->
      Startup.before_request h Startup.ZouAppApp = Ok tt ->
      fst (Startup.zou_app_wrapper h env) = Ok tt
      /\ handlers (snd (Startup.zou_app_wrapper h env))
         = ([], [Middleware.init env])).
Proof.
  intros Hon [Happ Hmw].
  assert (Hself : Middleware.require_2fa (Middleware.init env) = true) by exact Hon.
  split.
  - intros Hreg. unfold handlers. unfold_startup.
    rewrite Hon, Happ, Hmw, Hself. rewrite ?startup_print_all.
    rewrite Hreg. simpl. rewrite ?startup_print_all. simpl.
    split; reflexivity.
  - intros Hattr Hreg. unfold handlers. unfold_startup.
    rewrite Hon, Happ, Hattr, Hmw, Hself. rewrite ?startup_print_all.
    rewrite Hreg. simpl. rewrite ?startup_print_all. simpl.
    split; reflexivity.
Qed.

Lemma inject_registers_handler_twice_witness :
  (fst (Startup.inject_2fa_middleware ready_host enforcement_env) = Ok tt
   /\ handlers (snd (Startup.inject_2fa_middleware ready_host enforcement_env))
      = ([Middleware.init enforcement_env; Middleware.init enforcement_env], []))
  /\ (fst (Startup.zou_app_wrapper ready_host enforcement_env) = Ok tt
      /\ handlers (snd (Startup.zou_app_wrapper ready_host enforcement_env))
         = ([], [Middleware.init enforcement_env])).
Proof.
  destruct (inject_registers_handler_twice ready_host enforcement_env
              eq_refl (conj eq_refl eq_refl)) as [Hinject Hwrapper].
  split.
  - apply Hinject. reflexivity.
  - apply Hwrapper; reflexivity.
Defined.

(** With enforcement not switched on, neither script loads the
    middleware or registers a handler, whatever loading it would have
    done; the wrapper still reads [zou_app.app] first. *)
Theorem scripts_without_enforcement (h : Startup.host) (env : environ) :
  Startup.require_2fa env = false ->
  Startup.import_zou_app h = Ok tt ->
  Startup.inject_2fa_middleware h env = Startup.disabled_report
  /\ (Startup.zou_app_app h = Ok tt ->
      Startup.zou_app_wrapper h env = Startup.disabled_report)
  /\ handlers (snd Startup.disabled_report) = ([], []).
Proof.
  intros Hoff Happ.
  unfold Startup.inject_2fa_middleware, Startup.zou_app_wrapper,
    Startup.get_app, Startup.import_.
  rewrite Hoff, Happ. split; [|split].
  - unfold Startup.disabled_report. rewrite startup_print_all. reflexivity.
  - intros Hattr. rewrite Hattr. unfold Startup.disabled_report.
    rewrite startup_print_all. reflexivity.
  - reflexivity.
Qed.

Lemma scripts_without_enforcement_witness :
  Startup.inject_2fa_middleware host_without_middleware [] = Startup.disabled_report
  /\ Startup.zou_app_wrapper host_without_middleware [] = Startup.disabled_report
  /\ handlers (snd Startup.disabled_report) = ([], []).
Proof.
  destruct (scripts_without_enforcement host_without_middleware [] eq_refl eq_refl)
    as [Hinject [Hwrapper Hnone]].
  split; [exact Hinject | split; [apply Hwrapper; reflexivity | exact Hnone]].
Defined.

(** X28.  Start-up fails open inside the [try] of each script and not
    before it.  With enforcement on: when loading the middleware or
    registering on [zou_app] raises, [inject_2fa_middleware.py] catches the
    exception and finishes normally with no handler registered, after
    announcing that Zou starts without 2FA enforcement; so does
    [zou_app_wrapper.py] when [zou_app.app] could be read and loading the
    middleware or registering on [zou_app.app] raises.  When reading
    [zou_app.app] raises, the wrapper raises that exception before its
    [try], whatever the flag, with nothing printed or registered. *)
Theorem failed_install_starts_without_enforcement
        (h : Startup.host) (env : environ) (e : exn) :
  (Startup.require_2fa env = true ->
   install_fails h Startup.ZouApp e ->
   fst (Startup.inject_2fa_middleware h env) = Ok tt
   /\ handlers (snd (Startup.inject_2fa_middleware h env)) = ([], [])
   /\ announces_no_enforcement (snd (Startup.inject_2fa_middleware h env)))
  /\ (Startup.require_2fa env = true ->
      Startup.zou_app_app h = Ok tt ->
      install_fails h Startup.ZouAppApp e ->
      fst (Startup.zou_app_wrapper h env) = Ok tt
      /\ handlers (snd (Startup.zou_app_wrapper h env)) = ([], [])
      /\ announces_no_enforcement (snd (Startup.zou_app_wrapper h env)))
  /\ (Startup.import_zou_app h = Ok tt ->
      Startup.zou_app_app h = Raise e ->
      Startup.zou_app_wrapper h env = (Raise e, [])).
Proof.
  assert (Hself : Startup.require_2fa env = true ->
                  Middleware.require_2fa (Middleware.init env) = true)
    by (intros H; exact H).
  split; [|split].
  - intros Hon [Happ Hfail]. specialize (Hself Hon).
    unfold handlers, announces_no_enforcement. unfold_startup.
    rewrite Hon, Happ.
    destruct Hfail as [Hmw | [Hmw Hreg]]; rewrite Hmw; rewrite ?Hself;
      rewrite ?startup_print_all; rewrite ?Hreg; simpl;
      rewrite ?startup_print_all; simpl; repeat split; tauto.
  - intros Hon Hattr [Happ Hfail]. specialize (Hself Hon).
    unfold handlers, announces_no_enforcement. unfold_startup.
    rewrite Hon, Happ, Hattr.
    destruct Hfail as [Hmw | [Hmw Hreg]]; rewrite Hmw; rewrite ?Hself;
      rewrite ?startup_print_all; rewrite ?Hreg; simpl;
      rewrite ?startup_print_all; simpl; repeat split; tauto.
  - intros Happ Hattr.
    unfold Startup.zou_app_wrapper, Startup.get_app, Startup.import_, Startup.bind.
    rewrite Happ, Hattr. reflexivity.
Qed.

Lemma failed_install_starts_without_enforcement_witness :
  (fst (Startup.inject_2fa_middleware host_without_middleware enforcement_env) = Ok tt
   /\ handlers (snd (Startup.inject_2fa_middleware host_without_middleware
                       enforcement_env)) = ([], [])
   /\ announces_no_enforcement
        (snd (Startup.inject_2fa_middleware host_without_middleware enforcement_env)))
  /\ (fst (Startup.zou_app_wrapper host_without_middleware enforcement_env) = Ok tt
      /\ handlers (snd (Startup.zou_app_wrapper host_without_middleware
                          enforcement_env)) = ([], [])
      /\ announces_no_enforcement
           (snd (Startup.zou_app_wrapper host_without_middleware enforcement_env)))
  /\ Startup.zou_app_wrapper host_without_app_attribute enforcement_env
     = (Raise no_attribute_app, []).
Proof.
  split; [|split].
  - apply (proj1 (failed_install_starts_without_enforcement
                    host_without_middleware enforcement_env
                    (Exn ImportError "No module named 'zou_2fa_middleware'"))).
    + reflexivity.
    + split; [reflexivity | left; reflexivity].
  - apply (proj1 (proj2 (failed_install_starts_without_enforcement
                           host_without_middleware enforcement_env
                           (Exn ImportError "No module named 'zou_2fa_middleware'")))).
    + reflexivity.
    + reflexivity.
    + split; [reflexivity | left; reflexivity].
  - apply (proj2 (proj2 (failed_install_starts_without_enforcement
                           host_without_app_attribute enforcement_env
                           no_attribute_app))); reflexivity.
Defined.
